(** * CompuBot: the conversation engine and its product accumulation

    A shallow embedding of [app/services/conversation_engine.py] together
    with [app/services/quote_service.py],
    [app/repositories/quote_repository.py],
    [app/repositories/conversation_repository.py], the telephone numbers of
    [app/services/user_service.py] and the two helpers of
    [app/api/webhooks/whatsapp.py] that find the user and the conversation
    of a message.

    Conventions.
    - Python [str] values are [string]s holding the UTF-8 encoding of the
      text.  UTF-8 is self-synchronising, so the Python test [w in s]
      (substring on code points) is substring on the encodings.
    - [str.lower] and the NFD/ASCII folding are Unicode tables that live
      outside the repository; they are taken as functions of the
      environment, and every statement holds whatever they are.
    - External collaborators (classifier, extractor, catalogue search, PDF
      renderer, clock, identifier generator) are fields of [Env]; each call
      is also recorded in the [trace] of the world, so that "is not
      invoked" can be stated.
    - The world holds the rows as the database stores them; the
      conversation given to the engine is a row of the session (the identity
      map returns the same object for its id).  [BaseRepository.update]
      assigns the fields, commits and refreshes, so a field assigned a new
      value is what is read back.  The [context] column is a plain [JSON]
      column, without mutation tracking: a dictionary changed in place is
      seen by the code that changed it, but when it is handed back to
      [update] it is the object the attribute already holds, no [UPDATE] is
      issued for it and [refresh] loads the stored value again.  Assigning a
      new dictionary to the attribute is stored by the next commit.
    - [BaseRepository.create] commits and never rolls back.  A commit that
      fails leaves the session unusable until [rollback()], which neither
      the repositories, the quote service nor the engine call: every later
      use of the session, reading an attribute of a row included, raises.  The model keeps this in the
      exception itself ([needs_rollback]), the world being the committed
      data.
    - Amounts are exact rationals; binary floating-point rounding is not
      modelled, and no statement below depends on an amount. *)

From Stdlib Require Import String Ascii List ZArith QArith Bool Lia.
From Stdlib Require OrderedTypeEx.
From stdpp Require Import base option strings gmap pretty.
Import ListNotations.

Local Open Scope string_scope.
Local Open Scope Z_scope.

(** ** Text primitives *)

(** The line feed the source writes as a backslash-n escape. *)
Definition nl : string := String (ascii_of_nat 10) EmptyString.

Module Text.

(** [needle in hay] on Python strings. *)
Fixpoint contains (needle hay : string) : bool :=
  if String.prefix needle hay then true
  else match hay with
       | EmptyString => false
       | String _ rest => contains needle rest
       end.

(** [any(word in text for word in words)]. *)
Definition any_in (words : list string) (text : string) : bool :=
  existsb (fun word => contains word text) words.

(** ["\n".join(lines)]. *)
Fixpoint join (sep : string) (lines : list string) : string :=
  match lines with
  | [] => ""
  | [l] => l
  | l :: rest => l ++ sep ++ join sep rest
  end.

Definition is_digit (c : ascii) : bool :=
  let n := nat_of_ascii c in (48 <=? n)%nat && (n <=? 57)%nat.

Definition all_digits (s : string) : bool :=
  forallb is_digit (list_ascii_of_string s).

Definition digit_val (c : ascii) : Z := Z.of_nat (nat_of_ascii c) - 48.

(** [int(s)] for a run of ASCII decimal digits; anything else is the
    [ValueError] case ([None]).  Python's [int] also accepts signs, blanks,
    underscores and other decimal digits: none of them occurs in a
    sequence number written by [_generate_quote_number]. *)
Definition py_int (s : string) : option Z :=
  match s with
  | EmptyString => None
  | _ => if all_digits s
         then Some (fold_left (fun acc c => 10 * acc + digit_val c)
                              (list_ascii_of_string s) 0)
         else None
  end.

(** [s.split("-")[-1]]: what follows the last hyphen (all of [s] when it
    has none). *)
Fixpoint last_segment_aux (acc : string) (s : string) : string :=
  match s with
  | EmptyString => acc
  | String c rest =>
      if Ascii.eqb c "-"%char then last_segment_aux rest rest
      else last_segment_aux acc rest
  end.

Definition last_segment (s : string) : string := last_segment_aux s s.

Fixpoint zeros (n : nat) : string :=
  match n with
  | O => ""
  | S k => String "0"%char (zeros k)
  end.

(** [f"{n:03d}"]: decimal, padded with zeros on the left to width 3 (the
    sign counts in the width). *)
Definition fmt03d (n : Z) : string :=
  if n <? 0
  then let d := pretty (Z.abs n) in
       "-" ++ zeros (2 - String.length d) ++ d
  else let d := pretty n in
       zeros (3 - String.length d) ++ d.

(** [re.findall(r'\d+', s)]: the maximal runs of ASCII digits, in order
    (the other Unicode decimal digits, which the pattern also accepts, are
    not read as digits here). *)
Fixpoint digit_runs_aux (cur : string) (s : string) : list string :=
  match s with
  | EmptyString => match cur with EmptyString => [] | _ => [cur] end
  | String c rest =>
      if is_digit c then digit_runs_aux (cur ++ String c EmptyString) rest
      else match cur with
           | EmptyString => digit_runs_aux EmptyString rest
           | _ => cur :: digit_runs_aux EmptyString rest
           end
  end.

Definition digit_runs (s : string) : list string := digit_runs_aux "" s.

End Text.

(** ** Data model *)

(** One element of the extractor's answer: a JSON object whose keys
    [name], [quantity] and [unit] may each be missing (the engine does not
    check the shape). *)
Record ProductData := {
  pd_name : option string;
  pd_quantity : option Z;
  pd_unit : option string
}.

(** The same object once it is kept in an accumulation record: a record
    is only built after [product_data["name"]] has been read, so the name
    is there; [quantity] and [unit] are as the extractor gave them. *)
Record Requested := {
  rq_name : string;
  rq_quantity : option Z;
  rq_unit : option string
}.

(** A row of the [products] table, as far as the engine and the quote
    service read it. *)
Record Product := {
  p_id : string;
  p_name : string;
  p_description : option string;
  p_price : Q;
  p_sku : option string;
  p_stock_quantity : Z;
  p_active : bool
}.

(** [Product.to_dict()]: the snapshot kept in an accumulation record. *)
Record CandidateProduct := {
  cp_id : string;
  cp_name : string;
  cp_price : Q;
  cp_sku : option string;
  cp_stock_quantity : Z
}.

Definition to_dict (p : Product) : CandidateProduct :=
  {| cp_id := p_id p; cp_name := p_name p; cp_price := p_price p;
     cp_sku := p_sku p; cp_stock_quantity := p_stock_quantity p |}.

(** An accumulation record: [{"requested": ..., "options": [...]}]. *)
Record AccRecord := {
  requested : Requested;
  options : list CandidateProduct
}.

(** The dictionaries the fallback path accumulates:
    [{"name": ..., "quantity": ..., "unit_price": ...}]. *)
Record FbProduct := {
  fb_name : string;
  fb_quantity : Z;
  fb_unit_price : Q
}.

(** Values stored in the [context] JSON mapping. *)
Inductive CtxValue :=
| VStr (s : string)
| VNum (q : Q)
| VList (l : list FbProduct).

Record User := {
  u_id : string;
  u_name : string
}.

Record Conversation := {
  conv_id : string;
  conv_user_id : string;
  current_state : string;
  context : gmap string CtxValue;
  products_in_progress : list AccRecord
}.

Record Quote := {
  q_id : string;
  q_conversation_id : string;
  q_user_id : string;
  quote_number : string;
  q_subtotal : Q;
  q_tax_rate : Q;
  q_tax_amount : Q;
  q_total : Q;
  q_status : string;
  q_pdf_path : option string;
  q_sent_at : option string
}.

Record QuoteItem := {
  qi_quote_id : string;
  qi_product_name : string;
  qi_product_sku : option string;
  qi_product_description : option string;
  qi_quantity : Z;
  qi_unit_price : Q;
  qi_total_price : Q
}.

(** Calls to the external collaborators, most recent first. *)
Inductive Event :=
| EvDetectIntent (message : string)
| EvExtractProducts (message : string)
| EvSearchProducts (query : string) (limit : nat)
| EvGenerateResponse (message : string)
| EvQuoteBuilder (conversation_id : string)
| EvRenderPdf (quote_id : string).

(** The database as the engine sees it during one turn, and the trace. *)
Record World := {
  conv : Conversation;
  quotes : list Quote;
  quote_items : list QuoteItem;
  trace : list Event
}.

Inductive exn :=
| KeyError (key : string)
| AttributeError (what : string)
| IndexError
| TypeError (msg : string)
| ValueError (msg : string)
| IntegrityError (column : string)
| PendingRollbackError
| ExternalError (msg : string)
| Outside (e : exn).

Inductive result (A : Type) :=
| Ok (a : A)
| Raise (e : exn).
Arguments Ok {A} a.
Arguments Raise {A} e.

(** ** The effect monad: world passing with exceptions

    A raised exception keeps the world reached so far: what was committed
    before the [raise] stays committed. *)

Definition M (A : Type) : Type := World -> result A * World.

Definition ret {A} (a : A) : M A := fun w => (Ok a, w).

Definition bind {A B} (m : M A) (k : A -> M B) : M B :=
  fun w => match m w with
           | (Ok a, w') => k a w'
           | (Raise e, w') => (Raise e, w')
           end.

Definition raise {A} (e : exn) : M A := fun w => (Raise e, w).

(** [try: body except Exception as e: handler]. *)
Definition try_except {A} (body : M A) (handler : exn -> M A) : M A :=
  fun w => match body w with
           | (Ok a, w') => (Ok a, w')
           | (Raise e, w') => handler e w'
           end.

Definition get_conv : M Conversation := fun w => (Ok (conv w), w).

Definition put_conv (c : Conversation) : M unit :=
  fun w => (Ok tt, {| conv := c; quotes := quotes w;
                      quote_items := quote_items w; trace := trace w |}).

Definition emit (ev : Event) : M unit :=
  fun w => (Ok tt, {| conv := conv w; quotes := quotes w;
                      quote_items := quote_items w; trace := ev :: trace w |}).

Definition lift_result {A} (r : result A) : M A := fun w => (r, w).

Notation "'let*' x ':=' m 'in' k" := (bind m (fun x => k))
  (at level 10, x pattern, m at level 100, k at level 200).

(** The exceptions that reach an [except] clause of the engine come from
    three places: Python itself ([KeyError], [AttributeError], ...), the
    database session ([IntegrityError], raised by a commit that failed, and
    [PendingRollbackError], raised by any use of the session after that),
    and the PDF service, which has no session: whatever it raises is
    tagged [Outside]. *)
Definition outside {A} (r : result A) : result A :=
  match r with
  | Ok a => Ok a
  | Raise e => Raise (Outside e)
  end.

(** The session that raised [e] needs a [rollback()] before it can be used
    again. *)
Definition needs_rollback (e : exn) : bool :=
  match e with
  | IntegrityError _ | PendingRollbackError => true
  | _ => false
  end.

(** Code of an [except] clause that begins by using the session (reading
    an attribute of the conversation row, or a query): after a failed
    commit that first use raises, otherwise the code runs. *)
Definition on_session {A} (e : exn) (m : M A) : M A :=
  if needs_rollback e then raise PendingRollbackError else m.

(** The result and the world of a run. *)
Definition outcome {A} (r : result A * World) : result A := fst r.
Definition world_of {A} (r : result A * World) : World := snd r.

(** ** [BaseRepository.update] on the conversation row *)

(** The entries of [obj_in].  [HandBackContext d] is the entry
    ["context": conversation.context] when [conversation.context] is the
    dictionary the row was loaded with, changed in place to [d]: the
    attribute is assigned the object it already holds, which is no change,
    and [refresh] loads the stored context again. *)
Inductive FieldUpdate :=
| SetCurrentState (s : string)
| SetContext (c : gmap string CtxValue)
| SetProductsInProgress (l : list AccRecord)
| HandBackContext (d : gmap string CtxValue).

Definition setattr (c : Conversation) (u : FieldUpdate) : Conversation :=
  match u with
  | SetCurrentState s =>
      {| conv_id := conv_id c; conv_user_id := conv_user_id c;
         current_state := s; context := context c;
         products_in_progress := products_in_progress c |}
  | SetContext m =>
      {| conv_id := conv_id c; conv_user_id := conv_user_id c;
         current_state := current_state c; context := m;
         products_in_progress := products_in_progress c |}
  | SetProductsInProgress l =>
      {| conv_id := conv_id c; conv_user_id := conv_user_id c;
         current_state := current_state c; context := context c;
         products_in_progress := l |}
  | HandBackContext _ => c
  end.

(** [conversation_repository.update(db, db_obj=conversation, obj_in=...)]:
    every field of [obj_in] is assigned, then commit and refresh. *)
Definition repo_update (obj_in : list FieldUpdate) : M Conversation :=
  let* c := get_conv in
  let c' := fold_left setattr obj_in c in
  let* _ := put_conv c' in
  ret c'.

(** [conversation_repository.update_state]. *)
Definition update_state (new_state : string)
    (ctx : option (gmap string CtxValue)) : M Conversation :=
  let update_data :=
    match ctx with
    | Some m => if decide (m = ∅) then [SetCurrentState new_state]
                else [SetCurrentState new_state; SetContext m]
    | None => [SetCurrentState new_state]
    end in
  repo_update update_data.

(** [conversation_repository.update_context] with a new dictionary (it
    also writes [last_activity], which the model does not carry). *)
Definition update_context (m : gmap string CtxValue) : M Conversation :=
  repo_update [SetContext m].

(** The attribute assignment [conversation.context = m] on the session's
    object; it is flushed by the next commit. *)
Definition assign_context (m : gmap string CtxValue) : M unit :=
  let* c := get_conv in put_conv (setattr c (SetContext m)).

(** ** The environment: external collaborators and library functions *)

Record Env := {
  (** [str.lower] *)
  lower : string -> string;
  (** [unicodedata.normalize('NFD', s).encode('ascii', 'ignore').decode('ascii')] *)
  ascii_fold : string -> string;
  (** the ["intent"] entry of [openai.detect_intent(message, context)], when
      the answer has one; the call catches its own failures *)
  detect_intent : string -> gmap string CtxValue -> option string;
  (** [openai.extract_products_from_message] *)
  extract_products_from_message : string -> list ProductData;
  (** [openai.generate_response] *)
  generate_response : string -> gmap string CtxValue -> string;
  (** [product_repository.search_products(db, query, limit)] *)
  search_products : string -> nat -> list Product;
  (** [product_repository.get(db, id)] *)
  product_get : string -> option Product;
  (** [user_repository.get(db, id)] *)
  user_get : string -> option User;
  (** [pdf_service.generate_quote_pdf(pdf_data)]: the path, or the
      exception it raised *)
  render_pdf : Quote -> list QuoteItem -> string -> result string;
  (** [datetime.now().strftime("%Y%m%d")] *)
  today : string;
  (** [datetime.now()], as [update_status] reads it *)
  now : string;
  (** the [uuid4] drawn for the next row of [quotes] *)
  new_quote_id : list Quote -> string;
  (** [str(x)] of a float (an [f"{x}"] field) *)
  str_float : Q -> string;
  (** [f"{x:.2f}"] *)
  fmt_2f : Q -> string;
  (** [settings.API_BASE_URL] *)
  API_BASE_URL : string
}.

(** Sequencing for pure code that may raise. *)
Definition rbind {A B} (r : result A) (k : A -> result B) : result B :=
  match r with
  | Ok a => k a
  | Raise e => Raise e
  end.

Fixpoint rmap {A B} (f : A -> result B) (l : list A) : result (list B) :=
  match l with
  | [] => Ok []
  | x :: rest =>
      rbind (f x) (fun y => rbind (rmap f rest) (fun ys => Ok (y :: ys)))
  end.

(** [enumerate(l, 1)]. *)
Fixpoint enumerate_from {A} (i : Z) (l : list A) : list (Z * A) :=
  match l with
  | [] => []
  | x :: rest => (i, x) :: enumerate_from (i + 1) rest
  end.

Definition Qsum (l : list Q) : Q := fold_left Qplus l (0 # 1)%Q.

(** ** Quote repository and quote service *)

Module QuoteRepo.
Section WithEnv.
Context (E : Env).

Definition get_quotes : M (list Quote) := fun w => (Ok (quotes w), w).

Definition put_quotes (qs : list Quote) : M unit :=
  fun w => (Ok tt, {| conv := conv w; quotes := qs;
                      quote_items := quote_items w; trace := trace w |}).

Definition add_items (its : list QuoteItem) : M unit :=
  fun w => (Ok tt, {| conv := conv w; quotes := quotes w;
                      quote_items := (quote_items w ++ its)%list;
                      trace := trace w |}).

(** The row with the greatest [quote_number] among those matching
    [LIKE prefix%] (the prefix is [COT-] and digits, so the match is a
    prefix test; the numbers are ASCII and are ordered byte by byte). *)
Definition last_quote_with (prefix : string) (qs : list Quote) : option Quote :=
  fold_left
    (fun best q =>
       if String.prefix prefix (quote_number q)
       then match best with
            | None => Some q
            | Some b => if String.ltb (quote_number b) (quote_number q)
                        then Some q else Some b
            end
       else best)
    qs None.

(** [_generate_quote_number]. *)
Definition _generate_quote_number : M string :=
  let date_str := today E in
  let prefix := "COT-" ++ date_str in
  let* qs := get_quotes in
  let* next_number :=
    match last_quote_with prefix qs with
    | Some last_quote =>
        match Text.py_int (Text.last_segment (quote_number last_quote)) with
        | Some last_number => ret (last_number + 1)
        | None => raise (ValueError "invalid literal for int()")
        end
    | None => ret 1
    end in
  ret (prefix ++ "-" ++ Text.fmt03d next_number).

(** The dictionaries [create_quote_from_conversation] hands over. *)
Record ItemData := {
  it_product_name : string;
  it_product_sku : option string;
  it_product_description : option string;
  it_quantity : Z;
  it_unit_price : Q;
  it_total_price : Q
}.

Definition quote_item (quote_id : string) (it : ItemData) : QuoteItem :=
  {| qi_quote_id := quote_id;
     qi_product_name := it_product_name it;
     qi_product_sku := it_product_sku it;
     qi_product_description := it_product_description it;
     qi_quantity := it_quantity it;
     qi_unit_price := it_unit_price it;
     qi_total_price := it_total_price it |}.

(** [BaseRepository.create] on [quotes]: [id] is the primary key and
    [quote_number] is declared [unique].  The commit of a row that breaks
    one of the two raises [IntegrityError] and stores nothing; the session
    is not rolled back ([needs_rollback]). *)
Definition create (q : Quote) : M Quote :=
  let* qs := get_quotes in
  if existsb (fun q' => String.eqb (q_id q') (q_id q)) qs
  then raise (IntegrityError "quotes.id")
  else if existsb (fun q' => String.eqb (quote_number q') (quote_number q)) qs
  then raise (IntegrityError "quotes.quote_number")
  else let* _ := put_quotes (qs ++ [q])%list in ret q.

(** [create_quote]. *)
Definition create_quote (conversation_id user_id : string)
    (items_data : list ItemData) : M Quote :=
  let subtotal :=
    Qsum (map (fun it => inject_Z (it_quantity it) * it_unit_price it)%Q
              items_data) in
  let tax_rate := (16 # 1)%Q in
  let tax_amount := (subtotal * (tax_rate / (100 # 1)))%Q in
  let total := (subtotal + tax_amount)%Q in
  let* quote_number := _generate_quote_number in
  let* qs := get_quotes in
  let* quote :=
    create {| q_id := new_quote_id E qs;
              q_conversation_id := conversation_id;
              q_user_id := user_id;
              quote_number := quote_number;
              q_subtotal := subtotal;
              q_tax_rate := tax_rate;
              q_tax_amount := tax_amount;
              q_total := total;
              q_status := "draft";
              q_pdf_path := None;
              q_sent_at := None |} in
  let* _ := add_items (map (quote_item (q_id quote)) items_data) in
  ret quote.

(** [BaseRepository.get] on [quotes]. *)
Definition get (quote_id : string) : M (option Quote) :=
  let* qs := get_quotes in
  ret (List.find (fun q => String.eqb (q_id q) quote_id) qs).

Definition update_row (quote_id : string) (f : Quote -> Quote) : M unit :=
  let* qs := get_quotes in
  put_quotes (map (fun q => if String.eqb (q_id q) quote_id then f q else q) qs).

(** [add_pdf_path]. *)
Definition add_pdf_path (quote_id pdf_path : string) : M unit :=
  update_row quote_id
    (fun q => {| q_id := q_id q; q_conversation_id := q_conversation_id q;
                 q_user_id := q_user_id q; quote_number := quote_number q;
                 q_subtotal := q_subtotal q; q_tax_rate := q_tax_rate q;
                 q_tax_amount := q_tax_amount q; q_total := q_total q;
                 q_status := q_status q; q_pdf_path := Some pdf_path;
                 q_sent_at := q_sent_at q |}).

(** [update_status]: the status, and [sent_at] when the new status is
    [sent]. *)
Definition update_status (quote_id new_status : string) : M unit :=
  update_row quote_id
    (fun q => {| q_id := q_id q; q_conversation_id := q_conversation_id q;
                 q_user_id := q_user_id q; quote_number := quote_number q;
                 q_subtotal := q_subtotal q; q_tax_rate := q_tax_rate q;
                 q_tax_amount := q_tax_amount q; q_total := q_total q;
                 q_status := new_status; q_pdf_path := q_pdf_path q;
                 q_sent_at := if (new_status =? "sent")%string
                              then Some (now E) else q_sent_at q |}).

(** [quote_item_repository.get_by_quote]. *)
Definition get_by_quote (quote_id : string) : M (list QuoteItem) :=
  fun w => (Ok (List.filter (fun it => String.eqb (qi_quote_id it) quote_id)
                       (quote_items w)), w).

End WithEnv.
End QuoteRepo.

Module QuoteService.
Section WithEnv.
Context (E : Env).

(** [prepare_products_for_quote]: keep the records that have an option,
    each reduced to its first option. *)
Definition prepare_products_for_quote
    (products_in_progress : list AccRecord) : list AccRecord :=
  flat_map
    (fun product_data =>
       match options product_data with
       | [] => []
       | best_option :: _ =>
           let requested := requested product_data in
           [ {| requested :=
                  {| rq_name := rq_name requested;
                     rq_quantity := Some (default 1 (rq_quantity requested));
                     rq_unit := Some (default "piezas" (rq_unit requested)) |};
                options := [best_option] |} ]
       end)
    products_in_progress.

(** One turn of the loop of [create_quote_from_conversation]: the item of
    a product, or nothing when the loop [continue]s. *)
Definition item_for (product_data : AccRecord) : option QuoteRepo.ItemData :=
  match options product_data with
  | [] => None
  | product_info :: _ =>
      let requested_quantity := default 1 (rq_quantity (requested product_data)) in
      match product_get E (cp_id product_info) with
      | None => None
      | Some product =>
          if negb (p_active product) then None
          else
            let requested_quantity :=
              if p_stock_quantity product <? requested_quantity
              then Z.max 1 (p_stock_quantity product)
              else requested_quantity in
            Some {| QuoteRepo.it_product_name := p_name product;
                    QuoteRepo.it_product_sku := p_sku product;
                    QuoteRepo.it_product_description := p_description product;
                    QuoteRepo.it_quantity := requested_quantity;
                    QuoteRepo.it_unit_price := p_price product;
                    QuoteRepo.it_total_price :=
                      (inject_Z requested_quantity * p_price product)%Q |}
      end
  end.

(** [create_quote_from_conversation]; its [except] clause logs and
    re-raises. *)
Definition create_quote_from_conversation (conversation_id user_id : string)
    (products_data : list AccRecord) : M Quote :=
  let* _ := emit (EvQuoteBuilder conversation_id) in
  let quote_items := omap item_for products_data in
  match quote_items with
  | [] => raise (ValueError
            "No se pudieron procesar los productos para la cotización")
  | _ => QuoteRepo.create_quote E conversation_id user_id quote_items
  end.

(** [generate_quote_pdf]; its [except] clause logs and re-raises.  The
    renderer works on plain data, outside the session. *)
Definition generate_quote_pdf (quote_id client_name : string) : M string :=
  let* found := QuoteRepo.get quote_id in
  match found with
  | None => raise (ValueError ("Cotización no encontrada: " ++ quote_id))
  | Some quote =>
      let* quote_items := QuoteRepo.get_by_quote quote_id in
      let* _ := emit (EvRenderPdf quote_id) in
      let* pdf_path :=
        lift_result (outside (render_pdf E quote quote_items client_name)) in
      let* _ := QuoteRepo.add_pdf_path quote_id pdf_path in
      let* _ := QuoteRepo.update_status E quote_id "sent" in
      ret pdf_path
  end.

End WithEnv.
End QuoteService.

(** ** The conversation engine *)

Module Engine.
Section WithEnv.
Context (E : Env).

(** [_transition_to_state]: only the state is written ([context=None]). *)
Definition _transition_to_state (new_state : string) : M Conversation :=
  update_state new_state None.

(** The item assignment [conversation.context[key] = value]: the
    dictionary of the loaded row is changed in place.  The answer is the
    dictionary as Python then reads it; the stored row is not touched. *)
Definition context_setitem (key : string) (value : CtxValue)
    : M (gmap string CtxValue) :=
  let* c := get_conv in
  ret (<[key := value]> (context c)).

(** [_update_conversation_context] after such an assignment: the changed
    dictionary [d] is what [conversation.context] is, and it is handed
    back to [update_context]. *)
Definition _update_conversation_context (d : gmap string CtxValue)
    : M Conversation :=
  repo_update [HandBackContext d].

(** [openai.generate_response(message, conversation.context, history)]. *)
Definition openai_generate_response (message : string) : M string :=
  let* c := get_conv in
  let* _ := emit (EvGenerateResponse message) in
  ret (generate_response E message (context c)).

(** [openai.extract_products_from_message(message)]. *)
Definition openai_extract_products (message : string) : M (list ProductData) :=
  let* _ := emit (EvExtractProducts message) in
  ret (extract_products_from_message E message).

(** [_handle_greeting]. *)
Definition _handle_greeting (user : User) : M string :=
  ret ("¡Hola " ++ u_name user ++ "! 👋 Soy tu asistente de cotizaciones de Computel." ++ nl ++ nl ++
       "Te puedo ayudar a:" ++ nl ++
       "• Generar cotizaciones de productos 📝" ++ nl ++
       "• Consultar precios y disponibilidad 💰" ++ nl ++
       "• Buscar productos específicos 🔍" ++ nl ++ nl ++
       "¿En qué te puedo ayudar hoy?").

(** [_get_help_message]. *)
Definition _get_help_message (current_state : string) : string :=
  let base_help :=
    "Te puedo ayudar con: 🤖" ++ nl ++ nl ++
    "• Generar cotizaciones" ++ nl ++
    "• Buscar productos y precios" ++ nl ++
    "• Consultar disponibilidad" ++ nl ++ nl in
  if (current_state =? "recopilando")%string then
    base_help ++ "Ahora estás agregando productos. Dime qué necesitas o escribe 'listo' para continuar."
  else if (current_state =? "validando")%string then
    base_help ++ "Estás validando tu cotización. Confirma con 'sí' o pide modificaciones."
  else
    base_help ++ "¿En qué te puedo ayudar específicamente?".

(** [_show_found_products]. *)
Definition show_option (entry : Z * CandidateProduct) : string :=
  let (idx, option) := entry in
  let stock_info :=
    if cp_stock_quantity option =? 0 then ""
    else "(Stock: " ++ pretty (cp_stock_quantity option) ++ ")" in
  "  " ++ pretty idx ++ ". **" ++ cp_name option ++ "** - $" ++
  str_float E (cp_price option) ++ " c/u " ++ stock_info.

Definition show_found_item (item : AccRecord) : result (list string) :=
  match rq_quantity (requested item) with
  | None => Raise (KeyError "quantity")
  | Some quantity =>
      let requested_name := rq_name (requested item) in
      let options := options item in
      match options with
      | [best_match] =>
          Ok ["✅ Agregado: **" ++ pretty quantity ++ "x " ++ cp_name best_match ++
              "** - $" ++ str_float E (cp_price best_match) ++ " c/u"]
      | [] => Raise IndexError
      | first :: _ =>
          Ok (List.app
                [nl ++ "🔍 Para '" ++ requested_name ++ "' encontré " ++
                 pretty (length options) ++ " opciones:"]
                (List.app
                   (map show_option (enumerate_from 1 (take 3 options)))
                   ["  → Agregué la opción 1: " ++ cp_name first]))
      end
  end.

Definition _show_found_products (found_products : list AccRecord)
    (not_found : list string) : result string :=
  rbind (rmap show_found_item found_products) (fun shown =>
  let response := concat shown in
  let response :=
    match not_found with
    | [] => response
    | _ => List.app response
             (List.app [nl ++ "❌ No encontré:"]
                (List.app
                   (map (fun product => "  • " ++ product) not_found)
                   [nl ++ "💡 **Tip**: Intenta con otros términos. Ejemplos: 'papel bond', 'pluma bic', 'calculadora'"]))
    end in
  let response :=
    List.app response
      [nl ++ "¿Quieres agregar más productos o generar la cotización?"] in
  Ok (Text.join nl response)).

(** [_show_products_summary]. *)
Definition summary_item (item : AccRecord) : result (list string * Q) :=
  match options item with
  | [] => Ok ([], 0 # 1)%Q
  | saved_product :: _ =>
      match rq_quantity (requested item) with
      | None => Raise (KeyError "quantity")
      | Some quantity =>
          let unit_price := cp_price saved_product in
          let subtotal := (inject_Z quantity * unit_price)%Q in
          Ok (["• " ++ pretty quantity ++ "x **" ++ cp_name saved_product ++ "**";
               "  $" ++ str_float E unit_price ++ " c/u = **$" ++
               fmt_2f E subtotal ++ "**" ++ nl],
              subtotal)
      end
  end.

Definition _show_products_summary (products_in_progress : list AccRecord)
    : result string :=
  match products_in_progress with
  | [] => Ok "No tienes productos en tu cotización."
  | _ =>
      rbind (rmap summary_item products_in_progress) (fun shown =>
      let lines :=
        List.app ["Resumen de tu cotización: 📋" ++ nl] (concat (map fst shown)) in
      let total := Qsum (map snd shown) in
      Ok (Text.join nl
            (List.app lines
               ["**Subtotal estimado: $" ++ fmt_2f E total ++ "**";
                nl ++ "¿Confirmas que proceda con esta cotización?"])))
  end.

(** The search loop shared by [_handle_conversando_state] and
    [_handle_recopilando_state] (the source writes it out twice, word for
    word): the matched records and the names not found, in message
    order. *)
Fixpoint match_products (products_mentioned : list ProductData)
    : M (list AccRecord * list string) :=
  match products_mentioned with
  | [] => ret ([], [])
  | product_data :: rest =>
      match pd_name product_data with
      | None => raise (KeyError "name")
      | Some name =>
          let* _ := emit (EvSearchProducts name 3) in
          let search_results := search_products E name 3 in
          let* tail := match_products rest in
          let (found_products, not_found) := tail in
          match search_results with
          | [] => ret (found_products, name :: not_found)
          | _ => ret ({| requested :=
                           {| rq_name := name;
                              rq_quantity := pd_quantity product_data;
                              rq_unit := pd_unit product_data |};
                         options := map to_dict search_results |}
                      :: found_products, not_found)
          end
      end
  end.

(** The statements after the loop: copy the list, extend the copy, save
    it in the model field, render. *)
Definition merge_and_show (found_products : list AccRecord)
    (not_found : list string) : M string :=
  let* c := get_conv in
  let current_products := List.app (products_in_progress c) found_products in
  let* _ := repo_update [SetProductsInProgress current_products] in
  lift_result (_show_found_products found_products not_found).

(** [_handle_cancel]. *)
Definition _handle_cancel : M string :=
  let* _ := _transition_to_state "conversando" in
  let* d := context_setitem "products_in_progress" (VList []) in
  let* _ := repo_update [SetProductsInProgress []; HandBackContext d] in
  ret ("Proceso cancelado. ✅" ++ nl ++ nl ++
       "¿En qué más te puedo ayudar?").

(** [_handle_goodbye]. *)
Definition _handle_goodbye : M string :=
  let* _ := _transition_to_state "finalizado" in
  ret ("¡Gracias por usar nuestro servicio! 👋" ++ nl ++ nl ++
       "Fue un placer ayudarte. Si necesitas algo más, no dudes en escribir." ++ nl ++
       "¡Que tengas un excelente día!").

(** [_handle_conversando_state]. *)
Definition _handle_conversando_state (user : User) (message : string)
    (intent_result : option string) : M string :=
  let intent := intent_result in
  if decide (intent = Some "COTIZAR") then
    let* _ := _transition_to_state "recopilando" in
    ret ("Perfecto! Te ayudo a generar una cotización. 📋" ++ nl ++ nl ++
         "Puedes decirme los productos que necesitas de varias formas:" ++ nl ++
         "• 'Necesito 100 hojas de papel bond A4'" ++ nl ++
         "• 'Quiero lápices, borradores y cuadernos'" ++ nl ++
         "• 'Me das precio de calculadoras científicas'" ++ nl ++ nl ++
         "¿Qué productos necesitas?")
  else if decide (intent = Some "BUSCAR_PRODUCTOS") then
    let* _ := assign_context {[ "products_in_progress" := VList [] ]} in
    let* _ := _transition_to_state "recopilando" in
    let* products_mentioned := openai_extract_products message in
    match products_mentioned with
    | _ :: _ =>
        let* matched := match_products products_mentioned in
        let (found_products, not_found) := matched in
        merge_and_show found_products not_found
    | [] =>
        ret ("Te puedo ayudar a buscar productos. 🔍" ++ nl ++ nl ++
             "Tenemos una amplia variedad:" ++ nl ++
             "• Papel (bond, couché, cartulina)" ++ nl ++
             "• Útiles escolares (lápices, colores, borradores)" ++ nl ++
             "• Artículos de oficina (folders, calculadoras)" ++ nl ++
             "• Cuadernos y libretas" ++ nl ++ nl ++
             "¿Qué producto específico buscas?")
    end
  else openai_generate_response message.

(** The words of the status query of [_handle_recopilando_state]. *)
Definition status_query_words : list string :=
  ["cuantos"; "cuántos"; "cantidad"; "llevo"; "tengo"; "lista"; "resumen"].

(** The answer to a status query: the prompt for an empty list, or the
    numbered summary. *)
Definition status_summary (products : list AccRecord) : string :=
  let products_count := length products in
  match products with
  | [] =>
      "Aún no tienes productos en tu cotización. 📋" ++ nl ++ nl ++
      "¿Qué productos necesitas agregar?"
  | _ =>
      let product_list :=
        map (fun entry : Z * AccRecord =>
               let (i, product) := entry in
               let product_name := rq_name (requested product) in
               let quantity := default 1 (rq_quantity (requested product)) in
               pretty i ++ ". " ++ pretty quantity ++ "x " ++ product_name)
            (enumerate_from 1 products) in
      let products_text := Text.join nl product_list in
      "Hasta ahora tienes **" ++ pretty products_count ++ " producto(s)** en tu cotización:" ++ nl ++ nl ++
      products_text ++ nl ++ nl ++
      "¿Quieres agregar más productos o generar la cotización?"
  end.

(** [_handle_recopilando_state]. *)
Definition _handle_recopilando_state (message : string)
    (intent_result : option string) : M string :=
  let intent := intent_result in
  let message_lower := lower E message in
  let* c := get_conv in
  if Text.any_in status_query_words message_lower then
    ret (status_summary (products_in_progress c))
  else if decide (intent = Some "AGREGAR_PRODUCTO" \/ intent = Some "BUSCAR_PRODUCTOS") then
    let* products_mentioned := openai_extract_products message in
    match products_mentioned with
    | _ :: _ =>
        let* matched := match_products products_mentioned in
        let (found_products, not_found) := matched in
        merge_and_show found_products not_found
    | [] =>
        ret ("No pude identificar productos específicos en tu mensaje. 🤔" ++ nl ++ nl ++
             "Intenta ser más específico, por ejemplo:" ++ nl ++
             "• '50 hojas de papel bond'" ++ nl ++
             "• '2 calculadoras científicas'" ++ nl ++
             "• 'folders manila tamaño carta'" ++ nl ++ nl ++
             "¿Qué productos necesitas?")
    end
  else if decide (intent = Some "FINALIZAR_COTIZACION") then
    let current_products := products_in_progress c in
    match current_products with
    | _ :: _ =>
        let* _ := _transition_to_state "validando" in
        lift_result (_show_products_summary current_products)
    | [] =>
        ret ("Aún no tienes productos agregados a tu cotización. 📝" ++ nl ++ nl ++
             "¿Qué productos necesitas agregar?")
    end
  else
    ret "Perfecto, sigo anotando productos. ¿Qué más necesitas agregar a tu cotización?".

Definition no_products_message : string :=
  "No hay productos para cotizar. ¿Qué productos necesitas?".

Definition quote_error_message : string :=
  "Lo siento, ocurrió un error al generar tu cotización. ❌" ++ nl ++ nl ++
  "Por favor intenta de nuevo o contacta a nuestro equipo de soporte.".

Definition quote_success_message (quote : Quote) (pdf_url : string)
    (n_products : nat) : string :=
  "¡Cotización generada exitosamente! 🎉" ++ nl ++ nl ++
  "📋 **Número de cotización:** " ++ quote_number quote ++ nl ++
  "💰 **Total:** $" ++ fmt_2f E (q_total quote) ++ " MXN" ++ nl ++
  "📄 **PDF:** " ++ pdf_url ++ nl ++ nl ++
  "Tu cotización incluye " ++ pretty n_products ++ " producto(s) y está válida por 30 días." ++ nl ++ nl ++
  "Para realizar tu pedido, confirma por WhatsApp o llámanos al (55) 1234-5678." ++ nl ++ nl ++
  "¡Gracias por elegir Computel! 🙏".

(** The body of the [try] of [_handle_cotizando_state]. *)
Definition cotizando_body (user : option User) : M string :=
  let* c := get_conv in
  let products_in_progress := products_in_progress c in
  match products_in_progress with
  | [] =>
      let* _ := _transition_to_state "conversando" in
      ret no_products_message
  | _ =>
      let prepared_products :=
        QuoteService.prepare_products_for_quote products_in_progress in
      match user with
      | None => raise (AttributeError "id")
      | Some user =>
          let* quote :=
            QuoteService.create_quote_from_conversation E
              (conv_id c) (u_id user) prepared_products in
          let* pdf_path :=
            QuoteService.generate_quote_pdf E (q_id quote) (u_name user) in
          let* _ := _transition_to_state "finalizado" in
          let* _ :=
            repo_update
              [SetProductsInProgress [];
               SetContext
                 (<["products_in_progress" := VList []]>
                  (<["last_quote_id" := VStr (q_id quote)]>
                   (<["last_quote_number" := VStr (quote_number quote)]>
                    (<["last_pdf_path" := VStr pdf_path]> ∅))))] in
          let pdf_url := API_BASE_URL E ++ "/test/quotes/" ++ q_id quote ++ "/pdf" in
          ret (quote_success_message quote pdf_url (length prepared_products))
      end
  end.

(** [_handle_cotizando_state].  The [except] clause starts with
    [_transition_to_state], which reads the conversation row. *)
Definition _handle_cotizando_state (user : option User) (message : string)
    (intent_result : option string) : M string :=
  try_except (cotizando_body user)
    (fun e =>
       let* _ := on_session e (_transition_to_state "conversando") in
       ret quote_error_message).

(** The test that opens [_handle_validando_state]. *)
Definition confirms (message : string) (intent : option string) : bool :=
  bool_decide (intent = Some "FINALIZAR_COTIZACION")
  || Text.contains "confirmar" (lower E message)
  || Text.contains "sí" (lower E message)
  || Text.contains "si" (lower E message).

(** [_handle_validando_state]. *)
Definition _handle_validando_state (message : string)
    (intent_result : option string) : M string :=
  let intent := intent_result in
  if confirms message intent then
    let* _ := _transition_to_state "cotizando" in
    let* c := get_conv in
    let user := user_get E (conv_user_id c) in
    _handle_cotizando_state user message intent_result
  else if Text.contains "modificar" (lower E message)
          || Text.contains "cambiar" (lower E message) then
    let* _ := _transition_to_state "recopilando" in
    ret ("Sin problema, puedes modificar tu lista. ✏️" ++ nl ++ nl ++
         "¿Qué cambios quieres hacer?")
  else
    ret ("¿Confirmas que proceda con la cotización de estos productos? 🤔" ++ nl ++ nl ++
         "Responde 'sí' para continuar o 'modificar' si quieres hacer cambios.").

(** [_handle_revisando_state]. *)
Definition _handle_revisando_state (message : string)
    (intent_result : option string) : M string :=
  let* _ := _transition_to_state "cotizando" in
  ret "Generando tu cotización final... ⏳".

(** [_handle_message_by_state]. *)
Definition _handle_message_by_state (user : User) (message : string)
    (intent_result : option string) : M string :=
  let* c := get_conv in
  let current_state := current_state c in
  let intent := default "UNKNOWN" intent_result in
  if (intent =? "SALUDO")%string then _handle_greeting user
  else if (intent =? "AYUDA")%string then ret (_get_help_message current_state)
  else if (intent =? "CANCELAR")%string then _handle_cancel
  else if (intent =? "DESPEDIDA")%string then _handle_goodbye
  else if (current_state =? "conversando")%string then
    _handle_conversando_state user message intent_result
  else if (current_state =? "recopilando")%string then
    _handle_recopilando_state message intent_result
  else if (current_state =? "validando")%string then
    _handle_validando_state message intent_result
  else if (current_state =? "revisando")%string then
    _handle_revisando_state message intent_result
  else if (current_state =? "cotizando")%string then
    _handle_cotizando_state (Some user) message intent_result
  else openai_generate_response message.

(** *** The fallback path *)

Definition greeting_words : list string := ["hola"; "hello"; "hi"; "buenas"].

Definition reset_phrases : list string :=
  ["reiniciar"; "restart"; "empezar de nuevo"; "borrar todo"; "nueva sesion"; "reset"].

Definition product_words : list string :=
  ["lápiz"; "lapiz"; "papel"; "cuaderno"; "folder"; "pluma"; "calculadora";
   "bic"; "casio"; "mongol"; "hojas"; "bond"].

Definition quote_words : list string :=
  ["cotización"; "cotizacion"; "precio"; "costo"].

Definition finalize_words : list string :=
  ["generar"; "listo"; "terminar"; "finalizar"].

Definition confirm_words : list string := ["sí"; "si"; "confirmar"; "ok"; "vale"].

Definition help_words : list string := ["ayuda"; "help"; "que puedes hacer"].

(** The context written by the reset command. *)
Definition reset_context : gmap string CtxValue :=
  <["products_in_progress" := VList []]>
  (<["last_intent" := VStr "RESET"]>
   (<["last_confidence" := VNum (1 # 1)]>
    (<["intent_history" := VList []]> ∅))).

Definition fallback_general_response : string :=
  "Te ayudo con cotizaciones de papelería. 📝" ++ nl ++ nl ++
  "Puedes decir:" ++ nl ++
  "• 'Necesito una cotización'" ++ nl ++
  "• 'Quiero lápices y papel'" ++ nl ++
  "• 'Ayuda'" ++ nl ++ nl ++
  "¿Qué necesitas?".

(** The products the fallback recognises in a message, in the order of
    its six tests. *)
Definition fallback_detect (message_lower : string) : list FbProduct :=
  let normalized_message := ascii_fold E message_lower in
  let when (b : bool) (p : FbProduct) : list FbProduct :=
    if b then [p] else [] in
  List.app
    (when (Text.any_in ["lapiz"; "lápiz"] normalized_message
           || Text.any_in ["lapiz"; "lápiz"; "mongol"] message_lower)
          {| fb_name := "Lápices Mongol #2"; fb_quantity := 1;
             fb_unit_price := (85 # 10)%Q |})
  (List.app
    (when (Text.any_in ["papel"; "bond"; "hojas"; "hoja"] message_lower)
          {| fb_name := "Papel Bond A4"; fb_quantity := 1;
             fb_unit_price := (275 # 100)%Q |})
  (List.app
    (when (Text.contains "cuaderno" message_lower)
          {| fb_name := "Cuadernos"; fb_quantity := 1;
             fb_unit_price := (55 # 10)%Q |})
  (List.app
    (when (Text.contains "folder" message_lower
           || Text.contains "manila" message_lower)
          {| fb_name := "Folder Manila"; fb_quantity := 1;
             fb_unit_price := (35 # 1)%Q |})
  (List.app
    (when (Text.contains "pluma" message_lower
           || Text.contains "bic" message_lower)
          {| fb_name := "Plumas BIC Cristal"; fb_quantity := 1;
             fb_unit_price := (45 # 1)%Q |})
    (when (Text.contains "calculadora" message_lower
           || Text.contains "casio" message_lower)
          {| fb_name := "Calculadora Casio FX-991"; fb_quantity := 1;
             fb_unit_price := (285 # 1)%Q |}))))).

(** The first number of the message, when it is in [1, 1000], becomes
    the quantity of the first product. *)
Definition fallback_quantities (message : string) (found_products : list FbProduct)
    : list FbProduct :=
  match Text.digit_runs message, found_products with
  | first_number :: _, first_product :: rest =>
      match Text.py_int first_number with
      | Some quantity =>
          if (0 <? quantity) && (quantity <=? 1000)
          then {| fb_name := fb_name first_product; fb_quantity := quantity;
                  fb_unit_price := fb_unit_price first_product |} :: rest
          else found_products
      | None => found_products
      end
  | _, _ => found_products
  end.

Definition fallback_product_line (prod : FbProduct) : string :=
  "• " ++ pretty (fb_quantity prod) ++ "x " ++ fb_name prod ++ " - $" ++
  fmt_2f E (fb_unit_price prod) ++ " c/u".

(** [_handle_message_fallback], on a session that can be used (its
    caller, [process_message], sees to the other case). *)
Definition _handle_message_fallback (user : User) (message : string) : M string :=
  let message_lower := lower E message in
  let* c := get_conv in
  let current_state := current_state c in
  if Text.any_in greeting_words message_lower then
    ret ("¡Hola " ++ u_name user ++
         "! 👋 Soy tu asistente de cotizaciones de Computel. ¿En qué puedo ayudarte hoy?")
  else if Text.any_in reset_phrases message_lower then
    let* _ := _transition_to_state "conversando" in
    let* _ := assign_context reset_context in
    let* c := get_conv in
    let* _ := repo_update [SetProductsInProgress []; SetContext (context c)] in
    ret ("🔄 **Sesión reiniciada exitosamente** 🔄" ++ nl ++ nl ++
         "¡Hola " ++ u_name user ++ "! 👋 " ++ nl ++ nl ++
         "Estamos empezando desde cero. ¿En qué puedo ayudarte?" ++ nl ++ nl ++
         "Puedes decir:" ++ nl ++
         "• 'Quiero una cotización'" ++ nl ++
         "• 'Necesito productos de papelería'" ++ nl ++
         "• 'Ayuda'" ++ nl ++ nl ++
         "💡 **Tip**: Di 'reiniciar' en cualquier momento para empezar de nuevo.")
  else if Text.any_in product_words message_lower then
    if (current_state =? "recopilando")%string then
      let stored := context c !! "products_in_progress" in
      let found_products :=
        fallback_quantities message (fallback_detect message_lower) in
      match found_products with
      | _ :: _ =>
          match stored with
          | Some (VStr _) | Some (VNum _) => raise (AttributeError "extend")
          | Some (VList products_in_progress) =>
              let* d := context_setitem "products_in_progress"
                          (VList (List.app products_in_progress found_products)) in
              let* _ := _update_conversation_context d in
              ret ("Productos agregados: ✅" ++ nl ++ nl ++
                   Text.join nl (map fallback_product_line found_products) ++ nl ++ nl ++
                   "¿Quieres agregar más productos o generar la cotización?")
          | None =>
              let* d := context_setitem "products_in_progress"
                          (VList found_products) in
              let* _ := _update_conversation_context d in
              ret ("Productos agregados: ✅" ++ nl ++ nl ++
                   Text.join nl (map fallback_product_line found_products) ++ nl ++ nl ++
                   "¿Quieres agregar más productos o generar la cotización?")
          end
      | [] => ret fallback_general_response
      end
    else
      let* _ := _transition_to_state "recopilando" in
      ret ("Perfecto! Te ayudo a generar una cotización. 📋" ++ nl ++ nl ++
           "Por favor repite qué productos necesitas.")
  else if Text.any_in quote_words message_lower then
    let* _ :=
      if (current_state =? "recopilando")%string then ret tt
      else let* _ := _transition_to_state "recopilando" in ret tt in
    let* _ :=
      if Text.any_in ["cotización"; "cotizacion"; "nueva"; "otro"] message_lower
      then let* d := context_setitem "products_in_progress" (VList []) in
           let* _ := _update_conversation_context d in ret tt
      else ret tt in
    ret ("Perfecto! Te ayudo a generar una cotización. 📋" ++ nl ++ nl ++
         "Dime qué productos necesitas, por ejemplo:" ++ nl ++
         "• 'Necesito 100 hojas de papel bond'" ++ nl ++
         "• 'Quiero lápices mongol'" ++ nl ++
         "• 'Me das precio de calculadoras casio'" ++ nl ++ nl ++
         "¿Qué productos necesitas?")
  else if Text.any_in finalize_words message_lower then
    if (current_state =? "recopilando")%string then
      match context c !! "products_in_progress" with
      | None | Some (VList []) | Some (VStr EmptyString) =>
          ret ("Aún no tienes productos agregados a tu cotización. 📝" ++ nl ++ nl ++
               "¿Qué productos necesitas agregar?")
      | Some (VNum q) =>
          if Qeq_bool q (0 # 1)
          then ret ("Aún no tienes productos agregados a tu cotización. 📝" ++ nl ++ nl ++
                    "¿Qué productos necesitas agregar?")
          else raise (TypeError "not iterable")
      | Some (VStr _) => raise (AttributeError "get")
      | Some (VList products_in_progress) =>
          let subtotal :=
            Qsum (map (fun prod => fb_unit_price prod * inject_Z (fb_quantity prod))%Q
                      products_in_progress) in
          let iva := (subtotal * (16 # 100))%Q in
          let total := (subtotal + iva)%Q in
          let* _ := _transition_to_state "validando" in
          let products_summary :=
            Text.join nl (map fallback_product_line products_in_progress) in
          ret ("Resumen de tu cotización: 📋" ++ nl ++ nl ++
               products_summary ++ nl ++ nl ++
               "**Subtotal: $" ++ fmt_2f E subtotal ++ "**" ++ nl ++
               "**IVA (16%): $" ++ fmt_2f E iva ++ "**" ++ nl ++
               "**Total: $" ++ fmt_2f E total ++ "**" ++ nl ++ nl ++
               "¿Confirmas que proceda con esta cotización?")
      end
    else ret fallback_general_response
  else if Text.any_in confirm_words message_lower then
    if (current_state =? "validando")%string then
      let* _ := _transition_to_state "finalizado" in
      ret ("¡Cotización generada exitosamente! 🎉" ++ nl ++ nl ++
           "📋 **Número de cotización:** Q2025-001234" ++ nl ++
           "💰 **Total:** $37.70 MXN" ++ nl ++
           "📄 **PDF generado:** ✅" ++ nl ++ nl ++
           "Tu cotización está válida por 30 días." ++ nl ++ nl ++
           "Para realizar tu pedido, confirma por WhatsApp o llámanos al (55) 1234-5678." ++ nl ++ nl ++
           "¡Gracias por elegir Computel! 🙏")
    else ret fallback_general_response
  else if Text.any_in help_words message_lower then
    ret ("Te puedo ayudar con: 🤖" ++ nl ++ nl ++
         "• Generar cotizaciones de productos" ++ nl ++
         "• Consultar precios y disponibilidad" ++ nl ++
         "• Buscar productos específicos" ++ nl ++ nl ++
         "Escribe 'cotización' para empezar o dime qué productos necesitas.")
  else ret fallback_general_response.

(** [process_message]: classify, handle by state, and on any exception
    of the handling run the fallback, whose first statement reads
    [conversation.current_state]. *)
Definition process_message (user : User) (message : string) : M string :=
  try_except
    (let* c := get_conv in
     let* _ := emit (EvDetectIntent message) in
     let intent_result := detect_intent E message (context c) in
     _handle_message_by_state user message intent_result)
    (fun e => on_session e (_handle_message_fallback user message)).

End WithEnv.
End Engine.

(** Successive turns on the same conversation. *)
Fixpoint run_turns (E : Env) (user : User) (messages : list string) (w : World)
    : list (result string) * World :=
  match messages with
  | [] => ([], w)
  | message :: rest =>
      let (reply, w1) := Engine.process_message E user message w in
      let (replies, w2) := run_turns E user rest w1 in
      (reply :: replies, w2)
  end.

(** ** Test doubles

    A table-driven environment for the worked examples.  Its [lower] and
    [ascii_fold] agree with Python on ASCII text, which is all the
    examples feed them. *)

Module Fixture.

Definition ascii_lower (c : ascii) : ascii :=
  let n := nat_of_ascii c in
  if (65 <=? n)%nat && (n <=? 90)%nat then ascii_of_nat (n + 32) else c.

Fixpoint map_string (f : ascii -> ascii) (s : string) : string :=
  match s with
  | EmptyString => EmptyString
  | String c rest => String (f c) (map_string f rest)
  end.

Fixpoint keep_ascii (s : string) : string :=
  match s with
  | EmptyString => EmptyString
  | String c rest =>
      if (nat_of_ascii c <? 128)%nat then String c (keep_ascii rest)
      else keep_ascii rest
  end.

Definition table_get {A} (table : list (string * A)) (key : string) : option A :=
  match List.find (fun entry => String.eqb (fst entry) key) table with
  | Some entry => Some (snd entry)
  | None => None
  end.

Definition show_Q (q : Q) : string :=
  pretty (Qnum q) ++ "/" ++ pretty (Zpos (Qden q)).

Definition env (intents : list (string * string))
    (extractions : list (string * list ProductData))
    (catalogue : list Product) (users : list User)
    (pdf : result string) : Env :=
  {| lower := map_string ascii_lower;
     ascii_fold := keep_ascii;
     detect_intent := fun message _ => table_get intents message;
     extract_products_from_message :=
       fun message => default [] (table_get extractions message);
     generate_response := fun _ _ => "(respuesta del modelo)";
     search_products :=
       fun query limit =>
         take limit
           (List.filter
              (fun p => p_active p
                        && Text.contains query (map_string ascii_lower (p_name p)))
              catalogue);
     product_get :=
       fun id => List.find (fun p => String.eqb (p_id p) id) catalogue;
     user_get :=
       fun id => List.find (fun u => String.eqb (u_id u) id) users;
     render_pdf := fun _ _ _ => pdf;
     today := "20251020";
     now := "2025-10-20 12:00:00";
     new_quote_id := fun qs => "quote-" ++ pretty (length qs);
     str_float := show_Q;
     fmt_2f := show_Q;
     API_BASE_URL := "http://localhost:8000" |}.

Definition ana : User := {| u_id := "u1"; u_name := "Ana" |}.

Definition pluma : Product :=
  {| p_id := "p1"; p_name := "Pluma BIC Cristal"; p_description := None;
     p_price := (45 # 10)%Q; p_sku := Some "BIC-001";
     p_stock_quantity := 100; p_active := true |}.

Definition cuaderno : Product :=
  {| p_id := "p2"; p_name := "Cuaderno profesional"; p_description := None;
     p_price := (55 # 1)%Q; p_sku := Some "CUA-001";
     p_stock_quantity := 40; p_active := true |}.

Definition item (name : string) (quantity : Z) : ProductData :=
  {| pd_name := Some name; pd_quantity := Some quantity;
     pd_unit := Some "piezas" |}.

Definition record_of (name : string) (quantity : Z) (p : Product) : AccRecord :=
  {| requested := {| rq_name := name; rq_quantity := Some quantity;
                     rq_unit := Some "piezas" |};
     options := [to_dict p] |}.

(** A conversation as [create_conversation] makes it, moved to [state]
    with [products] accumulated. *)
Definition conversation (state : string) (products : list AccRecord) : Conversation :=
  {| conv_id := "c1"; conv_user_id := "u1"; current_state := state;
     context := ∅; products_in_progress := products |}.

Definition world (state : string) (products : list AccRecord) : World :=
  {| conv := conversation state products; quotes := [];
     quote_items := []; trace := [] |}.

End Fixture.

(** ** Reading worlds *)

Definition with_state (s : string) (w : World) : World :=
  {| conv := setattr (conv w) (SetCurrentState s); quotes := quotes w;
     quote_items := quote_items w; trace := trace w |}.

Definition with_event (ev : Event) (w : World) : World :=
  {| conv := conv w; quotes := quotes w; quote_items := quote_items w;
     trace := ev :: trace w |}.

(** The four intents [_handle_message_by_state] serves before it looks at
    the state. *)
Definition is_global_interrupt (intent_result : option string) : bool :=
  let intent := default "UNKNOWN" intent_result in
  (intent =? "SALUDO")%string || (intent =? "AYUDA")%string
  || (intent =? "CANCELAR")%string || (intent =? "DESPEDIDA")%string.

(** The [try] body of the quote generation raises: [user.id] fails, the
    quote builder raises, or the builder returns and the PDF step raises. *)
Definition quote_step_raises (E : Env) (user : option User) (w : World) : Prop :=
  match user with
  | None => True
  | Some u =>
      let prepared :=
        QuoteService.prepare_products_for_quote (products_in_progress (conv w)) in
      match QuoteService.create_quote_from_conversation E
              (conv_id (conv w)) (u_id u) prepared w with
      | (Raise _, _) => True
      | (Ok quote, w1) =>
          match QuoteService.generate_quote_pdf E (q_id quote) (u_name u) w1 with
          | (Raise _, _) => True
          | (Ok _, _) => False
          end
      end
  end.

(** The commit of the new quote fails: the quote builder raises an
    exception after which the session needs a rollback. *)
Definition quote_commit_fails (E : Env) (user : option User) (w : World) : bool :=
  match user with
  | None => false
  | Some u =>
      let prepared :=
        QuoteService.prepare_products_for_quote (products_in_progress (conv w)) in
      match QuoteService.create_quote_from_conversation E
              (conv_id (conv w)) (u_id u) prepared w with
      | (Raise e, _) => needs_rollback e
      | (Ok _, _) => false
      end
  end.

(** ** Vocabulary of the statements *)

(** [preserves R m]: whatever [m] answers, the world it leaves is related
    by [R] to the world it started from. *)
Definition preserves {A} (R : World -> World -> Prop) (m : M A) : Prop :=
  forall w, R w (snd (m w)).

(** The relation of a world to a later one with the same conversation
    row. *)
Definition same_conv (w w' : World) : Prop := conv w' = conv w.

(** What [_handle_cancel] leaves: the state is [conversando], the model
    field is empty, and the stored context is the old one. *)
Definition cancelled (c : Conversation) : Conversation :=
  {| conv_id := conv_id c; conv_user_id := conv_user_id c;
     current_state := "conversando";
     context := context c;
     products_in_progress := [] |}.

(** The answer to a status query, as the claim describes it: the prompt
    for an empty list; otherwise the number of records, one line
    [i. Nx name] per record, numbered from 1 and in the order of the list
    (the quantity is 1 when the record has none), and the closing
    question. *)
Fixpoint summary_lines (i : Z) (products : list AccRecord) : list string :=
  match products with
  | [] => []
  | product :: rest =>
      (pretty i ++ ". " ++ pretty (default 1 (rq_quantity (requested product)))
       ++ "x " ++ rq_name (requested product))
      :: summary_lines (i + 1) rest
  end.

Definition summary_reply (products : list AccRecord) : string :=
  match products with
  | [] =>
      "Aún no tienes productos en tu cotización. 📋" ++ nl ++ nl ++
      "¿Qué productos necesitas agregar?"
  | _ =>
      "Hasta ahora tienes **" ++ pretty (length products) ++
      " producto(s)** en tu cotización:" ++ nl ++ nl ++
      Text.join nl (summary_lines 1 products) ++ nl ++ nl ++
      "¿Quieres agregar más productos o generar la cotización?"
  end.



Definition cancel_message : string :=
  "Proceso cancelado. ✅" ++ nl ++ nl ++ "¿En qué más te puedo ayudar?".


(** An extractor answer without a name makes the state handling raise
    [KeyError], so the turn is served by the fallback. *)
Definition nameless (quantity : Z) : ProductData :=
  {| pd_name := None; pd_quantity := Some quantity; pd_unit := None |}.

(** A context entry after an operation: what it was, or absent, or a
    string, or a number, or the empty list; never a list of product
    records that was not there before. *)
Definition entry_ok (before after : option CtxValue) : Prop :=
  after = before \/ after = None \/ (exists s, after = Some (VStr s))
  \/ (exists q, after = Some (VNum q)) \/ after = Some (VList []).


Definition no_products_written (w w' : World) : Prop :=
  forall key : string,
    entry_ok (context (conv w) !! key) (context (conv w') !! key).

(** The search loop as a function of the extractor's answer. *)
Fixpoint match_pure (E : Env) (products_mentioned : list ProductData)
    : list AccRecord * list string :=
  match products_mentioned with
  | [] => ([], [])
  | product_data :: rest =>
      let (found_products, not_found) := match_pure E rest in
      match pd_name product_data with
      | None => (found_products, not_found)
      | Some name =>
          match search_products E name 3 with
          | [] => (found_products, name :: not_found)
          | search_results =>
              ({| requested :=
                    {| rq_name := name;
                       rq_quantity := pd_quantity product_data;
                       rq_unit := pd_unit product_data |};
                  options := map to_dict search_results |} :: found_products,
               not_found)
          end
      end
  end.

(** The records a batch contributes, in the order of the message. *)
Definition matched (E : Env) (products_mentioned : list ProductData)
    : list AccRecord :=
  fst (match_pure E products_mentioned).

Definition named (product_data : ProductData) : Prop :=
  is_Some (pd_name product_data).

Definition counted (product_data : ProductData) : Prop :=
  is_Some (pd_quantity product_data).

(** The conversation after a merge: the same row with the batch appended
    to its product list. *)
Definition appended (found : list AccRecord) (c : Conversation) : Conversation :=
  setattr c (SetProductsInProgress (List.app (products_in_progress c) found)).

(** A message that adds a batch in [recopilando]: no status word in it,
    an add or search intent, and an extractor answer whose products all
    have a name and a quantity. *)
Definition adds_batch (E : Env) (ctx : gmap string CtxValue) (message : string)
    (batch : list ProductData) : Prop :=
  Text.any_in Engine.status_query_words (lower E message) = false
  /\ (detect_intent E message ctx = Some "AGREGAR_PRODUCTO"
      \/ detect_intent E message ctx = Some "BUSCAR_PRODUCTOS")
  /\ extract_products_from_message E message = batch
  /\ batch <> []
  /\ Forall named batch
  /\ Forall counted batch.




(** The merge on list objects.

    The three statements that save a batch,
    [current_products = list(conversation.products_in_progress or [])],
    [current_products.extend(found_products)] and the assignment of
    [current_products] to the model field, on a heap of Python list
    objects: which object is written, and which is only read. *)

Module ListObjects.

(** Object identities are [positive]s; the heap maps each list object to
    its present content. *)

(** [list(xs)]: a new object holding the elements of [xs]. *)
Definition list_copy (h : gmap positive (list AccRecord)) (xs : list AccRecord)
    : positive * gmap positive (list AccRecord) :=
  let r := fresh (dom h) in (r, <[r := xs]> h).

(** [r.extend(ys)]: the object [r] itself grows. *)
Definition extend (h : gmap positive (list AccRecord)) (r : positive)
    (ys : list AccRecord) : gmap positive (list AccRecord) :=
  alter (fun xs => List.app xs ys) r h.

(** The statements of the merge: [field] is the object the model field
    points to; the answer is the object the field points to afterwards. *)
Definition merge_statements (h : gmap positive (list AccRecord))
    (field : positive) (found_products : list AccRecord)
    : positive * gmap positive (list AccRecord) :=
  let old := default [] (h !! field) in
  let (current_products, h1) := list_copy h old in
  let h2 := extend h1 current_products found_products in
  (current_products, h2).

End ListObjects.

(** ** The rest of the quote service, the conversation store and the callers *)

(** [ConversationEngine.STATES]. *)
Definition STATES : list (string * string) :=
  [("conversando", "Conversación general");
   ("recopilando", "Recopilando productos para cotización");
   ("validando", "Validando productos seleccionados");
   ("revisando", "Revisando cotización antes de generar");
   ("cotizando", "Generando cotización final");
   ("finalizado", "Conversación completada")].

Module Availability.
Section WithEnv.
Context (E : Env).

(** An entry of [validation_result["available_products"]]. *)
Record AvailableProduct := {
  av_product : Product;
  av_requested_quantity : Z;
  av_available_quantity : Z;
  av_adjusted_quantity : Z
}.

(** [validation_result]. *)
Record ValidationResult := {
  valid : bool;
  available_products : list AvailableProduct;
  issues : list string
}.

(** One turn of the loop of [validate_products_availability]. *)
Definition check_product (validation_result : ValidationResult)
    (product_data : AccRecord) : ValidationResult :=
  match options product_data with
  | [] => validation_result
  | product_info :: _ =>
      let requested_quantity := default 1 (rq_quantity (requested product_data)) in
      match product_get E (cp_id product_info) with
      | None =>
          {| valid := false;
             available_products := available_products validation_result;
             issues := List.app (issues validation_result)
                         ["Producto no encontrado: " ++ cp_name product_info] |}
      | Some product =>
          if negb (p_active product) then
            {| valid := false;
               available_products := available_products validation_result;
               issues := List.app (issues validation_result)
                           ["Producto no disponible: " ++ p_name product] |}
          else
            let issues' :=
              if p_stock_quantity product <? requested_quantity
              then List.app (issues validation_result)
                     ["Stock insuficiente para " ++ p_name product ++ ". " ++
                      "Solicitado: " ++ pretty requested_quantity ++
                      ", Disponible: " ++ pretty (p_stock_quantity product)]
              else issues validation_result in
            {| valid := valid validation_result;
               available_products :=
                 List.app (available_products validation_result)
                   [ {| av_product := product;
                        av_requested_quantity := requested_quantity;
                        av_available_quantity := p_stock_quantity product;
                        av_adjusted_quantity :=
                          Z.min requested_quantity (p_stock_quantity product) |} ];
               issues := issues' |}
      end
  end.

(** [QuoteService.validate_products_availability]. *)
Definition validate_products_availability (products_data : list AccRecord)
    : ValidationResult :=
  fold_left check_product products_data
    {| valid := true; available_products := []; issues := [] |}.

End WithEnv.
End Availability.

(** Telephone numbers are sequences of code points: [C] is the type of
    code points, [isdigit] is [str.isdigit] on one of them, and [c5], [c2],
    [c1] are the digits five, two and one. *)
Module Phone.
Section WithCodePoints.
Context {C : Type} `{EqDecision C} (isdigit : C -> bool) (c5 c2 c1 : C).

(** [s.startswith(p)]. *)
Definition startswith (p s : list C) : bool :=
  bool_decide (take (length p) s = p).

(** [UserService._clean_phone_number]. *)
Definition _clean_phone_number (phone_number : list C) : list C :=
  let clean := List.filter isdigit phone_number in
  if startswith [c5; c2; c1] clean && (length clean =? 13)%nat then clean
  else if startswith [c5; c2] clean && (length clean =? 12)%nat then
    List.app [c5; c2; c1] (drop 2 clean)
  else if (length clean =? 10)%nat then List.app [c5; c2; c1] clean
  else clean.

(** A row of [users], as far as authentication reads it. *)
Record UserRow := {
  ur_user : User;
  ur_phone_number : list C;
  ur_active : bool
}.

(** [UserRepository.get_by_phone]. *)
Definition get_by_phone (users : list UserRow) (phone_number : list C)
    : option UserRow :=
  List.find (fun row => bool_decide (ur_phone_number row = phone_number)) users.

(** [UserService.authenticate_user]. *)
Definition authenticate_user (users : list UserRow) (phone_number : list C)
    : option UserRow :=
  let clean_phone := _clean_phone_number phone_number in
  get_by_phone users clean_phone.

(** [_authenticate_user] of the WhatsApp webhook: the user, when there is
    one and it is active. *)
Definition webhook_authenticate_user (users : list UserRow)
    (phone_number : list C) : option UserRow :=
  match authenticate_user users phone_number with
  | Some user => if ur_active user then Some user else None
  | None => None
  end.

End WithCodePoints.
End Phone.

(** The [conversations] and [conversation_messages] tables.

    A table is the list of its rows in insertion order, and a query ending
    in [first()] answers with the first matching row of that list.  The
    primary key of [conversations] is checked on insertion; foreign keys
    are not (SQLite, the configuration of [core/database.py] for local
    use, does not enforce them unless asked to). *)
Module ConversationRepo.

Record Row := {
  r_conv : Conversation;
  r_status : string;
  r_whatsapp_chat_id : string;
  r_total_messages : Z
}.

Record MessageRow := {
  m_conversation_id : string;
  m_message_type : string;
  m_content : string;
  m_intent_detected : option string
}.

Record Store := {
  rows : list Row;
  messages : list MessageRow
}.

Definition is_active_of (user_id : string) (r : Row) : bool :=
  (conv_user_id (r_conv r) =? user_id)%string && (r_status r =? "active")%string.

(** [get_active_by_user]: the first active row of the user. *)
Definition get_active_by_user (s : Store) (user_id : string) : option Row :=
  List.find (is_active_of user_id) (rows s).

(** [BaseRepository.get]. *)
Definition get (s : Store) (id : string) : option Row :=
  List.find (fun r => (conv_id (r_conv r) =? id)%string) (rows s).

(** [BaseRepository.update] on the row whose primary key is [id]. *)
Definition update_row (id : string) (f : Row -> Row) (s : Store) : Store :=
  {| rows := map (fun r => if (conv_id (r_conv r) =? id)%string then f r else r)
                 (rows s);
     messages := messages s |}.

Definition set_status (status : string) (r : Row) : Row :=
  {| r_conv := r_conv r; r_status := status;
     r_whatsapp_chat_id := r_whatsapp_chat_id r;
     r_total_messages := r_total_messages r |}.

Definition set_total_messages (n : Z) (r : Row) : Row :=
  {| r_conv := r_conv r; r_status := r_status r;
     r_whatsapp_chat_id := r_whatsapp_chat_id r;
     r_total_messages := n |}.

(** [create_conversation]; [new_id] is the [uuid4] drawn for the new row,
    and [id] is the primary key of the table. *)
Definition create_conversation (new_id : string) (s : Store)
    (user_id whatsapp_chat_id : string) : result Row * Store :=
  let s1 :=
    match get_active_by_user s user_id with
    | Some existing =>
        update_row (conv_id (r_conv existing)) (set_status "completed") s
    | None => s
    end in
  let row :=
    {| r_conv := {| conv_id := new_id; conv_user_id := user_id;
                    current_state := "conversando"; context := ∅;
                    products_in_progress := [] |};
       r_status := "active";
       r_whatsapp_chat_id := whatsapp_chat_id;
       r_total_messages := 0 |} in
  match get s1 new_id with
  | Some _ => (Raise (IntegrityError "conversations.id"), s1)
  | None => (Ok row, {| rows := List.app (rows s1) [row];
                        messages := messages s1 |})
  end.

(** [add_message]. *)
Definition add_message (s : Store) (conversation_id message_type content : string)
    (intent_detected : option string) : MessageRow * Store :=
  let message :=
    {| m_conversation_id := conversation_id; m_message_type := message_type;
       m_content := content; m_intent_detected := intent_detected |} in
  let s1 := {| rows := rows s; messages := List.app (messages s) [message] |} in
  match get s1 conversation_id with
  | Some conversation =>
      (message,
       update_row conversation_id
         (set_total_messages (r_total_messages conversation + 1)) s1)
  | None => (message, s1)
  end.

(** [complete_conversation] (it also writes [completed_at] and
    [conversation_summary], which the rows of the model do not carry). *)
Definition complete_conversation (s : Store) (conversation_id : string)
    : option Row * Store :=
  match get s conversation_id with
  | Some conversation =>
      let s1 := update_row conversation_id (set_status "completed") s in
      (Some (set_status "completed" conversation), s1)
  | None => (None, s)
  end.

(** [_get_or_create_conversation] of the WhatsApp webhook. *)
Definition _get_or_create_conversation (new_id : string) (s : Store)
    (user_id whatsapp_chat_id : string) : result Row * Store :=
  match get_active_by_user s user_id with
  | Some conversation => (Ok conversation, s)
  | None => create_conversation new_id s user_id whatsapp_chat_id
  end.

End ConversationRepo.

(** ** Vocabulary of the further statements *)

Definition goodbye_message : string :=
  "¡Gracias por usar nuestro servicio! 👋" ++ nl ++ nl ++
  "Fue un placer ayudarte. Si necesitas algo más, no dudes en escribir." ++ nl ++
  "¡Que tengas un excelente día!".

(** The states [_handle_message_by_state] has a handler for. *)
Definition handled_states : list string :=
  ["conversando"; "recopilando"; "validando"; "revisando"; "cotizando"].

(** The states some statement of the engine writes: all of [STATES] but
    [revisando]. *)
Definition written_states : list string :=
  List.filter (fun state => negb (state =? "revisando")%string) (map fst STATES).

(** The state after an operation is the state before it or one the engine
    writes. *)
Definition state_kept_or_written (w w' : World) : Prop :=
  current_state (conv w') = current_state (conv w)
  \/ In (current_state (conv w')) written_states.

(** The quote tables are as they were. *)
Definition quotes_kept (w w' : World) : Prop :=
  quotes w' = quotes w /\ quote_items w' = quote_items w.

(** Only the trace of collaborator calls grew. *)
Definition only_calls (w w' : World) : Prop :=
  conv w' = conv w /\ quotes w' = quotes w /\ quote_items w' = quote_items w.

(** No collaborator was called and no quote was written; the model field
    of the products is as it was or empty. *)
Definition offline (w w' : World) : Prop :=
  trace w' = trace w /\ quotes w' = quotes w /\ quote_items w' = quote_items w
  /\ (products_in_progress (conv w') = products_in_progress (conv w)
      \/ products_in_progress (conv w') = []).

(** The names of a batch, in order. *)
Definition batch_names (batch : list ProductData) : list string :=
  omap pd_name batch.

(** The catalogue has a candidate for the name. *)
Definition has_candidates (E : Env) (name : string) : bool :=
  match search_products E name 3 with
  | [] => false
  | _ => true
  end.

(** A record [_show_products_summary] can print: it has no option (it is
    skipped) or it has a quantity. *)
Definition summarisable (r : AccRecord) : Prop :=
  options r = [] \/ is_Some (rq_quantity (requested r)).

(** The message asks for a change of the list ([_handle_validando_state]). *)
Definition asks_to_modify (E : Env) (message : string) : bool :=
  Text.contains "modificar" (lower E message)
  || Text.contains "cambiar" (lower E message).

(** The product a record stands for when a quote is built: the catalogue
    row of its first option, when it exists and is active. *)
Definition usable_product (E : Env) (r : AccRecord) : option Product :=
  match options r with
  | [] => None
  | product_info :: _ =>
      match product_get E (cp_id product_info) with
      | Some product => if p_active product then Some product else None
      | None => None
      end
  end.

(** The number [_generate_quote_number] gives the [k]-th quote of the
    day. *)
Definition day_number (E : Env) (k : Z) : string :=
  "COT-" ++ today E ++ "-" ++ Text.fmt03d k.

(** Every quote of today in the table carries a number of the day with a
    sequence number from 1 to [bound]. *)
Definition day_numbered (E : Env) (bound : Z) (qs : list Quote) : Prop :=
  forall q, In q qs ->
    String.prefix ("COT-" ++ today E) (quote_number q) = true ->
    exists k : Z, 1 <= k <= bound /\ quote_number q = day_number E k.

(** A row of [quotes] with the given identifier and number. *)
Definition sample_quote (id number : string) : Quote :=
  {| q_id := id; q_conversation_id := "c0"; q_user_id := "u1";
     quote_number := number;
     q_subtotal := (1 # 1)%Q; q_tax_rate := (16 # 1)%Q;
     q_tax_amount := (16 # 100)%Q; q_total := (116 # 100)%Q;
     q_status := "sent"; q_pdf_path := None; q_sent_at := None |}.

(** A world whose table holds the numbers [999] and [1000] of the fixture
    day, as after a thousand quotes. *)
Definition full_day (state : string) (products : list AccRecord) : World :=
  {| conv := Fixture.conversation state products;
     quotes := [sample_quote "quote-998" "COT-20251020-999";
                sample_quote "quote-999" "COT-20251020-1000"];
     quote_items := []; trace := [] |}.

(** The first quote of the fixture day, for two [pluma]. *)
Definition fst_quote : Quote :=
  {| q_id := "quote-0"; q_conversation_id := "c1"; q_user_id := "u1";
     quote_number := "COT-20251020-001";
     q_subtotal := Qsum [(inject_Z 2 * (45 # 10))%Q];
     q_tax_rate := (16 # 1)%Q;
     q_tax_amount :=
       (Qsum [(inject_Z 2 * (45 # 10))%Q] * ((16 # 1) / (100 # 1)))%Q;
     q_total :=
       (Qsum [(inject_Z 2 * (45 # 10))%Q]
        + Qsum [(inject_Z 2 * (45 # 10))%Q] * ((16 # 1) / (100 # 1)))%Q;
     q_status := "draft"; q_pdf_path := None; q_sent_at := None |}.

(** A row of [quotes] after [add_pdf_path] and [update_status] to
    [sent] at the time [sent_at]: three fields are written, the others are
    kept. *)
Definition marked_sent (sent_at pdf_path : string) (q : Quote) : Quote :=
  {| q_id := q_id q; q_conversation_id := q_conversation_id q;
     q_user_id := q_user_id q; quote_number := quote_number q;
     q_subtotal := q_subtotal q; q_tax_rate := q_tax_rate q;
     q_tax_amount := q_tax_amount q; q_total := q_total q;
     q_status := "sent"; q_pdf_path := Some pdf_path;
     q_sent_at := Some sent_at |}.

(** A record the availability check accepts: it has no option, or its
    first option is an active product of the catalogue. *)
Definition acceptable (E : Env) (r : AccRecord) : bool :=
  match options r with
  | [] => true
  | _ => bool_decide (is_Some (usable_product E r))
  end.

(** What the availability check reports for a record whose product is
    usable: the product, the requested quantity of the record (1 when it
    has none), the stock, and the smaller of the two. *)
Definition available_entry (E : Env) (r : AccRecord)
    : option Availability.AvailableProduct :=
  match usable_product E r with
  | Some product =>
      Some {| Availability.av_product := product;
              Availability.av_requested_quantity :=
                default 1 (rq_quantity (requested r));
              Availability.av_available_quantity := p_stock_quantity product;
              Availability.av_adjusted_quantity :=
                Z.min (default 1 (rq_quantity (requested r)))
                      (p_stock_quantity product) |}
  | None => None
  end.

(** The store after the first step of [create_conversation]. *)
Definition previous_completed (s : ConversationRepo.Store) (user_id : string)
    : ConversationRepo.Store :=
  match ConversationRepo.get_active_by_user s user_id with
  | Some existing =>
      ConversationRepo.update_row
        (conv_id (ConversationRepo.r_conv existing))
        (ConversationRepo.set_status "completed") s
  | None => s
  end.

(** At most one conversation of each user is active. *)
Definition one_active_per_user (s : ConversationRepo.Store) : Prop :=
  forall user_id : string,
    (length (List.filter (ConversationRepo.is_active_of user_id)
               (ConversationRepo.rows s)) <= 1)%nat.

(** The number of logged messages of a conversation. *)
Definition logged (s : ConversationRepo.Store) (conversation_id : string) : Z :=
  Z.of_nat (length (List.filter
    (fun m => (ConversationRepo.m_conversation_id m =? conversation_id)%string)
    (ConversationRepo.messages s))).

(** Every row counts the messages logged for it. *)
Definition counters_ok (s : ConversationRepo.Store) : Prop :=
  forall r, In r (ConversationRepo.rows s) ->
    ConversationRepo.r_total_messages r
    = logged s (conv_id (ConversationRepo.r_conv r)).

(** ** Worked examples of the text primitives *)

Example contains_si : Text.contains "si" "necesito ayuda" = true.
Proof. reflexivity. Qed.
Example contains_acc : Text.contains "sí" "ah sí, claro" = true.
Proof. reflexivity. Qed.
Example fmt_7 : Text.fmt03d 7 = "007". Proof. reflexivity. Qed.
Example fmt_1000 : Text.fmt03d 1000 = "1000". Proof. reflexivity. Qed.
Example fmt_m1 : Text.fmt03d (-1) = "-01". Proof. reflexivity. Qed.
Example seg : Text.last_segment "COT-20251020-041" = "041". Proof. reflexivity. Qed.
Example pint : Text.py_int "041" = Some 41. Proof. reflexivity. Qed.
Example runs : Text.digit_runs "quiero 12 lapiz y 3" = ["12"; "3"]. Proof. reflexivity. Qed.

(** ** Proof support *)

Ltac run :=
  unfold Engine._handle_cotizando_state, Engine.cotizando_body,
    Engine._transition_to_state, Engine.context_setitem,
    Engine._update_conversation_context, update_state, update_context,
    assign_context, repo_update, try_except, bind, ret, raise, get_conv,
    put_conv, emit, lift_result, outcome, world_of, with_state, with_event
    in *;
  cbn [fst snd conv quotes quote_items trace fold_left setattr
       current_state context products_in_progress conv_id conv_user_id] in *.

Lemma not_interrupt_tests (intent_result : option string) :
  is_global_interrupt intent_result = false ->
  let intent := default "UNKNOWN" intent_result in
  (intent =? "SALUDO")%string = false /\ (intent =? "AYUDA")%string = false /\
  (intent =? "CANCELAR")%string = false /\ (intent =? "DESPEDIDA")%string = false.
Proof.
  unfold is_global_interrupt. cbv zeta. intros H.
  repeat (apply orb_false_elim in H; destruct H as [H ?]).
  repeat split; assumption.
Qed.

(** *** Frame conditions *)

Section Frames.
Context (R : World -> World -> Prop) `{!Reflexive R} `{!Transitive R}.

Lemma preserves_ret {A} (a : A) : preserves R (ret a).
Proof. intros w. cbn. reflexivity. Qed.

Lemma preserves_raise {A} (e : exn) : preserves R (raise (A := A) e).
Proof. intros w. cbn. reflexivity. Qed.

Lemma preserves_lift_result {A} (r : result A) : preserves R (lift_result r).
Proof. intros w. cbn. reflexivity. Qed.

Lemma preserves_get_conv : preserves R get_conv.
Proof. intros w. cbn. reflexivity. Qed.

Lemma preserves_bind {A B} (m : M A) (k : A -> M B) :
  preserves R m -> (forall a, preserves R (k a)) -> preserves R (bind m k).
Proof.
  intros Hm Hk w. unfold bind. specialize (Hm w).
  destruct (m w) as [[a|e] w1]; cbn in *.
  - etransitivity; [exact Hm|]. apply Hk.
  - exact Hm.
Qed.

Lemma preserves_try_except {A} (body : M A) (handler : exn -> M A) :
  preserves R body -> (forall e, preserves R (handler e)) ->
  preserves R (try_except body handler).
Proof.
  intros Hb Hh w. unfold try_except. specialize (Hb w).
  destruct (body w) as [[a|e] w1]; cbn in *.
  - exact Hb.
  - etransitivity; [exact Hb|]. apply Hh.
Qed.

Lemma preserves_on_session {A} (e : exn) (m : M A) :
  preserves R m -> preserves R (on_session e m).
Proof.
  intros Hm. unfold on_session.
  destruct (needs_rollback e); [apply preserves_raise|exact Hm].
Qed.

End Frames.

#[local] Instance same_conv_refl : Reflexive same_conv.
Proof. intros w. reflexivity. Qed.

#[local] Instance same_conv_trans : Transitive same_conv.
Proof. intros a b c H1 H2. unfold same_conv in *. congruence. Qed.

Ltac frame_step :=
  first
    [ apply preserves_bind; [typeclasses eauto .. | | intros ?]
    | apply preserves_try_except; [typeclasses eauto .. | | intros ?]
    | apply preserves_on_session; [typeclasses eauto .. | ]
    | apply preserves_ret; typeclasses eauto
    | apply preserves_raise; typeclasses eauto
    | apply preserves_lift_result; typeclasses eauto
    | apply preserves_get_conv; typeclasses eauto ].

Lemma emit_same_conv (ev : Event) : preserves same_conv (emit ev).
Proof. intros w. reflexivity. Qed.

Lemma get_quotes_same_conv : preserves same_conv QuoteRepo.get_quotes.
Proof. intros w. reflexivity. Qed.

Lemma put_quotes_same_conv (qs : list Quote) :
  preserves same_conv (QuoteRepo.put_quotes qs).
Proof. intros w. reflexivity. Qed.

Lemma add_items_same_conv (its : list QuoteItem) :
  preserves same_conv (QuoteRepo.add_items its).
Proof. intros w. reflexivity. Qed.

Lemma generate_quote_number_same_conv (E : Env) :
  preserves same_conv (QuoteRepo._generate_quote_number E).
Proof.
  unfold QuoteRepo._generate_quote_number.
  frame_step; [apply get_quotes_same_conv|].
  frame_step; [|frame_step].
  destruct (QuoteRepo.last_quote_with _ _); [|frame_step].
  destruct (Text.py_int _); frame_step.
Qed.

Lemma create_same_conv (q : Quote) : preserves same_conv (QuoteRepo.create q).
Proof.
  unfold QuoteRepo.create.
  frame_step; [apply get_quotes_same_conv|].
  destruct (existsb _ _); [frame_step|].
  destruct (existsb _ _); [frame_step|].
  frame_step; [apply put_quotes_same_conv|frame_step].
Qed.

Lemma create_quote_same_conv (E : Env) (cid uid : string)
    (items : list QuoteRepo.ItemData) :
  preserves same_conv (QuoteRepo.create_quote E cid uid items).
Proof.
  unfold QuoteRepo.create_quote.
  frame_step; [apply generate_quote_number_same_conv|].
  frame_step; [apply get_quotes_same_conv|].
  frame_step; [apply create_same_conv|].
  frame_step; [apply add_items_same_conv|frame_step].
Qed.

Lemma create_quote_from_conversation_same_conv (E : Env) (cid uid : string)
    (products : list AccRecord) :
  preserves same_conv
    (QuoteService.create_quote_from_conversation E cid uid products).
Proof.
  unfold QuoteService.create_quote_from_conversation.
  frame_step; [apply emit_same_conv|].
  destruct (omap _ _); [frame_step|apply create_quote_same_conv].
Qed.

Lemma update_row_same_conv (quote_id : string) (f : Quote -> Quote) :
  preserves same_conv (QuoteRepo.update_row quote_id f).
Proof.
  unfold QuoteRepo.update_row.
  frame_step; [apply get_quotes_same_conv|apply put_quotes_same_conv].
Qed.

Lemma generate_quote_pdf_same_conv (E : Env) (quote_id client_name : string) :
  preserves same_conv (QuoteService.generate_quote_pdf E quote_id client_name).
Proof.
  unfold QuoteService.generate_quote_pdf, QuoteRepo.get.
  frame_step.
  - frame_step; [apply get_quotes_same_conv|frame_step].
  - destruct a; [|frame_step].
    frame_step; [intros w; reflexivity|].
    frame_step; [apply emit_same_conv|].
    frame_step; [frame_step|].
    frame_step; [apply update_row_same_conv|].
    frame_step; [apply update_row_same_conv|frame_step].
Qed.

(** An exception that leaves [generate_quote_pdf] leaves the session
    usable: the quote was not found, or the renderer raised. *)
Lemma generate_quote_pdf_raise (E : Env) (quote_id client_name : string)
    (w w' : World) (e : exn) :
  QuoteService.generate_quote_pdf E quote_id client_name w = (Raise e, w') ->
  needs_rollback e = false.
Proof.
  unfold QuoteService.generate_quote_pdf, QuoteRepo.get, QuoteRepo.get_quotes,
    QuoteRepo.get_by_quote, QuoteRepo.add_pdf_path, QuoteRepo.update_status,
    QuoteRepo.update_row, QuoteRepo.put_quotes, QuoteRepo.get_quotes,
    bind, ret, raise, emit, lift_result, outside.
  destruct (List.find _ (quotes w)) as [quote|]; [|intros [= <- _]; reflexivity].
  destruct (render_pdf E quote _ client_name) as [path|e']; [discriminate|].
  intros [= <- _]. reflexivity.
Qed.

(** The [except] clause of the quote generation, by the exception it
    caught: after a failed commit its first statement raises, otherwise it
    moves the conversation to [conversando] and answers with the failure
    message. *)
Lemma cotizando_except (E : Env) (user : option User) (message : string)
    (intent : option string) (w w1 : World) (e : exn) :
  Engine.cotizando_body E user w = (Raise e, w1) ->
  Engine._handle_cotizando_state E user message intent w
  = if needs_rollback e then (Raise PendingRollbackError, w1)
    else (Ok Engine.quote_error_message, with_state "conversando" w1).
Proof.
  intros H. unfold Engine._handle_cotizando_state, try_except. rewrite H.
  unfold on_session, bind. destruct (needs_rollback e); reflexivity.
Qed.

(** When the [try] body raises on a non-empty list, the conversation row
    is as it was, and the session needs a rollback exactly when the commit
    of the quote failed. *)
Lemma cotizando_body_raise (E : Env) (user : option User) (w w1 : World)
    (e : exn) :
  products_in_progress (conv w) <> [] ->
  Engine.cotizando_body E user w = (Raise e, w1) ->
  conv w1 = conv w /\ needs_rollback e = quote_commit_fails E user w.
Proof.
  intros Hne. unfold Engine.cotizando_body, quote_commit_fails.
  unfold bind at 1. unfold get_conv at 1.
  destruct (products_in_progress (conv w)) as [|r rest] eqn:Hp; [congruence|].
  destruct user as [u|]; [|intros [= <- <-]; split; reflexivity].
  unfold bind at 1.
  pose proof (create_quote_from_conversation_same_conv E (conv_id (conv w))
                (u_id u)
                (QuoteService.prepare_products_for_quote (r :: rest)) w) as Hc1.
  destruct (QuoteService.create_quote_from_conversation E _ _ _ w)
    as [[quote|e1] w0] eqn:Hc; cbn in Hc1.
  - unfold bind at 1.
    pose proof (generate_quote_pdf_same_conv E (q_id quote) (u_name u) w0) as Hg1.
    destruct (QuoteService.generate_quote_pdf E _ _ w0) as [[path|e2] w2] eqn:Hg;
      cbn in Hg1.
    + discriminate.
    + intros [= <- <-]. split; [unfold same_conv in *; congruence|].
      exact (generate_quote_pdf_raise E _ _ _ _ _ Hg).
  - intros [= <- <-]. split; [exact Hc1|reflexivity].
Qed.

(** The [try] body raises exactly when [quote_step_raises]. *)
Lemma cotizando_body_raises (E : Env) (user : option User) (w : World) :
  products_in_progress (conv w) <> [] ->
  quote_step_raises E user w ->
  exists e w1, Engine.cotizando_body E user w = (Raise e, w1).
Proof.
  intros Hne. unfold Engine.cotizando_body, quote_step_raises.
  unfold bind at 1. unfold get_conv at 1.
  destruct (products_in_progress (conv w)) as [|r rest] eqn:Hp; [congruence|].
  destruct user as [u|]; [|intros _; eexists _, _; reflexivity].
  unfold bind at 1.
  destruct (QuoteService.create_quote_from_conversation E _ _ _ w)
    as [[quote|e1] w0]; [|intros _; eexists _, _; reflexivity].
  unfold bind at 1.
  destruct (QuoteService.generate_quote_pdf E _ _ w0) as [[path|e2] w2];
    [contradiction|].
  intros _. eexists _, _. reflexivity.
Qed.

(** A failure that leaves the session usable: the handler answers with
    the failure message from the world the body had reached, moved to
    [conversando]; the conversation row is otherwise as it was. *)
Lemma cotizando_recovers (E : Env) (user : option User) (message : string)
    (intent : option string) (w : World) :
  products_in_progress (conv w) <> [] ->
  quote_step_raises E user w ->
  quote_commit_fails E user w = false ->
  exists w1,
    Engine._handle_cotizando_state E user message intent w
    = (Ok Engine.quote_error_message, with_state "conversando" w1)
    /\ conv w1 = conv w.
Proof.
  intros Hne Hraise Hcommit.
  destruct (cotizando_body_raises E user w Hne Hraise) as (e & w1 & Hbody).
  destruct (cotizando_body_raise E user w w1 e Hne Hbody) as [Hconv Hneeds].
  exists w1. rewrite (cotizando_except E user message intent w w1 e Hbody).
  rewrite Hneeds, Hcommit. split; [reflexivity|exact Hconv].
Qed.

(** A failed commit: the handler raises, and the conversation row is as
    it was. *)
Lemma cotizando_breaks (E : Env) (user : option User) (message : string)
    (intent : option string) (w : World) :
  products_in_progress (conv w) <> [] ->
  quote_commit_fails E user w = true ->
  exists w1,
    Engine._handle_cotizando_state E user message intent w
    = (Raise PendingRollbackError, w1)
    /\ conv w1 = conv w.
Proof.
  intros Hne Hcommit.
  assert (quote_step_raises E user w) as Hraise.
  { revert Hcommit. unfold quote_commit_fails, quote_step_raises.
    destruct user as [u|]; [|discriminate].
    cbv zeta.
    destruct (QuoteService.create_quote_from_conversation E _ _ _ w)
      as [[quote|e1] w0]; [discriminate|]. intros _. exact I. }
  destruct (cotizando_body_raises E user w Hne Hraise) as (e & w1 & Hbody).
  destruct (cotizando_body_raise E user w w1 e Hne Hbody) as [Hconv Hneeds].
  exists w1. rewrite (cotizando_except E user message intent w w1 e Hbody).
  rewrite Hneeds, Hcommit. split; [reflexivity|exact Hconv].
Qed.

(** *** How [process_message] reaches the handlers *)

Lemma process_message_ok (E : Env) (user : User) (message reply : string)
    (w w' : World) :
  Engine._handle_message_by_state E user message
    (detect_intent E message (context (conv w)))
    (with_event (EvDetectIntent message) w) = (Ok reply, w') ->
  Engine.process_message E user message w = (Ok reply, w').
Proof.
  intros H. unfold Engine.process_message, try_except, bind, get_conv, emit.
  unfold with_event in H. rewrite H. reflexivity.
Qed.

Lemma process_message_raise (E : Env) (user : User) (message : string)
    (e : exn) (w w1 : World) :
  Engine._handle_message_by_state E user message
    (detect_intent E message (context (conv w)))
    (with_event (EvDetectIntent message) w) = (Raise e, w1) ->
  needs_rollback e = false ->
  Engine.process_message E user message w
  = Engine._handle_message_fallback E user message w1.
Proof.
  intros H He. unfold Engine.process_message, try_except, bind, get_conv, emit.
  unfold with_event in H. rewrite H. unfold on_session. rewrite He.
  reflexivity.
Qed.

Lemma process_message_breaks (E : Env) (user : User) (message : string)
    (e : exn) (w w1 : World) :
  Engine._handle_message_by_state E user message
    (detect_intent E message (context (conv w)))
    (with_event (EvDetectIntent message) w) = (Raise e, w1) ->
  needs_rollback e = true ->
  Engine.process_message E user message w = (Raise PendingRollbackError, w1).
Proof.
  intros H He. unfold Engine.process_message, try_except, bind, get_conv, emit.
  unfold with_event in H. rewrite H. unfold on_session. rewrite He.
  reflexivity.
Qed.

Lemma by_state_handler (E : Env) (user : User) (message : string)
    (intent : option string) (w : World) :
  is_global_interrupt intent = false ->
  Engine._handle_message_by_state E user message intent w
  = let st := current_state (conv w) in
    if (st =? "conversando")%string then
      Engine._handle_conversando_state E user message intent w
    else if (st =? "recopilando")%string then
      Engine._handle_recopilando_state E message intent w
    else if (st =? "validando")%string then
      Engine._handle_validando_state E message intent w
    else if (st =? "revisando")%string then
      Engine._handle_revisando_state message intent w
    else if (st =? "cotizando")%string then
      Engine._handle_cotizando_state E (Some user) message intent w
    else Engine.openai_generate_response E message w.
Proof.
  intros H. apply not_interrupt_tests in H. cbv zeta in H.
  destruct H as (H1 & H2 & H3 & H4).
  unfold Engine._handle_message_by_state, bind, get_conv.
  rewrite H1, H2, H3, H4. cbv zeta.
  destruct (current_state (conv w) =? "conversando")%string; [reflexivity|].
  destruct (current_state (conv w) =? "recopilando")%string; [reflexivity|].
  destruct (current_state (conv w) =? "validando")%string; [reflexivity|].
  destruct (current_state (conv w) =? "revisando")%string; [reflexivity|].
  destruct (current_state (conv w) =? "cotizando")%string; reflexivity.
Qed.

Lemma by_state_cancel (E : Env) (user : User) (message : string)
    (intent : option string) (w : World) :
  intent = Some "CANCELAR" ->
  Engine._handle_message_by_state E user message intent w
  = Engine._handle_cancel w.
Proof.
  intros ->. unfold Engine._handle_message_by_state, bind, get_conv.
  reflexivity.
Qed.

(** A confirmation in [validando]: the state is written, the user row is
    read, and the quote generation runs at once, in the same call. *)
Lemma validando_inline (E : Env) (message : string) (intent : option string)
    (w : World) :
  Engine.confirms E message intent = true ->
  Engine._handle_validando_state E message intent w
  = Engine._handle_cotizando_state E (user_get E (conv_user_id (conv w)))
      message intent (with_state "cotizando" w).
Proof.
  intros H. unfold Engine._handle_validando_state. rewrite H.
  unfold Engine._transition_to_state, update_state, repo_update, bind,
    get_conv, put_conv, ret, with_state.
  cbn [fold_left conv]. reflexivity.
Qed.

(** ** The statements *)



(** C2.  An exception raised while the quote is built or its PDF is
    rendered is caught by the [except] clause of the quote generation, but
    the clause recovers only when the session can still be used.
    - When [user.id] fails, the quote builder raises before or without a
      commit, or the PDF step raises, the handler returns the generic
      failure message and the conversation is in [conversando]; through
      [process_message], on both ways into the handler (a message received
      in [cotizando], a confirmation received in [validando]), the call
      returns that message and the turn ends in [conversando] with the
      product list as it was.
    - When the commit of the new quote fails, the [except] clause itself
      raises: [_transition_to_state] reads the conversation row on a
      session that was never rolled back.  The handler raises, the fallback
      of [process_message] raises in turn at its first statement, and so
      [process_message] raises to its caller with the conversation still
      in [cotizando].
    The last part is such a turn: a confirmation on the day whose numbers
    [999] and [1000] are taken, so that the next number is [1000] again. *)
Theorem C2_failed_commit_leaves_cotizando :
  (forall (E : Env) (user : option User) (message : string)
          (intent : option string) (w : World),
      products_in_progress (conv w) <> [] ->
      quote_step_raises E user w ->
      quote_commit_fails E user w = false ->
      exists w',
        Engine._handle_cotizando_state E user message intent w
        = (Ok Engine.quote_error_message, w')
        /\ current_state (conv w') = "conversando")
  /\
  (forall (E : Env) (user : User) (message : string) (w : World),
      let intent := detect_intent E message (context (conv w)) in
      let w0 := with_event (EvDetectIntent message) w in
      is_global_interrupt intent = false ->
      products_in_progress (conv w) <> [] ->
      (current_state (conv w) = "cotizando"
       /\ quote_step_raises E (Some user) w0
       /\ quote_commit_fails E (Some user) w0 = false)
      \/ (current_state (conv w) = "validando"
          /\ Engine.confirms E message intent = true
          /\ quote_step_raises E (user_get E (conv_user_id (conv w)))
               (with_state "cotizando" w0)
          /\ quote_commit_fails E (user_get E (conv_user_id (conv w)))
               (with_state "cotizando" w0) = false) ->
      exists w',
        Engine.process_message E user message w
        = (Ok Engine.quote_error_message, w')
        /\ current_state (conv w') = "conversando"
        /\ products_in_progress (conv w') = products_in_progress (conv w))
  /\
  (forall (E : Env) (user : option User) (message : string)
          (intent : option string) (w : World),
      products_in_progress (conv w) <> [] ->
      quote_commit_fails E user w = true ->
      exists w',
        Engine._handle_cotizando_state E user message intent w
        = (Raise PendingRollbackError, w')
        /\ conv w' = conv w)
  /\
  (forall (E : Env) (user : User) (message : string) (w : World),
      let intent := detect_intent E message (context (conv w)) in
      let w0 := with_event (EvDetectIntent message) w in
      is_global_interrupt intent = false ->
      products_in_progress (conv w) <> [] ->
      (current_state (conv w) = "cotizando"
       /\ quote_commit_fails E (Some user) w0 = true)
      \/ (current_state (conv w) = "validando"
          /\ Engine.confirms E message intent = true
          /\ quote_commit_fails E (user_get E (conv_user_id (conv w)))
               (with_state "cotizando" w0) = true) ->
      exists w',
        Engine.process_message E user message w
        = (Raise PendingRollbackError, w')
        /\ current_state (conv w') = "cotizando"
        /\ products_in_progress (conv w') = products_in_progress (conv w))
  /\
  Engine.process_message
    (Fixture.env [] [] [Fixture.pluma] [Fixture.ana] (Ok "/tmp/q.pdf"))
    Fixture.ana "si"
    (full_day "validando" [Fixture.record_of "pluma" 2 Fixture.pluma])
  = (Raise PendingRollbackError,
     {| conv :=
          Fixture.conversation "cotizando"
            [Fixture.record_of "pluma" 2 Fixture.pluma];
        quotes := quotes (full_day "validando" []);
        quote_items := [];
        trace := [EvQuoteBuilder "c1"; EvDetectIntent "si"] |}).
Proof.
  split; [|split; [|split; [|split]]].
  - intros E user message intent w Hne Hraise Hcommit.
    destruct (cotizando_recovers E user message intent w Hne Hraise Hcommit)
      as (w1 & Hrun & _).
    eexists. split; [exact Hrun|]. reflexivity.
  - intros E user message w intent w0 Hint Hne Hpath.
    assert (Hdisp := by_state_handler E user message intent w0 Hint).
    cbv zeta in Hdisp.
    replace (current_state (conv w0)) with (current_state (conv w)) in Hdisp
      by reflexivity.
    destruct Hpath as [(Hst & Hraise & Hcommit) | (Hst & Hconf & Hraise & Hcommit)].
    + rewrite Hst in Hdisp. cbn in Hdisp.
      destruct (cotizando_recovers E (Some user) message intent w0 Hne Hraise
                  Hcommit) as (w1 & Hrun & Hconv).
      rewrite Hrun in Hdisp.
      exists (with_state "conversando" w1).
      split; [apply process_message_ok; exact Hdisp|].
      split; [reflexivity|]. cbn. rewrite Hconv. reflexivity.
    + rewrite Hst in Hdisp. cbn in Hdisp.
      rewrite (validando_inline E message intent w0 Hconf) in Hdisp.
      destruct (cotizando_recovers E (user_get E (conv_user_id (conv w0)))
                  message intent (with_state "cotizando" w0) Hne Hraise Hcommit)
        as (w1 & Hrun & Hconv).
      rewrite Hrun in Hdisp.
      exists (with_state "conversando" w1).
      split; [apply process_message_ok; exact Hdisp|].
      split; [reflexivity|]. cbn. rewrite Hconv. reflexivity.
  - intros E user message intent w Hne Hcommit.
    exact (cotizando_breaks E user message intent w Hne Hcommit).
  - intros E user message w intent w0 Hint Hne Hpath.
    assert (Hdisp := by_state_handler E user message intent w0 Hint).
    cbv zeta in Hdisp.
    replace (current_state (conv w0)) with (current_state (conv w)) in Hdisp
      by reflexivity.
    destruct Hpath as [(Hst & Hcommit) | (Hst & Hconf & Hcommit)].
    + rewrite Hst in Hdisp. cbn in Hdisp.
      destruct (cotizando_breaks E (Some user) message intent w0 Hne Hcommit)
        as (w1 & Hrun & Hconv).
      rewrite Hrun in Hdisp.
      exists w1.
      split; [exact (process_message_breaks E user message _ w w1 Hdisp eq_refl)|].
      rewrite Hconv. cbn. split; [exact Hst|reflexivity].
    + rewrite Hst in Hdisp. cbn in Hdisp.
      rewrite (validando_inline E message intent w0 Hconf) in Hdisp.
      destruct (cotizando_breaks E (user_get E (conv_user_id (conv w0)))
                  message intent (with_state "cotizando" w0) Hne Hcommit)
        as (w1 & Hrun & Hconv).
      rewrite Hrun in Hdisp.
      exists w1.
      split; [exact (process_message_breaks E user message _ w w1 Hdisp eq_refl)|].
      rewrite Hconv. cbn. split; reflexivity.
  - vm_compute. reflexivity.
Qed.

Lemma C2_witness :
  exists w',
    Engine.process_message
      (Fixture.env [] [] [Fixture.pluma] [Fixture.ana] (Ok "/tmp/q.pdf"))
      Fixture.ana "si"
      (full_day "validando" [Fixture.record_of "pluma" 2 Fixture.pluma])
    = (Raise PendingRollbackError, w')
    /\ current_state (conv w') = "cotizando"
    /\ products_in_progress (conv w')
       = [Fixture.record_of "pluma" 2 Fixture.pluma].
Proof.
  apply (proj1 (proj2 (proj2 (proj2 C2_failed_commit_leaves_cotizando)))
           (Fixture.env [] [] [Fixture.pluma] [Fixture.ana] (Ok "/tmp/q.pdf"))
           Fixture.ana "si"
           (full_day "validando"
              [Fixture.record_of "pluma" 2 Fixture.pluma])).
  - reflexivity.
  - discriminate.
  - right. split; [reflexivity|]. split; reflexivity.
Defined.

Lemma handle_cancel_run (w : World) :
  Engine._handle_cancel w
  = (Ok cancel_message,
     {| conv := cancelled (conv w); quotes := quotes w;
        quote_items := quote_items w; trace := trace w |}).
Proof. reflexivity. Qed.

Lemma process_message_cancel (E : Env) (user : User) (message : string)
    (w : World) :
  detect_intent E message (context (conv w)) = Some "CANCELAR" ->
  Engine.process_message E user message w
  = (Ok cancel_message,
     {| conv := cancelled (conv w); quotes := quotes w;
        quote_items := quote_items w;
        trace := EvDetectIntent message :: trace w |}).
Proof.
  intros H. apply process_message_ok.
  rewrite (by_state_cancel E user message _ _ H).
  apply handle_cancel_run.
Qed.



(** C10.  The global interrupts are served before the state is looked
    at, and nothing guards the terminal state: a message classified as
    [CANCELAR] and received in [finalizado] ends the turn in [conversando]
    with the product list cleared, so [finalizado] is left again. *)
Theorem C10_cancel_leaves_finalizado (E : Env) (user : User) (message : string)
    (w : World) :
  current_state (conv w) = "finalizado" ->
  detect_intent E message (context (conv w)) = Some "CANCELAR" ->
  exists reply w',
    Engine.process_message E user message w = (Ok reply, w')
    /\ current_state (conv w') = "conversando"
    /\ current_state (conv w') <> current_state (conv w)
    /\ products_in_progress (conv w') = [].
Proof.
  intros Hst H. eexists _, _.
  split; [apply process_message_cancel; exact H|]. cbn.
  split; [reflexivity|]. split; [|reflexivity].
  rewrite Hst. discriminate.
Qed.

Lemma C10_witness :
  exists reply w',
    Engine.process_message
      (Fixture.env [("cancela", "CANCELAR")] [] [] [Fixture.ana] (Ok "/tmp/q.pdf"))
      Fixture.ana "cancela" (Fixture.world "finalizado" [])
    = (Ok reply, w')
    /\ current_state (conv w') = "conversando"
    /\ current_state (conv w')
       <> current_state (conv (Fixture.world "finalizado" []))
    /\ products_in_progress (conv w') = [].
Proof.
  apply (C10_cancel_leaves_finalizado
           (Fixture.env [("cancela", "CANCELAR")] [] [] [Fixture.ana]
              (Ok "/tmp/q.pdf"))
           Fixture.ana "cancela" (Fixture.world "finalizado" [])).
  - reflexivity.
  - reflexivity.
Defined.

(** *** The reset command *)





(** *** The status query *)

Lemma recopilando_status_query (E : Env) (message : string)
    (intent : option string) (w : World) :
  Text.any_in Engine.status_query_words (lower E message) = true ->
  Engine._handle_recopilando_state E message intent w
  = (Ok (Engine.status_summary (products_in_progress (conv w))), w).
Proof.
  intros H. unfold Engine._handle_recopilando_state, bind, get_conv.
  rewrite H. reflexivity.
Qed.

(** A message classified as one of the four global intents never reaches
    the state handler. *)
Lemma process_message_global (E : Env) (user : User) (message : string)
    (w : World) :
  let intent := detect_intent E message (context (conv w)) in
  let w0 := with_event (EvDetectIntent message) w in
  (intent = Some "SALUDO" ->
   Engine.process_message E user message w
   = (outcome (Engine._handle_greeting user w0), w0))
  /\ (intent = Some "AYUDA" ->
      Engine.process_message E user message w
      = (Ok (Engine._get_help_message (current_state (conv w))), w0))
  /\ (intent = Some "DESPEDIDA" ->
      Engine.process_message E user message w
      = (Ok goodbye_message, with_state "finalizado" w0)).
Proof.
  cbv zeta. repeat split; intros H;
    unfold Engine.process_message, try_except, bind, get_conv, emit,
      Engine._handle_message_by_state; cbn [conv context];
    rewrite H; reflexivity.
Qed.

Lemma first_byte_differs (a b : string) :
  String.get 0 a <> String.get 0 b -> a <> b.
Proof. intros Hget Heq. apply Hget. rewrite Heq. reflexivity. Qed.

Lemma summary_lines_spec (i : Z) (products : list AccRecord) :
  map (fun entry : Z * AccRecord =>
         let (i, product) := entry in
         let product_name := rq_name (requested product) in
         let quantity := default 1 (rq_quantity (requested product)) in
         pretty i ++ ". " ++ pretty quantity ++ "x " ++ product_name)
      (enumerate_from i products)
  = summary_lines i products.
Proof.
  revert i. induction products as [|x l IH]; intros i; [reflexivity|].
  cbn [enumerate_from map summary_lines]. f_equal. apply IH.
Qed.

(** C9, as the code has it.  The status words are tested inside
    [_handle_recopilando_state], before the intent is looked at there, and
    after [_handle_message_by_state] has served the four global intents.
    So, in [recopilando], when the lower-cased message contains one of the
    status words:
    - the handler answers with [summary_reply] (the prompt for an empty
      list, otherwise the count and one numbered line per record) whatever
      the intent, and changes nothing: no extractor call, no catalogue
      search, no merge, no transition;
    - [process_message] does the same for every intent but [SALUDO],
      [AYUDA], [CANCELAR] and [DESPEDIDA], its only trace being the
      classifier call;
    - with one of those four intents the message gets the greeting, the
      help text, the cancellation (state [conversando], list emptied) or
      the farewell (state [finalizado]); none of them is the summary. *)
Theorem C9_status_query_precedes_state_intents (E : Env) (message : string) :
  Text.any_in Engine.status_query_words (lower E message) = true ->
  (forall (intent : option string) (w : World),
      Engine._handle_recopilando_state E message intent w
      = (Ok (summary_reply (products_in_progress (conv w))), w))
  /\
  (forall (user : User) (w : World),
      current_state (conv w) = "recopilando" ->
      is_global_interrupt (detect_intent E message (context (conv w))) = false ->
      Engine.process_message E user message w
      = (Ok (summary_reply (products_in_progress (conv w))),
         with_event (EvDetectIntent message) w))
  /\
  (forall (user : User) (w : World),
      let intent := detect_intent E message (context (conv w)) in
      let w0 := with_event (EvDetectIntent message) w in
      (intent = Some "SALUDO" ->
       Engine.process_message E user message w
       = (outcome (Engine._handle_greeting user w0), w0))
      /\ (intent = Some "AYUDA" ->
          Engine.process_message E user message w
          = (Ok (Engine._get_help_message (current_state (conv w))), w0))
      /\ (intent = Some "CANCELAR" ->
          Engine.process_message E user message w
          = (Ok cancel_message,
             {| conv := cancelled (conv w); quotes := quotes w;
                quote_items := quote_items w;
                trace := EvDetectIntent message :: trace w |}))
      /\ (intent = Some "DESPEDIDA" ->
          Engine.process_message E user message w
          = (Ok goodbye_message, with_state "finalizado" w0)))
  /\
  (forall (user : User) (w : World),
      is_global_interrupt (detect_intent E message (context (conv w))) = true ->
      exists reply w',
        Engine.process_message E user message w = (Ok reply, w')
        /\ reply <> summary_reply (products_in_progress (conv w))).
Proof.
  intros H.
  assert (forall products, Engine.status_summary products = summary_reply products)
    as Hreply.
  { intros products. unfold Engine.status_summary, summary_reply.
    destruct products as [|r rest]; [reflexivity|].
    cbv zeta. rewrite summary_lines_spec. reflexivity. }
  split; [|split; [|split]].
  - intros intent w. rewrite <- Hreply.
    apply recopilando_status_query. exact H.
  - intros user w Hst Hint. apply process_message_ok.
    rewrite (by_state_handler E user message _ _ Hint). cbv zeta.
    replace (current_state (conv (with_event (EvDetectIntent message) w)))
      with (current_state (conv w)) by reflexivity.
    rewrite Hst. cbn [String.eqb Ascii.eqb Bool.eqb]. rewrite <- Hreply.
    exact (recopilando_status_query E message _
             (with_event (EvDetectIntent message) w) H).
  - intros user w. cbv zeta.
    destruct (process_message_global E user message w) as (Hs & Ha & Hd).
    split; [exact Hs|]. split; [exact Ha|].
    split; [apply process_message_cancel|exact Hd].
  - intros user w Hglobal. unfold is_global_interrupt in Hglobal.
    cbv zeta in Hglobal.
    unfold Engine.process_message, try_except, bind, get_conv, emit,
      Engine._handle_message_by_state. cbn [conv context current_state].
    destruct (default "UNKNOWN" (detect_intent E message (context (conv w)))
              =? "SALUDO")%string;
      [eexists _, _; split; [reflexivity|]; apply first_byte_differs;
       destruct (products_in_progress (conv w)); vm_compute; discriminate|].
    destruct (default "UNKNOWN" (detect_intent E message (context (conv w)))
              =? "AYUDA")%string;
      [eexists _, _; split; [reflexivity|]; apply first_byte_differs;
       unfold Engine._get_help_message; cbn [conv];
       destruct (current_state (conv w) =? "recopilando")%string;
       [|destruct (current_state (conv w) =? "validando")%string];
       destruct (products_in_progress (conv w)); vm_compute; discriminate|].
    destruct (default "UNKNOWN" (detect_intent E message (context (conv w)))
              =? "CANCELAR")%string;
      [eexists _, _; split; [reflexivity|]; apply first_byte_differs;
       destruct (products_in_progress (conv w)); vm_compute; discriminate|].
    destruct (default "UNKNOWN" (detect_intent E message (context (conv w)))
              =? "DESPEDIDA")%string;
      [eexists _, _; split; [reflexivity|]; apply first_byte_differs;
       destruct (products_in_progress (conv w)); vm_compute; discriminate|].
    discriminate Hglobal.
Qed.

Lemma C9_witness :
  Engine.process_message
    (Fixture.env [("tengo que agregar lápices", "AGREGAR_PRODUCTO")]
       [("tengo que agregar lápices", [Fixture.item "lapiz" 1])]
       [Fixture.pluma] [Fixture.ana] (Ok "/tmp/q.pdf"))
    Fixture.ana "tengo que agregar lápices"
    (Fixture.world "recopilando" [Fixture.record_of "pluma" 2 Fixture.pluma])
  = (Ok (summary_reply [Fixture.record_of "pluma" 2 Fixture.pluma]),
     with_event (EvDetectIntent "tengo que agregar lápices")
       (Fixture.world "recopilando"
          [Fixture.record_of "pluma" 2 Fixture.pluma]))
  /\ summary_reply [Fixture.record_of "pluma" 2 Fixture.pluma]
     = "Hasta ahora tienes **1 producto(s)** en tu cotización:" ++ nl ++ nl ++
       "1. 2x pluma" ++ nl ++ nl ++
       "¿Quieres agregar más productos o generar la cotización?".
Proof.
  split; [|reflexivity].
  apply (proj1 (proj2 (C9_status_query_precedes_state_intents
                  (Fixture.env
                     [("tengo que agregar lápices", "AGREGAR_PRODUCTO")]
                     [("tengo que agregar lápices", [Fixture.item "lapiz" 1])]
                     [Fixture.pluma] [Fixture.ana] (Ok "/tmp/q.pdf"))
                  "tengo que agregar lápices" eq_refl))
           Fixture.ana
           (Fixture.world "recopilando"
              [Fixture.record_of "pluma" 2 Fixture.pluma])).
  - reflexivity.
  - reflexivity.
Defined.

(** C9 as stated fails for the global intents: the message
    [cancela mi lista] contains the status word [lista], but classified
    as [CANCELAR] in [recopilando] it is not answered with the summary;
    the process is cancelled, the state becomes [conversando] and the list
    is emptied. *)
Lemma C9_counterexample :
  Text.any_in Engine.status_query_words "cancela mi lista" = true
  /\ Engine.process_message
       (Fixture.env [("cancela mi lista", "CANCELAR")] [] [Fixture.pluma]
          [Fixture.ana] (Ok "/tmp/q.pdf"))
       Fixture.ana "cancela mi lista"
       (Fixture.world "recopilando" [Fixture.record_of "pluma" 2 Fixture.pluma])
     = (Ok ("Proceso cancelado. ✅" ++ nl ++ nl ++ "¿En qué más te puedo ayudar?"),
        with_event (EvDetectIntent "cancela mi lista")
          (Fixture.world "conversando" [])).
Proof. split; reflexivity. Qed.

Example status_summary_text :
  Engine.status_summary [Fixture.record_of "pluma" 2 Fixture.pluma]
  = "Hasta ahora tienes **1 producto(s)** en tu cotización:" ++ nl ++ nl ++
    "1. 2x pluma" ++ nl ++ nl ++
    "¿Quieres agregar más productos o generar la cotización?".
Proof. reflexivity. Qed.

(** *** What the classifier-backed path writes into the context *)

#[local] Instance no_products_written_refl : Reflexive no_products_written.
Proof. intros w key. left. reflexivity. Qed.

#[local] Instance no_products_written_trans : Transitive no_products_written.
Proof.
  intros a b c H1 H2 key. specialize (H1 key). specialize (H2 key).
  unfold entry_ok in *.
  destruct H2 as [H2|H2]; [rewrite H2; exact H1|].
  right. exact H2.
Qed.






Lemma match_products_same_conv (E : Env) (products : list ProductData) :
  preserves same_conv (Engine.match_products E products).
Proof.
  induction products as [|p rest IH]; cbn [Engine.match_products].
  - frame_step.
  - destruct (pd_name p); [|frame_step].
    frame_step; [apply emit_same_conv|].
    frame_step; [exact IH|].
    destruct a0. destruct (search_products E _ _); frame_step.
Qed.

















(** The fallback on a message naming a pencil, in [recopilando]: it
    answers that the product was added, and the stored context is the one
    it started from. *)
Example fallback_products_are_not_stored :
  Engine._handle_message_fallback
    (Fixture.env [] [] [] [Fixture.ana] (Ok "/tmp/q.pdf"))
    Fixture.ana "2 lapiz" (Fixture.world "recopilando" [])
  = (Ok ("Productos agregados: ✅" ++ nl ++ nl ++
         "• 2x Lápices Mongol #2 - $85/10 c/u" ++ nl ++ nl ++
         "¿Quieres agregar más productos o generar la cotización?"),
     Fixture.world "recopilando" []).
Proof. reflexivity. Qed.

(** *** The merge *)

Lemma match_products_run (E : Env) (products : list ProductData) (w : World) :
  Forall named products ->
  exists w',
    Engine.match_products E products w = (Ok (match_pure E products), w')
    /\ conv w' = conv w.
Proof.
  intros Hn. revert w. induction Hn as [|p rest [name Hname] _ IH]; intros w.
  - exists w. split; reflexivity.
  - cbn [Engine.match_products match_pure]. rewrite Hname.
    unfold bind at 1. unfold emit at 1. unfold bind at 1.
    destruct (IH (with_event (EvSearchProducts name 3) w)) as (w' & Hrun & Hconv).
    unfold with_event in Hrun. rewrite Hrun.
    destruct (match_pure E rest) as [found nf].
    exists w'. split; [|exact Hconv].
    destruct (search_products E name 3); reflexivity.
Qed.

(** Every matched record has at least one option, and the quantity its
    product came with. *)
Lemma matched_shape (E : Env) (products : list ProductData) :
  Forall counted products ->
  Forall (fun r => is_Some (rq_quantity (requested r)) /\ options r <> [])
         (matched E products).
Proof.
  unfold matched. intros Hc. induction Hc as [|p rest Hp _ IH]; cbn.
  - constructor.
  - destruct (match_pure E rest) as [found nf]. cbn in IH.
    destruct (pd_name p); [|exact IH].
    destruct (search_products E s 3) eqn:Hs; [exact IH|].
    cbn. constructor; [|exact IH]. cbn. split; [exact Hp|discriminate].
Qed.

Lemma show_found_item_ok (E : Env) (r : AccRecord) :
  is_Some (rq_quantity (requested r)) -> options r <> [] ->
  exists lines, Engine.show_found_item E r = Ok lines.
Proof.
  intros [q Hq] Ho. unfold Engine.show_found_item. rewrite Hq.
  destruct (options r) as [|o [|o' rest]]; [congruence| |]; eexists; reflexivity.
Qed.

Lemma show_found_products_ok (E : Env) (found : list AccRecord)
    (not_found : list string) :
  Forall (fun r => is_Some (rq_quantity (requested r)) /\ options r <> []) found ->
  exists reply, Engine._show_found_products E found not_found = Ok reply.
Proof.
  intros H. unfold Engine._show_found_products.
  assert (exists shown, rmap (Engine.show_found_item E) found = Ok shown)
    as [shown Hshown].
  { induction H as [|r rest [Hq Ho] _ [shown IH]]; [eexists; reflexivity|].
    destruct (show_found_item_ok E r Hq Ho) as [lines Hl].
    cbn. rewrite Hl, IH. eexists. reflexivity. }
  rewrite Hshown. eexists. reflexivity.
Qed.

(** One collecting turn through [process_message]. *)
Lemma collecting_turn (E : Env) (user : User) (message : string)
    (products : list ProductData) (w : World) :
  current_state (conv w) = "recopilando" ->
  Text.any_in Engine.status_query_words (lower E message) = false ->
  (detect_intent E message (context (conv w)) = Some "AGREGAR_PRODUCTO"
   \/ detect_intent E message (context (conv w)) = Some "BUSCAR_PRODUCTOS") ->
  extract_products_from_message E message = products ->
  products <> [] ->
  Forall named products ->
  Forall counted products ->
  exists reply w',
    Engine.process_message E user message w = (Ok reply, w')
    /\ conv w' = appended (matched E products) (conv w).
Proof.
  intros Hst Hkw Hint Hex Hne Hn Hc.
  assert (is_global_interrupt (detect_intent E message (context (conv w))) = false)
    as Hni by (destruct Hint as [-> | ->]; reflexivity).
  set (w0 := with_event (EvDetectIntent message) w).
  set (w1 := with_event (EvExtractProducts message) w0).
  destruct (match_products_run E products w1 Hn) as (w2 & Hrun & Hconv).
  destruct (show_found_products_ok E (matched E products)
              (snd (match_pure E products)) (matched_shape E products Hc))
    as [reply Hshow].
  exists reply.
  exists {| conv := appended (matched E products) (conv w); quotes := quotes w2;
            quote_items := quote_items w2; trace := trace w2 |}.
  split; [|reflexivity].
  apply process_message_ok. fold w0.
  rewrite (by_state_handler E user message _ w0 Hni). cbv zeta.
  replace (current_state (conv w0)) with (current_state (conv w)) by reflexivity.
  rewrite Hst. cbn [String.eqb Ascii.eqb Bool.eqb].
  unfold Engine._handle_recopilando_state. unfold bind at 1. unfold get_conv at 1.
  rewrite Hkw.
  destruct (decide _) as [_|Hno]; [|exfalso; apply Hno; exact Hint].
  unfold Engine.openai_extract_products. rewrite Hex.
  destruct products as [|p rest]; [congruence|].
  unfold bind at 1. unfold bind at 1. unfold emit at 1. unfold ret at 1.
  unfold bind at 1. unfold w1, with_event in Hrun. rewrite Hrun.
  unfold matched in *. destruct (match_pure E (p :: rest)) as [found nf].
  cbn [fst snd] in *.
  unfold Engine.merge_and_show, repo_update, bind, get_conv, put_conv, ret,
    lift_result. cbn [fold_left conv quotes quote_items trace].
  rewrite Hshow, Hconv. reflexivity.
Qed.

Lemma match_pure_app (E : Env) (a b : list ProductData) :
  match_pure E (List.app a b)
  = (List.app (fst (match_pure E a)) (fst (match_pure E b)),
     List.app (snd (match_pure E a)) (snd (match_pure E b))).
Proof.
  induction a as [|p rest IH]; cbn [List.app match_pure].
  - destruct (match_pure E b). reflexivity.
  - rewrite IH. destruct (match_pure E rest) as [f nf]. cbn [fst snd].
    destruct (pd_name p); [|reflexivity].
    destruct (search_products E s 3); reflexivity.
Qed.

(** Two batches one after the other contribute what their concatenation
    contributes. *)
Lemma matched_app (E : Env) (a b : list ProductData) :
  matched E (List.app a b) = List.app (matched E a) (matched E b).
Proof. unfold matched. rewrite match_pure_app. reflexivity. Qed.

Lemma merge_statements_spec (h : gmap positive (list AccRecord))
    (field : positive) (old found_products : list AccRecord) :
  h !! field = Some old ->
  let (field', h') := ListObjects.merge_statements h field found_products in
  h !! field' = None
  /\ field' <> field
  /\ h' !! field = Some old
  /\ h' !! field' = Some (List.app old found_products)
  /\ (forall r : positive, r <> field' -> h' !! r = h !! r).
Proof.
  intros Hold. unfold ListObjects.merge_statements, ListObjects.list_copy, ListObjects.extend. rewrite Hold.
  cbn [default].
  assert (h !! fresh (dom h) = None) as Hfresh.
  { apply not_elem_of_dom. apply is_fresh. }
  assert (fresh (dom h) <> field) as Hne.
  { intros Heq. rewrite Heq in Hfresh. congruence. }
  split; [exact Hfresh|].
  split; [exact Hne|].
  split.
  { rewrite lookup_alter_ne by exact Hne.
    rewrite lookup_insert_ne by exact Hne. exact Hold. }
  split.
  - rewrite lookup_alter_eq, lookup_insert_eq. reflexivity.
  - intros r Hr. rewrite lookup_alter_ne by congruence.
    rewrite lookup_insert_ne by congruence. reflexivity.
Qed.

Lemma adding_turn (E : Env) (user : User) (message : string)
    (batch : list ProductData) (w : World) :
  current_state (conv w) = "recopilando" ->
  adds_batch E (context (conv w)) message batch ->
  exists reply w',
    Engine.process_message E user message w = (Ok reply, w')
    /\ conv w' = appended (matched E batch) (conv w).
Proof.
  intros Hst (Hkw & Hint & Hex & Hne & Hn & Hc).
  exact (collecting_turn E user message batch w Hst Hkw Hint Hex Hne Hn Hc).
Qed.

(** C4.  The merge appends, in order, into a new list.
    (1) A turn that adds a batch in [recopilando] leaves the old product
    list followed by the records matched for the batch, in the order of
    the message, and stays in [recopilando].
    (2) On list objects, the statements of the merge write a list object
    that did not exist before; the object the model field pointed to keeps
    its content, and so does every other object.
    (3) Two turns adding the batches [b1] and [b2] leave the same product
    list as one turn adding [b1] followed by [b2]: the old list, then the
    records of [b1], then those of [b2]. *)
Theorem C4_merge_appends_in_order :
  (forall (E : Env) (user : User) (message : string)
          (batch : list ProductData) (w : World),
      current_state (conv w) = "recopilando" ->
      adds_batch E (context (conv w)) message batch ->
      exists reply w',
        Engine.process_message E user message w = (Ok reply, w')
        /\ products_in_progress (conv w')
           = List.app (products_in_progress (conv w)) (matched E batch)
        /\ current_state (conv w') = "recopilando")
  /\
  (forall (h : gmap positive (list AccRecord)) (field : positive)
          (old found_products : list AccRecord),
      h !! field = Some old ->
      let (field', h') := ListObjects.merge_statements h field found_products in
      h !! field' = None
      /\ field' <> field
      /\ h' !! field = Some old
      /\ h' !! field' = Some (List.app old found_products)
      /\ (forall r : positive, r <> field' -> h' !! r = h !! r))
  /\
  (forall (E : Env) (user : User) (m1 m2 m12 : string)
          (b1 b2 : list ProductData) (w : World),
      current_state (conv w) = "recopilando" ->
      adds_batch E (context (conv w)) m1 b1 ->
      adds_batch E (context (conv w)) m2 b2 ->
      adds_batch E (context (conv w)) m12 (List.app b1 b2) ->
      products_in_progress (conv (snd (run_turns E user [m1; m2] w)))
      = List.app (products_in_progress (conv w))
          (List.app (matched E b1) (matched E b2))
      /\ products_in_progress (conv (snd (run_turns E user [m12] w)))
         = List.app (products_in_progress (conv w))
             (List.app (matched E b1) (matched E b2))).
Proof.
  split; [|split].
  - intros E user message batch w Hst Hadd.
    destruct (adding_turn E user message batch w Hst Hadd)
      as (reply & w' & Hrun & Hconv).
    exists reply, w'. split; [exact Hrun|]. rewrite Hconv. cbn.
    split; [reflexivity|exact Hst].
  - exact merge_statements_spec.
  - intros E user m1 m2 m12 b1 b2 w Hst H1 H2 H12.
    destruct (adding_turn E user m1 b1 w Hst H1) as (r1 & w1 & Hrun1 & Hconv1).
    assert (current_state (conv w1) = "recopilando") as Hst1
      by (rewrite Hconv1; exact Hst).
    assert (context (conv w1) = context (conv w)) as Hctx1
      by (rewrite Hconv1; reflexivity).
    rewrite <- Hctx1 in H2.
    destruct (adding_turn E user m2 b2 w1 Hst1 H2) as (r2 & w2 & Hrun2 & Hconv2).
    destruct (adding_turn E user m12 _ w Hst H12) as (r12 & w12 & Hrun12 & Hconv12).
    cbn [run_turns]. rewrite Hrun1, Hrun2, Hrun12. cbn [snd].
    rewrite Hconv2, Hconv1, Hconv12, matched_app. cbn.
    rewrite <- List.app_assoc. split; reflexivity.
Qed.

Lemma C4_witness :
  products_in_progress
    (conv (snd (run_turns
       (Fixture.env
          [("2 plumas", "AGREGAR_PRODUCTO"); ("1 cuaderno", "AGREGAR_PRODUCTO");
           ("2 plumas y 1 cuaderno", "AGREGAR_PRODUCTO")]
          [("2 plumas", [Fixture.item "pluma" 2]);
           ("1 cuaderno", [Fixture.item "cuaderno" 1]);
           ("2 plumas y 1 cuaderno",
            [Fixture.item "pluma" 2; Fixture.item "cuaderno" 1])]
          [Fixture.pluma; Fixture.cuaderno] [Fixture.ana] (Ok "/tmp/q.pdf"))
       Fixture.ana ["2 plumas"; "1 cuaderno"] (Fixture.world "recopilando" []))))
  = [Fixture.record_of "pluma" 2 Fixture.pluma;
     Fixture.record_of "cuaderno" 1 Fixture.cuaderno]
  /\
  products_in_progress
    (conv (snd (run_turns
       (Fixture.env
          [("2 plumas", "AGREGAR_PRODUCTO"); ("1 cuaderno", "AGREGAR_PRODUCTO");
           ("2 plumas y 1 cuaderno", "AGREGAR_PRODUCTO")]
          [("2 plumas", [Fixture.item "pluma" 2]);
           ("1 cuaderno", [Fixture.item "cuaderno" 1]);
           ("2 plumas y 1 cuaderno",
            [Fixture.item "pluma" 2; Fixture.item "cuaderno" 1])]
          [Fixture.pluma; Fixture.cuaderno] [Fixture.ana] (Ok "/tmp/q.pdf"))
       Fixture.ana ["2 plumas y 1 cuaderno"] (Fixture.world "recopilando" []))))
  = [Fixture.record_of "pluma" 2 Fixture.pluma;
     Fixture.record_of "cuaderno" 1 Fixture.cuaderno].
Proof.
  apply (proj2 (proj2 C4_merge_appends_in_order)
           (Fixture.env
              [("2 plumas", "AGREGAR_PRODUCTO"); ("1 cuaderno", "AGREGAR_PRODUCTO");
               ("2 plumas y 1 cuaderno", "AGREGAR_PRODUCTO")]
              [("2 plumas", [Fixture.item "pluma" 2]);
               ("1 cuaderno", [Fixture.item "cuaderno" 1]);
               ("2 plumas y 1 cuaderno",
                [Fixture.item "pluma" 2; Fixture.item "cuaderno" 1])]
              [Fixture.pluma; Fixture.cuaderno] [Fixture.ana] (Ok "/tmp/q.pdf"))
           Fixture.ana "2 plumas" "1 cuaderno" "2 plumas y 1 cuaderno"
           [Fixture.item "pluma" 2] [Fixture.item "cuaderno" 1]
           (Fixture.world "recopilando" [])).
  - reflexivity.
  - repeat split; try (left; reflexivity); try discriminate;
      repeat constructor; eexists; reflexivity.
  - repeat split; try (left; reflexivity); try discriminate;
      repeat constructor; eexists; reflexivity.
  - repeat split; try (left; reflexivity); try discriminate;
      repeat constructor; eexists; reflexivity.
Defined.

(** *** Quote numbers *)

Lemma prefix_app (n b : string) : String.prefix n (n ++ b) = true.
Proof.
  induction n as [|c n IH]; simpl.
  - destruct b; reflexivity.
  - destruct (ascii_dec c c); [exact IH|congruence].
Qed.






(** Up to 999 the sequence number is printed with exactly three digits. *)
Lemma fmt03d_three_digits (n : Z) :
  0 <= n <= 999 ->
  String.length (Text.fmt03d n) = 3%nat /\ Text.all_digits (Text.fmt03d n) = true.
Proof.
  intros Hn.
  assert (forallb
            (fun k => let s := Text.fmt03d (Z.of_nat k) in
                      (String.length s =? 3)%nat && Text.all_digits s)
            (List.seq 0 1000) = true) as Hall by (vm_compute; reflexivity).
  rewrite forallb_forall in Hall.
  specialize (Hall (Z.to_nat n)). cbv zeta in Hall.
  rewrite Z2Nat.id in Hall by lia.
  assert (In (Z.to_nat n) (List.seq 0 1000)) as Hin by (apply in_seq; lia).
  apply Hall in Hin. apply andb_prop in Hin. destruct Hin as [Hlen Hdig].
  apply Nat.eqb_eq in Hlen. split; assumption.
Qed.




(** Beyond 999 a fourth digit appears. *)
Example quote_number_after_999 :
  outcome
    (QuoteRepo._generate_quote_number
       (Fixture.env [] [] [] [] (Ok "/tmp/q.pdf"))
       {| conv := Fixture.conversation "cotizando" [];
          quotes :=
            [ {| q_id := "quote-0"; q_conversation_id := "c0"; q_user_id := "u1";
                 quote_number := "COT-20251020-999";
                 q_subtotal := (1 # 1)%Q; q_tax_rate := (16 # 1)%Q;
                 q_tax_amount := (16 # 100)%Q; q_total := (116 # 100)%Q;
                 q_status := "sent"; q_pdf_path := None;
                 q_sent_at := None |} ];
          quote_items := []; trace := [] |})
  = Ok "COT-20251020-1000".
Proof. reflexivity. Qed.

(** *** A confirmed quote *)




Example confirmed_quote_number :
  context
    (conv (world_of
       (Engine.process_message
          (Fixture.env [] [] [Fixture.pluma] [Fixture.ana] (Ok "/tmp/q.pdf"))
          Fixture.ana "si"
          (Fixture.world "validando"
             [Fixture.record_of "pluma" 2 Fixture.pluma]))))
  !! "last_quote_number"
  = Some (VStr "COT-20251020-001").
Proof. reflexivity. Qed.


(** *** A new search from [conversando] *)

(** What the search branch of [_handle_conversando_state] does with a
    batch: the context is replaced by one holding an empty
    [products_in_progress] key, the state becomes [recopilando], and the
    batch is appended to the model field, which was not cleared. *)
Lemma conversando_search_turn (E : Env) (user : User) (message : string)
    (batch : list ProductData) (w : World) :
  current_state (conv w) = "conversando" ->
  detect_intent E message (context (conv w)) = Some "BUSCAR_PRODUCTOS" ->
  extract_products_from_message E message = batch ->
  batch <> [] ->
  Forall named batch ->
  Forall counted batch ->
  exists reply w',
    Engine.process_message E user message w = (Ok reply, w')
    /\ current_state (conv w') = "recopilando"
    /\ context (conv w') = {[ "products_in_progress" := VList [] ]}
    /\ products_in_progress (conv w')
       = List.app (products_in_progress (conv w)) (matched E batch).
Proof.
  intros Hst Hint Hex Hne Hn Hc.
  assert (is_global_interrupt (detect_intent E message (context (conv w))) = false)
    as Hni by (rewrite Hint; reflexivity).
  set (w0 := with_event (EvDetectIntent message) w).
  set (c1 := setattr (setattr (conv w)
                        (SetContext {[ "products_in_progress" := VList [] ]}))
                     (SetCurrentState "recopilando")).
  set (w1 := {| conv := c1; quotes := quotes w; quote_items := quote_items w;
                trace := EvExtractProducts message :: EvDetectIntent message
                         :: trace w |}).
  destruct (match_products_run E batch w1 Hn) as (w2 & Hrun & Hconv).
  destruct (show_found_products_ok E (matched E batch)
              (snd (match_pure E batch)) (matched_shape E batch Hc))
    as [reply Hshow].
  exists reply.
  exists {| conv := appended (matched E batch) c1; quotes := quotes w2;
            quote_items := quote_items w2; trace := trace w2 |}.
  split; [|repeat split].
  apply process_message_ok. fold w0.
  rewrite (by_state_handler E user message _ w0 Hni). cbv zeta.
  replace (current_state (conv w0)) with (current_state (conv w)) by reflexivity.
  rewrite Hst. cbn [String.eqb Ascii.eqb Bool.eqb].
  unfold Engine._handle_conversando_state. rewrite Hint.
  destruct (decide (Some "BUSCAR_PRODUCTOS" = Some "COTIZAR")) as [Habs|_];
    [discriminate|].
  destruct (decide (Some "BUSCAR_PRODUCTOS" = Some "BUSCAR_PRODUCTOS")) as [_|Hno];
    [|congruence].
  unfold Engine.openai_extract_products. rewrite Hex.
  destruct batch as [|p rest]; [congruence|].
  unfold assign_context, Engine._transition_to_state, update_state, repo_update.
  unfold bind at 1. unfold bind at 1. unfold get_conv at 1.
  unfold put_conv at 1. unfold bind at 1. unfold bind at 1.
  unfold get_conv at 1. unfold bind at 1. unfold put_conv at 1.
  unfold ret at 1. unfold bind at 1. unfold bind at 1. unfold emit at 1.
  unfold ret at 1. unfold bind at 1.
  cbn [fold_left conv quotes quote_items trace w0 with_event].
  unfold w1, c1 in Hrun. cbn [with_event conv quotes quote_items trace] in Hrun.
  rewrite Hrun.
  unfold matched in *. destruct (match_pure E (p :: rest)) as [found nf].
  cbn [fst snd] in *.
  unfold Engine.merge_and_show, repo_update, bind, get_conv, put_conv, ret,
    lift_result. cbn [fold_left conv quotes quote_items trace].
  rewrite Hshow, Hconv. reflexivity.
Qed.

(** C1, on the code.  A conversation can be in [conversando] with
    products left over: a quote generation that failed returns there and
    keeps the list.  A search that starts then replaces the context by an
    empty [products_in_progress] key but leaves the model field, so the new
    records are appended to the old ones.  First conjunct: a fresh
    conversation collects pens, confirms, the PDF step fails, and the next
    search for notebooks ends with pens and notebooks.  Second conjunct:
    the same turn taken directly from [conversando] with one old record. *)
Theorem C1_new_search_keeps_old_products :
  (let r :=
     run_turns
       (Fixture.env
          [("quiero cotizar", "COTIZAR"); ("2 plumas", "AGREGAR_PRODUCTO");
           ("listo", "FINALIZAR_COTIZACION");
           ("busco cuadernos", "BUSCAR_PRODUCTOS")]
          [("2 plumas", [Fixture.item "pluma" 2]);
           ("busco cuadernos", [Fixture.item "cuaderno" 1])]
          [Fixture.pluma; Fixture.cuaderno] [Fixture.ana]
          (Raise (ExternalError "pdf")))
       Fixture.ana
       ["quiero cotizar"; "2 plumas"; "listo"; "si"; "busco cuadernos"]
       (Fixture.world "conversando" []) in
   current_state (conv (snd r)) = "recopilando"
   /\ products_in_progress (conv (snd r))
      = [Fixture.record_of "pluma" 2 Fixture.pluma;
         Fixture.record_of "cuaderno" 1 Fixture.cuaderno])
  /\
  (let r :=
     Engine.process_message
       (Fixture.env [("busco cuadernos", "BUSCAR_PRODUCTOS")]
          [("busco cuadernos", [Fixture.item "cuaderno" 1])]
          [Fixture.pluma; Fixture.cuaderno] [Fixture.ana] (Ok "/tmp/q.pdf"))
       Fixture.ana "busco cuadernos"
       (Fixture.world "conversando"
          [Fixture.record_of "pluma" 2 Fixture.pluma]) in
   current_state (conv (snd r)) = "recopilando"
   /\ context (conv (snd r)) = {[ "products_in_progress" := VList [] ]}
   /\ products_in_progress (conv (snd r))
      = [Fixture.record_of "pluma" 2 Fixture.pluma;
         Fixture.record_of "cuaderno" 1 Fixture.cuaderno]).
Proof. cbv zeta. repeat split; vm_compute; reflexivity. Qed.

(** ** Further statements: the dispatcher *)

(** The state handling answered: so did [process_message], with the
    same world. *)
Lemma process_message_run (E : Env) (user : User) (message : string)
    (w : World) :
  Engine.process_message E user message w
  = match Engine._handle_message_by_state E user message
            (detect_intent E message (context (conv w)))
            (with_event (EvDetectIntent message) w) with
    | (Ok reply, w') => (Ok reply, w')
    | (Raise e, w1) =>
        on_session e (Engine._handle_message_fallback E user message) w1
    end.
Proof. reflexivity. Qed.

(** X1.  A message classified as [DESPEDIDA] is answered with the
    farewell in every state: the state becomes [finalizado] and nothing
    else changes.  In particular the product list and the context are
    kept ([CANCELAR], in contrast, empties the list), no quote is created
    and no collaborator other than the classifier is called. *)
Theorem goodbye_keeps_the_list (E : Env) (user : User) (message : string)
    (w : World) :
  detect_intent E message (context (conv w)) = Some "DESPEDIDA" ->
  Engine.process_message E user message w
  = (Ok goodbye_message,
     with_state "finalizado" (with_event (EvDetectIntent message) w)).
Proof.
  intros H. apply process_message_ok. rewrite H. reflexivity.
Qed.

Lemma goodbye_keeps_the_list_witness :
  Engine.process_message
    (Fixture.env [("hasta luego", "DESPEDIDA")] [] [] [Fixture.ana]
       (Ok "/tmp/q.pdf"))
    Fixture.ana "hasta luego"
    (Fixture.world "recopilando" [Fixture.record_of "pluma" 2 Fixture.pluma])
  = (Ok goodbye_message,
     with_state "finalizado"
       (with_event (EvDetectIntent "hasta luego")
          (Fixture.world "recopilando"
             [Fixture.record_of "pluma" 2 Fixture.pluma]))).
Proof.
  apply (goodbye_keeps_the_list
           (Fixture.env [("hasta luego", "DESPEDIDA")] [] [] [Fixture.ana]
              (Ok "/tmp/q.pdf"))
           Fixture.ana "hasta luego"
           (Fixture.world "recopilando"
              [Fixture.record_of "pluma" 2 Fixture.pluma])).
  reflexivity.
Defined.

(** X2.  A message classified as [SALUDO] or [AYUDA] is answered in
    every state without touching the database: the conversation row and
    the quote tables are as before and only the classifier was called.
    The greeting carries the user's name; the help text is the one of the
    current state. *)
Theorem greeting_and_help_change_nothing (E : Env) (user : User)
    (message : string) (w : World) :
  detect_intent E message (context (conv w)) = Some "SALUDO"
  \/ detect_intent E message (context (conv w)) = Some "AYUDA" ->
  exists reply,
    Engine.process_message E user message w
    = (Ok reply, with_event (EvDetectIntent message) w)
    /\ (detect_intent E message (context (conv w)) = Some "SALUDO" ->
        Engine._handle_greeting user w = (Ok reply, w))
    /\ (detect_intent E message (context (conv w)) = Some "AYUDA" ->
        reply = Engine._get_help_message (current_state (conv w))).
Proof.
  intros [H|H].
  - eexists. split; [apply process_message_ok; rewrite H; reflexivity|].
    split; [reflexivity|]. rewrite H. discriminate.
  - eexists. split; [apply process_message_ok; rewrite H; reflexivity|].
    split; [rewrite H; discriminate|]. reflexivity.
Qed.

Lemma greeting_and_help_witness :
  exists reply,
    Engine.process_message
      (Fixture.env [("que haces", "AYUDA")] [] [] [Fixture.ana] (Ok "/tmp/q.pdf"))
      Fixture.ana "que haces" (Fixture.world "validando" [])
    = (Ok reply,
       with_event (EvDetectIntent "que haces") (Fixture.world "validando" []))
    /\ (Some "AYUDA" = Some "SALUDO" ->
        Engine._handle_greeting Fixture.ana (Fixture.world "validando" [])
        = (Ok reply, Fixture.world "validando" []))
    /\ (Some "AYUDA" = Some "AYUDA" ->
        reply = Engine._get_help_message "validando").
Proof.
  apply (greeting_and_help_change_nothing
           (Fixture.env [("que haces", "AYUDA")] [] [] [Fixture.ana]
              (Ok "/tmp/q.pdf"))
           Fixture.ana "que haces" (Fixture.world "validando" [])).
  right. reflexivity.
Defined.

(** X3.  In a state without a handler ([finalizado], or any value that
    is not one of the five handled states) a message that is not a global
    interrupt gets the general answer of the language model, and the
    conversation row and the quote tables stay as they are: such a state
    is only left through [CANCELAR] or [DESPEDIDA]. *)
Theorem unhandled_state_gets_general_answer (E : Env) (user : User)
    (message : string) (w : World) :
  ~ In (current_state (conv w)) handled_states ->
  is_global_interrupt (detect_intent E message (context (conv w))) = false ->
  Engine.process_message E user message w
  = (Ok (generate_response E message (context (conv w))),
     with_event (EvGenerateResponse message)
       (with_event (EvDetectIntent message) w)).
Proof.
  intros Hst Hni. apply process_message_ok.
  rewrite by_state_handler by exact Hni. cbv zeta.
  change (current_state (conv (with_event (EvDetectIntent message) w)))
    with (current_state (conv w)).
  unfold handled_states in Hst. cbn [In] in Hst.
  destruct (String.eqb_spec (current_state (conv w)) "conversando") as [Heq|_];
    [exfalso; apply Hst; auto|].
  destruct (String.eqb_spec (current_state (conv w)) "recopilando") as [Heq|_];
    [exfalso; apply Hst; auto|].
  destruct (String.eqb_spec (current_state (conv w)) "validando") as [Heq|_];
    [exfalso; apply Hst; auto|].
  destruct (String.eqb_spec (current_state (conv w)) "revisando") as [Heq|_];
    [exfalso; apply Hst; auto 6|].
  destruct (String.eqb_spec (current_state (conv w)) "cotizando") as [Heq|_];
    [exfalso; apply Hst; auto 7|].
  reflexivity.
Qed.

Lemma unhandled_state_witness :
  Engine.process_message
    (Fixture.env [("otra cosa", "OTRO")] [] [] [Fixture.ana] (Ok "/tmp/q.pdf"))
    Fixture.ana "otra cosa" (Fixture.world "finalizado" [])
  = (Ok "(respuesta del modelo)",
     with_event (EvGenerateResponse "otra cosa")
       (with_event (EvDetectIntent "otra cosa")
          (Fixture.world "finalizado" []))).
Proof.
  apply (unhandled_state_gets_general_answer
           (Fixture.env [("otra cosa", "OTRO")] [] [] [Fixture.ana]
              (Ok "/tmp/q.pdf"))
           Fixture.ana "otra cosa" (Fixture.world "finalizado" [])).
  - cbn. intros H. repeat destruct H as [H|H]; congruence.
  - reflexivity.
Defined.

(** X4.  In [revisando] a message that is not a global interrupt only
    moves the conversation to [cotizando]: the reply announces the quote,
    but no quote is built in this turn (the quote builder and the PDF
    renderer are not called, the tables are unchanged); the generation
    runs on the next message. *)
Theorem revisando_defers_the_quote (E : Env) (user : User) (message : string)
    (w : World) :
  current_state (conv w) = "revisando" ->
  is_global_interrupt (detect_intent E message (context (conv w))) = false ->
  Engine.process_message E user message w
  = (Ok "Generando tu cotización final... ⏳",
     with_state "cotizando" (with_event (EvDetectIntent message) w)).
Proof.
  intros Hst Hni. apply process_message_ok.
  rewrite by_state_handler by exact Hni. cbv zeta.
  change (current_state (conv (with_event (EvDetectIntent message) w)))
    with (current_state (conv w)).
  rewrite Hst. reflexivity.
Qed.

Lemma revisando_defers_the_quote_witness :
  Engine.process_message
    (Fixture.env [("adelante", "OTRO")] [] [] [Fixture.ana] (Ok "/tmp/q.pdf"))
    Fixture.ana "adelante"
    (Fixture.world "revisando" [Fixture.record_of "pluma" 2 Fixture.pluma])
  = (Ok "Generando tu cotización final... ⏳",
     with_state "cotizando"
       (with_event (EvDetectIntent "adelante")
          (Fixture.world "revisando"
             [Fixture.record_of "pluma" 2 Fixture.pluma]))).
Proof.
  apply (revisando_defers_the_quote
           (Fixture.env [("adelante", "OTRO")] [] [] [Fixture.ana]
              (Ok "/tmp/q.pdf"))
           Fixture.ana "adelante"
           (Fixture.world "revisando"
              [Fixture.record_of "pluma" 2 Fixture.pluma])).
  - reflexivity.
  - reflexivity.
Defined.

(** ** Further statements: closing the list *)

Lemma summary_item_ok (E : Env) (r : AccRecord) :
  summarisable r -> exists shown, Engine.summary_item E r = Ok shown.
Proof.
  unfold summarisable, Engine.summary_item. intros [Ho|[q Hq]].
  - rewrite Ho. eexists. reflexivity.
  - destruct (options r); [eexists; reflexivity|].
    rewrite Hq. eexists. reflexivity.
Qed.

Lemma show_products_summary_ok (E : Env) (products : list AccRecord) :
  Forall summarisable products ->
  exists reply, Engine._show_products_summary E products = Ok reply.
Proof.
  intros H. unfold Engine._show_products_summary.
  destruct products as [|r0 rest0]; [eexists; reflexivity|].
  assert (exists shown, rmap (Engine.summary_item E) (r0 :: rest0) = Ok shown)
    as [shown Hshown].
  { induction H as [|r rest Hr _ [shown IH]]; [eexists; reflexivity|].
    destruct (summary_item_ok E r Hr) as [lines Hl].
    cbn. rewrite Hl, IH. eexists. reflexivity. }
  rewrite Hshown. eexists. reflexivity.
Qed.

(** X5.  [FINALIZAR_COTIZACION] while collecting (and no status word
    in the message).  With an empty list the engine asks for products and
    stays in [recopilando].  With a list whose records all have a quantity
    (or no option) it moves to [validando] and answers with the summary of
    that list; the list itself, the context and the quote tables are
    unchanged, and no collaborator other than the classifier is called. *)
Theorem finalize_while_collecting (E : Env) (user : User) (message : string)
    (w : World) :
  current_state (conv w) = "recopilando" ->
  Text.any_in Engine.status_query_words (lower E message) = false ->
  detect_intent E message (context (conv w)) = Some "FINALIZAR_COTIZACION" ->
  Forall summarisable (products_in_progress (conv w)) ->
  exists reply,
    Engine.process_message E user message w
    = (Ok reply,
       match products_in_progress (conv w) with
       | [] => with_event (EvDetectIntent message) w
       | _ => with_state "validando" (with_event (EvDetectIntent message) w)
       end)
    /\ (products_in_progress (conv w) <> [] ->
        Engine._show_products_summary E (products_in_progress (conv w))
        = Ok reply).
Proof.
  intros Hst Hkw Hint Hsum.
  destruct (show_products_summary_ok E _ Hsum) as [summary Hsummary].
  assert (is_global_interrupt (detect_intent E message (context (conv w))) = false)
    as Hni by (rewrite Hint; reflexivity).
  assert (forall reply w',
            Engine._handle_recopilando_state E message
              (Some "FINALIZAR_COTIZACION")
              (with_event (EvDetectIntent message) w) = (Ok reply, w') ->
            Engine.process_message E user message w = (Ok reply, w')) as Hrun.
  { intros reply w' H. apply process_message_ok.
    rewrite by_state_handler by exact Hni. cbv zeta.
    change (current_state (conv (with_event (EvDetectIntent message) w)))
      with (current_state (conv w)).
    rewrite Hst, Hint. exact H. }
  destruct (products_in_progress (conv w)) as [|r rest] eqn:Hp.
  - eexists. split; [|congruence].
    apply Hrun. unfold Engine._handle_recopilando_state, bind, get_conv.
    rewrite Hkw. cbn [conv with_event]. rewrite Hp. reflexivity.
  - exists summary. split; [|intros _; exact Hsummary].
    apply Hrun. unfold Engine._handle_recopilando_state, bind, get_conv.
    rewrite Hkw. cbn [conv with_event]. rewrite Hp.
    destruct (decide _) as [[Hd|Hd]|_]; [discriminate Hd|discriminate Hd|].
    destruct (decide _) as [_|Hd]; [|congruence].
    unfold Engine._transition_to_state, update_state, repo_update, bind,
      get_conv, put_conv, ret, lift_result.
    rewrite Hsummary. reflexivity.
Qed.

Lemma finalize_while_collecting_witness :
  exists reply,
    Engine.process_message
      (Fixture.env [("es todo", "FINALIZAR_COTIZACION")] [] [Fixture.pluma]
         [Fixture.ana] (Ok "/tmp/q.pdf"))
      Fixture.ana "es todo"
      (Fixture.world "recopilando" [Fixture.record_of "pluma" 2 Fixture.pluma])
    = (Ok reply,
       with_state "validando"
         (with_event (EvDetectIntent "es todo")
            (Fixture.world "recopilando"
               [Fixture.record_of "pluma" 2 Fixture.pluma])))
    /\ ([Fixture.record_of "pluma" 2 Fixture.pluma] <> [] ->
        Engine._show_products_summary
          (Fixture.env [("es todo", "FINALIZAR_COTIZACION")] [] [Fixture.pluma]
             [Fixture.ana] (Ok "/tmp/q.pdf"))
          [Fixture.record_of "pluma" 2 Fixture.pluma]
        = Ok reply).
Proof.
  apply (finalize_while_collecting
           (Fixture.env [("es todo", "FINALIZAR_COTIZACION")] [] [Fixture.pluma]
              [Fixture.ana] (Ok "/tmp/q.pdf"))
           Fixture.ana "es todo"
           (Fixture.world "recopilando"
              [Fixture.record_of "pluma" 2 Fixture.pluma])).
  - reflexivity.
  - reflexivity.
  - reflexivity.
  - constructor; [|constructor]. right. eexists. reflexivity.
Defined.

(** X6.  In [validando], a message that is neither a global interrupt
    nor a confirmation never starts the quote generation: when it contains
    [modificar] or [cambiar] the conversation goes back to [recopilando],
    otherwise it stays in [validando] and the question is repeated.  In
    both cases the product list is kept as it is. *)
Theorem validando_without_confirmation (E : Env) (user : User)
    (message : string) (w : World) :
  current_state (conv w) = "validando" ->
  is_global_interrupt (detect_intent E message (context (conv w))) = false ->
  Engine.confirms E message (detect_intent E message (context (conv w))) = false ->
  exists reply,
    Engine.process_message E user message w
    = (Ok reply,
       if asks_to_modify E message
       then with_state "recopilando" (with_event (EvDetectIntent message) w)
       else with_event (EvDetectIntent message) w).
Proof.
  intros Hst Hni Hno.
  assert (forall reply w',
            Engine._handle_validando_state E message
              (detect_intent E message (context (conv w)))
              (with_event (EvDetectIntent message) w) = (Ok reply, w') ->
            Engine.process_message E user message w = (Ok reply, w')) as Hrun.
  { intros reply w' H. apply process_message_ok.
    rewrite by_state_handler by exact Hni. cbv zeta.
    change (current_state (conv (with_event (EvDetectIntent message) w)))
      with (current_state (conv w)).
    rewrite Hst. exact H. }
  unfold asks_to_modify.
  destruct (Text.contains "modificar" (lower E message)
            || Text.contains "cambiar" (lower E message)) eqn:Hm.
  - eexists. apply Hrun. unfold Engine._handle_validando_state.
    rewrite Hno, Hm. reflexivity.
  - eexists. apply Hrun. unfold Engine._handle_validando_state.
    rewrite Hno, Hm. reflexivity.
Qed.

Lemma validando_without_confirmation_witness :
  exists reply,
    Engine.process_message
      (Fixture.env [("quiero cambiar algo", "OTRO")] [] [] [Fixture.ana]
         (Ok "/tmp/q.pdf"))
      Fixture.ana "quiero cambiar algo"
      (Fixture.world "validando" [Fixture.record_of "pluma" 2 Fixture.pluma])
    = (Ok reply,
       with_state "recopilando"
         (with_event (EvDetectIntent "quiero cambiar algo")
            (Fixture.world "validando"
               [Fixture.record_of "pluma" 2 Fixture.pluma]))).
Proof.
  apply (validando_without_confirmation
           (Fixture.env [("quiero cambiar algo", "OTRO")] [] [] [Fixture.ana]
              (Ok "/tmp/q.pdf"))
           Fixture.ana "quiero cambiar algo"
           (Fixture.world "validando"
              [Fixture.record_of "pluma" 2 Fixture.pluma])).
  - reflexivity.
  - reflexivity.
  - reflexivity.
Defined.

(** ** Further statements: the search loop *)

Lemma batch_names_cons (p : ProductData) (rest : list ProductData) :
  batch_names (p :: rest)
  = match pd_name p with
    | Some name => name :: batch_names rest
    | None => batch_names rest
    end.
Proof. reflexivity. Qed.

(** The searches of a batch, most recent first, as the trace holds them. *)
Lemma match_products_trace (E : Env) (products : list ProductData) (w : World) :
  Forall named products ->
  exists w',
    Engine.match_products E products w = (Ok (match_pure E products), w')
    /\ only_calls w w'
    /\ trace w'
       = List.app
           (rev (map (fun name => EvSearchProducts name 3) (batch_names products)))
           (trace w).
Proof.
  intros Hn. revert w. induction Hn as [|p rest [name Hname] _ IH]; intros w.
  - exists w. repeat split; reflexivity.
  - cbn [Engine.match_products match_pure]. rewrite Hname.
    unfold bind at 1. unfold emit at 1. unfold bind at 1.
    destruct (IH (with_event (EvSearchProducts name 3) w))
      as (w' & Hrun & (Hc & Hq & Hi) & Htr).
    unfold with_event in Hrun. rewrite Hrun.
    destruct (match_pure E rest) as [found nf].
    exists w'. split; [destruct (search_products E name 3); reflexivity|].
    split; [repeat split; assumption|].
    rewrite Htr, batch_names_cons, Hname.
    cbn [map rev with_event trace]. rewrite <- app_assoc. reflexivity.
Qed.

Lemma match_products_named (E : Env) (products : list ProductData) (w w' : World)
    (r : list AccRecord * list string) :
  Engine.match_products E products w = (Ok r, w') -> Forall named products.
Proof.
  revert w w' r. induction products as [|p rest IH]; intros w w' r H.
  - constructor.
  - cbn [Engine.match_products] in H.
    destruct (pd_name p) as [name|] eqn:Hname; [|discriminate].
    unfold bind at 1 in H. unfold emit at 1 in H. unfold bind at 1 in H.
    destruct (Engine.match_products E rest _) as [[r1|e] w1] eqn:Hrest;
      [|discriminate].
    constructor; [eexists; exact Hname|]. eapply IH. exact Hrest.
Qed.

Lemma match_pure_names (E : Env) (products : list ProductData) :
  map (fun r => rq_name (requested r)) (fst (match_pure E products))
  = List.filter (has_candidates E) (batch_names products)
  /\ snd (match_pure E products)
     = List.filter (fun name => negb (has_candidates E name)) (batch_names products)
  /\ Forall (fun r => options r
                      = map to_dict (search_products E (rq_name (requested r)) 3)
                      /\ options r <> [])
            (fst (match_pure E products)).
Proof.
  induction products as [|p rest (IH1 & IH2 & IH3)].
  { split; [reflexivity|]. split; [reflexivity|]. constructor. }
  cbn [match_pure]. destruct (match_pure E rest) as [found nf].
  cbn [fst snd] in *. rewrite batch_names_cons.
  destruct (pd_name p) as [name|];
    [|split; [exact IH1|]; split; [exact IH2|exact IH3]].
  cbn [List.filter].
  destruct (search_products E name 3) as [|p0 ps] eqn:Hs.
  - assert (has_candidates E name = false) as Hc
      by (unfold has_candidates; rewrite Hs; reflexivity).
    rewrite Hc. cbn [fst snd negb].
    split; [exact IH1|]. split; [rewrite IH2; reflexivity|exact IH3].
  - assert (has_candidates E name = true) as Hc
      by (unfold has_candidates; rewrite Hs; reflexivity).
    rewrite Hc. cbn [fst snd negb map requested rq_name].
    split; [rewrite IH1; reflexivity|]. split; [exact IH2|].
    constructor; [|exact IH3].
    cbn [options requested rq_name]. rewrite Hs.
    split; [reflexivity|discriminate].
Qed.

(** X7.  The search loop, whenever it completes.  Every product of the
    batch then has a name and is searched exactly once, in message order,
    with limit 3; the matched records are those whose search found
    something and the not-found list holds the other names, both in
    message order; every matched record carries the snapshots of what its
    search returned, so it has at least one option; and the loop writes
    nothing (conversation row and quote tables are unchanged). *)
Theorem search_loop_partitions_the_batch (E : Env) (batch : list ProductData)
    (w w' : World) (found_products : list AccRecord) (not_found : list string) :
  Engine.match_products E batch w = (Ok (found_products, not_found), w') ->
  length (batch_names batch) = length batch
  /\ map (fun r => rq_name (requested r)) found_products
     = List.filter (has_candidates E) (batch_names batch)
  /\ not_found
     = List.filter (fun name => negb (has_candidates E name)) (batch_names batch)
  /\ Forall (fun r => options r
                      = map to_dict (search_products E (rq_name (requested r)) 3)
                      /\ options r <> [])
            found_products
  /\ only_calls w w'
  /\ trace w'
     = List.app
         (rev (map (fun name => EvSearchProducts name 3) (batch_names batch)))
         (trace w).
Proof.
  intros H. pose proof (match_products_named E batch w w' _ H) as Hn.
  destruct (match_products_trace E batch w Hn) as (w2 & Hrun & Hcalls & Htr).
  rewrite Hrun in H. injection H as Hm <-.
  destruct (match_pure_names E batch) as (H1 & H2 & H3).
  rewrite Hm in H1, H2, H3. cbn [fst snd] in *.
  split; [|split; [exact H1|]; split; [exact H2|]; split; [exact H3|];
             split; [exact Hcalls|exact Htr]].
  clear -Hn.
  induction Hn as [|p rest [name Hname] _ IH]; [reflexivity|].
  rewrite batch_names_cons, Hname. cbn [length]. rewrite IH. reflexivity.
Qed.

Lemma search_loop_witness :
  length (batch_names [Fixture.item "pluma" 2; Fixture.item "grapadora" 1])
  = length [Fixture.item "pluma" 2; Fixture.item "grapadora" 1]
  /\ map (fun r => rq_name (requested r)) [Fixture.record_of "pluma" 2 Fixture.pluma]
     = List.filter
         (has_candidates (Fixture.env [] [] [Fixture.pluma] [] (Ok "/tmp/q.pdf")))
         (batch_names [Fixture.item "pluma" 2; Fixture.item "grapadora" 1])
  /\ ["grapadora"]
     = List.filter
         (fun name =>
            negb (has_candidates
                    (Fixture.env [] [] [Fixture.pluma] [] (Ok "/tmp/q.pdf")) name))
         (batch_names [Fixture.item "pluma" 2; Fixture.item "grapadora" 1])
  /\ Forall
       (fun r =>
          options r
          = map to_dict
              (search_products
                 (Fixture.env [] [] [Fixture.pluma] [] (Ok "/tmp/q.pdf"))
                 (rq_name (requested r)) 3)
          /\ options r <> [])
       [Fixture.record_of "pluma" 2 Fixture.pluma]
  /\ only_calls (Fixture.world "recopilando" [])
       (with_event (EvSearchProducts "grapadora" 3)
          (with_event (EvSearchProducts "pluma" 3)
             (Fixture.world "recopilando" [])))
  /\ trace (with_event (EvSearchProducts "grapadora" 3)
              (with_event (EvSearchProducts "pluma" 3)
                 (Fixture.world "recopilando" [])))
     = List.app
         (rev (map (fun name => EvSearchProducts name 3)
                 (batch_names [Fixture.item "pluma" 2; Fixture.item "grapadora" 1])))
         (trace (Fixture.world "recopilando" [])).
Proof.
  apply (search_loop_partitions_the_batch
           (Fixture.env [] [] [Fixture.pluma] [] (Ok "/tmp/q.pdf"))
           [Fixture.item "pluma" 2; Fixture.item "grapadora" 1]
           (Fixture.world "recopilando" [])).
  reflexivity.
Defined.

(** X8.  A product search in [conversando] whose message yields no
    product (the extractor answers with an empty list) has already
    committed its first two steps: the conversation is in [recopilando]
    and its context has been replaced by [{"products_in_progress": []}],
    so every other context key (the identifiers of the last quote, for
    one) is gone.  The product list of the model and the quote tables are
    untouched, and no search is made. *)
Theorem search_without_products_resets_context (E : Env) (user : User)
    (message : string) (w : World) :
  current_state (conv w) = "conversando" ->
  detect_intent E message (context (conv w)) = Some "BUSCAR_PRODUCTOS" ->
  extract_products_from_message E message = [] ->
  exists reply w',
    Engine.process_message E user message w = (Ok reply, w')
    /\ current_state (conv w') = "recopilando"
    /\ context (conv w') = {[ "products_in_progress" := VList [] ]}
    /\ products_in_progress (conv w') = products_in_progress (conv w)
    /\ quotes_kept w w'
    /\ trace w' = EvExtractProducts message :: EvDetectIntent message :: trace w.
Proof.
  intros Hst Hint Hex.
  assert (is_global_interrupt (detect_intent E message (context (conv w))) = false)
    as Hni by (rewrite Hint; reflexivity).
  eexists _, _. split.
  - apply process_message_ok.
    rewrite by_state_handler by exact Hni. cbv zeta.
    change (current_state (conv (with_event (EvDetectIntent message) w)))
      with (current_state (conv w)).
    rewrite Hst. cbn [String.eqb Ascii.eqb Bool.eqb].
    unfold Engine._handle_conversando_state. rewrite Hint.
    destruct (decide (Some "BUSCAR_PRODUCTOS" = Some "COTIZAR")) as [Habs|_];
      [discriminate|].
    destruct (decide (Some "BUSCAR_PRODUCTOS" = Some "BUSCAR_PRODUCTOS"))
      as [_|Hno]; [|congruence].
    unfold Engine.openai_extract_products. rewrite Hex.
    reflexivity.
  - cbn. repeat split; reflexivity.
Qed.

Lemma search_without_products_witness :
  exists reply w',
    Engine.process_message
      (Fixture.env [("busco algo", "BUSCAR_PRODUCTOS")] [] [Fixture.pluma]
         [Fixture.ana] (Ok "/tmp/q.pdf"))
      Fixture.ana "busco algo"
      (Fixture.world "conversando" [Fixture.record_of "pluma" 2 Fixture.pluma])
    = (Ok reply, w')
    /\ current_state (conv w') = "recopilando"
    /\ context (conv w') = {[ "products_in_progress" := VList [] ]}
    /\ products_in_progress (conv w')
       = products_in_progress
           (conv (Fixture.world "conversando"
                    [Fixture.record_of "pluma" 2 Fixture.pluma]))
    /\ quotes_kept
         (Fixture.world "conversando" [Fixture.record_of "pluma" 2 Fixture.pluma])
         w'
    /\ trace w'
       = EvExtractProducts "busco algo" :: EvDetectIntent "busco algo"
         :: trace (Fixture.world "conversando"
                     [Fixture.record_of "pluma" 2 Fixture.pluma]).
Proof.
  apply (search_without_products_resets_context
           (Fixture.env [("busco algo", "BUSCAR_PRODUCTOS")] [] [Fixture.pluma]
              [Fixture.ana] (Ok "/tmp/q.pdf"))
           Fixture.ana "busco algo"
           (Fixture.world "conversando"
              [Fixture.record_of "pluma" 2 Fixture.pluma])).
  - reflexivity.
  - reflexivity.
  - reflexivity.
Defined.

(** *** A batch that cannot be processed *)

Lemma match_products_nameless (E : Env) (batch : list ProductData) (w : World) :
  Exists (fun p => pd_name p = None) batch ->
  exists w',
    Engine.match_products E batch w = (Raise (KeyError "name"), w')
    /\ only_calls w w'.
Proof.
  revert w. induction batch as [|p rest IH]; intros w H.
  - inversion H.
  - cbn [Engine.match_products].
    destruct (pd_name p) as [name|] eqn:Hname.
    + inversion H as [? ? Hp|? ? Hrest]; subst; [congruence|].
      destruct (IH (with_event (EvSearchProducts name 3) w) Hrest)
        as (w' & Hrun & Hc & Hq & Hi).
      exists w'. unfold bind at 1. unfold emit at 1. unfold bind at 1.
      unfold with_event in Hrun. rewrite Hrun.
      split; [reflexivity|]. split; [exact Hc|]. split; assumption.
    + exists w. split; [reflexivity|]. split; [reflexivity|].
      split; reflexivity.
Qed.

(** How a collecting turn enters the search loop. *)
Lemma recopilando_enters_loop (E : Env) (user : User) (message : string)
    (batch : list ProductData) (w : World) :
  current_state (conv w) = "recopilando" ->
  Text.any_in Engine.status_query_words (lower E message) = false ->
  (detect_intent E message (context (conv w)) = Some "AGREGAR_PRODUCTO"
   \/ detect_intent E message (context (conv w)) = Some "BUSCAR_PRODUCTOS") ->
  extract_products_from_message E message = batch ->
  batch <> [] ->
  Engine._handle_message_by_state E user message
    (detect_intent E message (context (conv w)))
    (with_event (EvDetectIntent message) w)
  = match Engine.match_products E batch
            (with_event (EvExtractProducts message)
               (with_event (EvDetectIntent message) w)) with
    | (Ok (found_products, not_found), w1) =>
        Engine.merge_and_show E found_products not_found w1
    | (Raise e, w1) => (Raise e, w1)
    end.
Proof.
  intros Hst Hkw Hint Hex Hne.
  assert (is_global_interrupt (detect_intent E message (context (conv w))) = false)
    as Hni by (destruct Hint as [-> | ->]; reflexivity).
  rewrite by_state_handler by exact Hni. cbv zeta.
  change (current_state (conv (with_event (EvDetectIntent message) w)))
    with (current_state (conv w)).
  rewrite Hst. cbn [String.eqb Ascii.eqb Bool.eqb].
  unfold Engine._handle_recopilando_state. unfold bind at 1. unfold get_conv at 1.
  rewrite Hkw.
  destruct (decide _) as [_|Hno]; [|exfalso; apply Hno; exact Hint].
  unfold Engine.openai_extract_products. rewrite Hex.
  destruct batch as [|p rest]; [congruence|].
  unfold bind at 1. unfold bind at 1. unfold emit at 1. unfold ret at 1.
  unfold bind at 1. unfold with_event.
  destruct (Engine.match_products E (p :: rest) _) as [[[found nf]|e] w1];
    reflexivity.
Qed.

(** X9.  A batch with a product that has no name, received while
    collecting: the state handling raises [KeyError] on [name] before
    anything is saved, so none of the batch is added, not even the
    products that precede the nameless one and were already searched.
    The conversation row and the quote tables are as before, and the turn
    is answered by the fallback. *)
Theorem nameless_product_discards_the_batch (E : Env) (user : User)
    (message : string) (batch : list ProductData) (w : World) :
  current_state (conv w) = "recopilando" ->
  Text.any_in Engine.status_query_words (lower E message) = false ->
  (detect_intent E message (context (conv w)) = Some "AGREGAR_PRODUCTO"
   \/ detect_intent E message (context (conv w)) = Some "BUSCAR_PRODUCTOS") ->
  extract_products_from_message E message = batch ->
  Exists (fun p => pd_name p = None) batch ->
  exists w1,
    Engine._handle_message_by_state E user message
      (detect_intent E message (context (conv w)))
      (with_event (EvDetectIntent message) w)
    = (Raise (KeyError "name"), w1)
    /\ only_calls w w1
    /\ Engine.process_message E user message w
       = Engine._handle_message_fallback E user message w1.
Proof.
  intros Hst Hkw Hint Hex Hnameless.
  assert (batch <> []) as Hne by (intros ->; inversion Hnameless).
  destruct (match_products_nameless E batch
              (with_event (EvExtractProducts message)
                 (with_event (EvDetectIntent message) w)) Hnameless)
    as (w1 & Hrun & Hcalls).
  exists w1.
  assert (Engine._handle_message_by_state E user message
            (detect_intent E message (context (conv w)))
            (with_event (EvDetectIntent message) w)
          = (Raise (KeyError "name"), w1)) as Hraise.
  { rewrite (recopilando_enters_loop E user message batch w Hst Hkw Hint Hex Hne).
    rewrite Hrun. reflexivity. }
  split; [exact Hraise|]. split; [exact Hcalls|].
  apply (process_message_raise E user message _ w w1 Hraise). reflexivity.
Qed.

Lemma nameless_product_witness :
  exists w1,
    Engine._handle_message_by_state
      (Fixture.env [("2 plumas y otra cosa", "AGREGAR_PRODUCTO")]
         [("2 plumas y otra cosa", [Fixture.item "pluma" 2; nameless 1])]
         [Fixture.pluma] [Fixture.ana] (Ok "/tmp/q.pdf"))
      Fixture.ana "2 plumas y otra cosa"
      (detect_intent
         (Fixture.env [("2 plumas y otra cosa", "AGREGAR_PRODUCTO")]
            [("2 plumas y otra cosa", [Fixture.item "pluma" 2; nameless 1])]
            [Fixture.pluma] [Fixture.ana] (Ok "/tmp/q.pdf"))
         "2 plumas y otra cosa"
         (context (conv (Fixture.world "recopilando" []))))
      (with_event (EvDetectIntent "2 plumas y otra cosa")
         (Fixture.world "recopilando" []))
    = (Raise (KeyError "name"), w1)
    /\ only_calls (Fixture.world "recopilando" []) w1
    /\ Engine.process_message
         (Fixture.env [("2 plumas y otra cosa", "AGREGAR_PRODUCTO")]
            [("2 plumas y otra cosa", [Fixture.item "pluma" 2; nameless 1])]
            [Fixture.pluma] [Fixture.ana] (Ok "/tmp/q.pdf"))
         Fixture.ana "2 plumas y otra cosa" (Fixture.world "recopilando" [])
       = Engine._handle_message_fallback
           (Fixture.env [("2 plumas y otra cosa", "AGREGAR_PRODUCTO")]
              [("2 plumas y otra cosa", [Fixture.item "pluma" 2; nameless 1])]
              [Fixture.pluma] [Fixture.ana] (Ok "/tmp/q.pdf"))
           Fixture.ana "2 plumas y otra cosa" w1.
Proof.
  apply (nameless_product_discards_the_batch
           (Fixture.env [("2 plumas y otra cosa", "AGREGAR_PRODUCTO")]
              [("2 plumas y otra cosa", [Fixture.item "pluma" 2; nameless 1])]
              [Fixture.pluma] [Fixture.ana] (Ok "/tmp/q.pdf"))
           Fixture.ana "2 plumas y otra cosa"
           [Fixture.item "pluma" 2; nameless 1]
           (Fixture.world "recopilando" [])).
  - reflexivity.
  - reflexivity.
  - left. reflexivity.
  - reflexivity.
  - apply Exists_cons_tl. apply Exists_cons_hd. reflexivity.
Defined.

Lemma show_found_products_missing_quantity (E : Env) (found : list AccRecord)
    (not_found : list string) :
  Forall (fun r => options r <> []) found ->
  Exists (fun r => rq_quantity (requested r) = None) found ->
  Engine._show_found_products E found not_found = Raise (KeyError "quantity").
Proof.
  intros Ho Hq. unfold Engine._show_found_products.
  assert (rmap (Engine.show_found_item E) found = Raise (KeyError "quantity"))
    as ->; [|reflexivity].
  induction Ho as [|r rest Hr Hrest IH]; [inversion Hq|].
  cbn [rmap]. unfold Engine.show_found_item at 1.
  destruct (rq_quantity (requested r)) as [q|] eqn:Hrq; [|reflexivity].
  inversion Hq as [? ? Hhd|? ? Htl]; subst; [congruence|].
  rewrite (IH Htl).
  destruct (options r) as [|o [|o' more]]; [congruence| |]; reflexivity.
Qed.

Lemma matched_missing_quantity (E : Env) (batch : list ProductData) :
  Exists (fun p => pd_quantity p = None
                   /\ exists name, pd_name p = Some name
                                   /\ has_candidates E name = true) batch ->
  Exists (fun r => rq_quantity (requested r) = None) (matched E batch).
Proof.
  unfold matched.
  induction 1 as [p rest (Hq & name & Hname & Hc)|p rest _ IH];
    cbn [match_pure]; destruct (match_pure E rest) as [found nf]; cbn [fst] in *.
  - rewrite Hname. unfold has_candidates in Hc.
    destruct (search_products E name 3); [discriminate|].
    cbn [fst]. apply Exists_cons_hd. exact Hq.
  - destruct (pd_name p) as [name|]; [|exact IH].
    destruct (search_products E name 3); [exact IH|].
    cbn [fst]. apply Exists_cons_tl. exact IH.
Qed.

(** X10.  A batch whose products all have a name, where a product that
    the catalogue matches has no quantity: the merged list is saved first
    (the whole batch is appended to the product list, the product without
    quantity included) and only then the rendering of the reply raises
    [KeyError] on [quantity]; the turn is answered by the fallback, on a
    conversation that already holds the new records. *)
Theorem missing_quantity_is_saved_then_fails (E : Env) (user : User)
    (message : string) (batch : list ProductData) (w : World) :
  current_state (conv w) = "recopilando" ->
  Text.any_in Engine.status_query_words (lower E message) = false ->
  (detect_intent E message (context (conv w)) = Some "AGREGAR_PRODUCTO"
   \/ detect_intent E message (context (conv w)) = Some "BUSCAR_PRODUCTOS") ->
  extract_products_from_message E message = batch ->
  Forall named batch ->
  Exists (fun p => pd_quantity p = None
                   /\ exists name, pd_name p = Some name
                                   /\ has_candidates E name = true) batch ->
  exists w1,
    Engine._handle_message_by_state E user message
      (detect_intent E message (context (conv w)))
      (with_event (EvDetectIntent message) w)
    = (Raise (KeyError "quantity"), w1)
    /\ conv w1 = appended (matched E batch) (conv w)
    /\ quotes_kept w w1
    /\ Engine.process_message E user message w
       = Engine._handle_message_fallback E user message w1.
Proof.
  intros Hst Hkw Hint Hex Hn Hmissing.
  assert (batch <> []) as Hne by (intros ->; inversion Hmissing).
  destruct (match_products_trace E batch
              (with_event (EvExtractProducts message)
                 (with_event (EvDetectIntent message) w)) Hn)
    as (w2 & Hrun & (Hc & Hq & Hi) & _).
  pose proof (matched_missing_quantity E batch Hmissing) as Hex1.
  destruct (match_pure_names E batch) as (_ & _ & Hopts).
  assert (Forall (fun r => options r <> []) (matched E batch)) as Hopts'.
  { unfold matched. eapply Forall_impl; [exact Hopts|].
    intros r [_ Hr]. exact Hr. }
  pose proof (show_found_products_missing_quantity E (matched E batch)
                (snd (match_pure E batch)) Hopts' Hex1) as Hshow.
  exists {| conv := appended (matched E batch) (conv w); quotes := quotes w2;
            quote_items := quote_items w2; trace := trace w2 |}.
  assert (Engine._handle_message_by_state E user message
            (detect_intent E message (context (conv w)))
            (with_event (EvDetectIntent message) w)
          = (Raise (KeyError "quantity"),
             {| conv := appended (matched E batch) (conv w); quotes := quotes w2;
                quote_items := quote_items w2; trace := trace w2 |})) as Hraise.
  { rewrite (recopilando_enters_loop E user message batch w Hst Hkw Hint Hex Hne).
    rewrite Hrun. unfold matched in *.
    destruct (match_pure E batch) as [found nf]. cbn [fst snd] in *.
    unfold Engine.merge_and_show, repo_update, bind, get_conv, put_conv, ret,
      lift_result. cbn [fold_left conv quotes quote_items trace].
    rewrite Hshow, Hc. reflexivity. }
  split; [exact Hraise|]. split; [reflexivity|].
  split; [split; assumption|].
  apply (process_message_raise E user message _ w _ Hraise). reflexivity.
Qed.

Lemma missing_quantity_witness :
  exists w1,
    Engine._handle_message_by_state
      (Fixture.env [("unas plumas", "AGREGAR_PRODUCTO")]
         [("unas plumas",
           [ {| pd_name := Some "pluma"; pd_quantity := None; pd_unit := None |} ])]
         [Fixture.pluma] [Fixture.ana] (Ok "/tmp/q.pdf"))
      Fixture.ana "unas plumas"
      (detect_intent
         (Fixture.env [("unas plumas", "AGREGAR_PRODUCTO")]
            [("unas plumas",
              [ {| pd_name := Some "pluma"; pd_quantity := None;
                   pd_unit := None |} ])]
            [Fixture.pluma] [Fixture.ana] (Ok "/tmp/q.pdf"))
         "unas plumas" (context (conv (Fixture.world "recopilando" []))))
      (with_event (EvDetectIntent "unas plumas") (Fixture.world "recopilando" []))
    = (Raise (KeyError "quantity"), w1)
    /\ conv w1
       = appended
           (matched
              (Fixture.env [("unas plumas", "AGREGAR_PRODUCTO")]
                 [("unas plumas",
                   [ {| pd_name := Some "pluma"; pd_quantity := None;
                        pd_unit := None |} ])]
                 [Fixture.pluma] [Fixture.ana] (Ok "/tmp/q.pdf"))
              [ {| pd_name := Some "pluma"; pd_quantity := None;
                   pd_unit := None |} ])
           (conv (Fixture.world "recopilando" []))
    /\ quotes_kept (Fixture.world "recopilando" []) w1
    /\ Engine.process_message
         (Fixture.env [("unas plumas", "AGREGAR_PRODUCTO")]
            [("unas plumas",
              [ {| pd_name := Some "pluma"; pd_quantity := None;
                   pd_unit := None |} ])]
            [Fixture.pluma] [Fixture.ana] (Ok "/tmp/q.pdf"))
         Fixture.ana "unas plumas" (Fixture.world "recopilando" [])
       = Engine._handle_message_fallback
           (Fixture.env [("unas plumas", "AGREGAR_PRODUCTO")]
              [("unas plumas",
                [ {| pd_name := Some "pluma"; pd_quantity := None;
                     pd_unit := None |} ])]
              [Fixture.pluma] [Fixture.ana] (Ok "/tmp/q.pdf"))
           Fixture.ana "unas plumas" w1.
Proof.
  apply (missing_quantity_is_saved_then_fails
           (Fixture.env [("unas plumas", "AGREGAR_PRODUCTO")]
              [("unas plumas",
                [ {| pd_name := Some "pluma"; pd_quantity := None;
                     pd_unit := None |} ])]
              [Fixture.pluma] [Fixture.ana] (Ok "/tmp/q.pdf"))
           Fixture.ana "unas plumas"
           [ {| pd_name := Some "pluma"; pd_quantity := None; pd_unit := None |} ]
           (Fixture.world "recopilando" [])).
  - reflexivity.
  - reflexivity.
  - left. reflexivity.
  - reflexivity.
  - constructor; [eexists; reflexivity|constructor].
  - apply Exists_cons_hd. split; [reflexivity|].
    exists "pluma". split; reflexivity.
Defined.

(** ** Further statements: what a turn never does *)

(** A frame proof by walking the control structure: [base] settles the
    primitive operations and the collaborators, the rest follows the
    binds, the branches and the [try]. *)
Ltac walk base :=
  repeat first
    [ solve [base]
    | progress cbv zeta
    | match goal with
      | |- preserves _ (match ?x with _ => _ end) => destruct x
      end
    | apply preserves_bind; [typeclasses eauto .. | | intros ?]
    | apply preserves_try_except; [typeclasses eauto .. | | intros ?]
    | apply preserves_on_session; [typeclasses eauto .. | ] ].

#[local] Instance state_kept_or_written_refl : Reflexive state_kept_or_written.
Proof. intros w. left. reflexivity. Qed.

#[local] Instance state_kept_or_written_trans : Transitive state_kept_or_written.
Proof.
  intros a b c H1 H2. unfold state_kept_or_written in *.
  destruct H2 as [H2|H2]; [rewrite H2; exact H1|right; exact H2].
Qed.

Lemma same_conv_state {A} (m : M A) :
  preserves same_conv m -> preserves state_kept_or_written m.
Proof. intros H w. left. rewrite (H w). reflexivity. Qed.

Ltac state_base :=
  first
    [ intros ?; left; reflexivity
    | intros ?; right; cbn; solve [repeat (first [left; reflexivity | right])]
    | apply same_conv_state; apply match_products_same_conv
    | apply same_conv_state; apply create_quote_from_conversation_same_conv
    | apply same_conv_state; apply generate_quote_pdf_same_conv ].

Lemma by_state_state_closure (E : Env) (user : User) (message : string)
    (intent : option string) :
  preserves state_kept_or_written
    (Engine._handle_message_by_state E user message intent).
Proof.
  unfold Engine._handle_message_by_state, Engine._handle_greeting,
    Engine._handle_cancel, Engine._handle_goodbye,
    Engine._handle_conversando_state, Engine._handle_recopilando_state,
    Engine._handle_validando_state, Engine._handle_revisando_state,
    Engine._handle_cotizando_state, Engine.cotizando_body,
    Engine.merge_and_show, Engine.openai_extract_products,
    Engine.openai_generate_response.
  walk state_base.
Qed.

Lemma fallback_state_closure (E : Env) (user : User) (message : string) :
  preserves state_kept_or_written (Engine._handle_message_fallback E user message).
Proof. unfold Engine._handle_message_fallback. walk state_base. Qed.

(** X11.  Whatever the message, the classifier's answer and the path
    taken (state handling or fallback), a turn leaves the conversation in
    the state it was in or in one of [conversando], [recopilando],
    [validando], [cotizando] and [finalizado].  So no turn ever moves a
    conversation into [revisando]: although the engine declares the state
    and has a handler for it, nothing writes it. *)
Theorem no_turn_enters_revisando (E : Env) (user : User) (message : string)
    (w : World) :
  state_kept_or_written w (snd (Engine.process_message E user message w))
  /\ (current_state (conv (snd (Engine.process_message E user message w)))
      = "revisando" ->
      current_state (conv w) = "revisando").
Proof.
  assert (state_kept_or_written w (snd (Engine.process_message E user message w)))
    as H.
  { revert w. change (preserves state_kept_or_written
                        (Engine.process_message E user message)).
    unfold Engine.process_message.
    apply preserves_try_except; [typeclasses eauto .. | | intros ?].
    - apply preserves_bind; [typeclasses eauto .. | | intros ?].
      + intros w. left. reflexivity.
      + apply preserves_bind; [typeclasses eauto .. | | intros ?].
        * intros w. left. reflexivity.
        * apply by_state_state_closure.
    - apply preserves_on_session; [typeclasses eauto .. | ].
      apply fallback_state_closure. }
  split; [exact H|].
  intros Hrev. destruct H as [H|H]; [congruence|].
  rewrite Hrev in H. cbn in H.
  repeat destruct H as [H|H]; try discriminate H. contradiction.
Qed.

#[local] Instance quotes_kept_refl : Reflexive quotes_kept.
Proof. intros w. split; reflexivity. Qed.

#[local] Instance quotes_kept_trans : Transitive quotes_kept.
Proof.
  intros a b c [H1 H2] [H3 H4]. split; congruence.
Qed.

Ltac quotes_base := intros ?; split; reflexivity.

Lemma match_products_quotes_kept (E : Env) (products : list ProductData) :
  preserves quotes_kept (Engine.match_products E products).
Proof.
  induction products as [|p rest IH]; cbn [Engine.match_products].
  - quotes_base.
  - destruct (pd_name p); [|quotes_base].
    apply preserves_bind; [typeclasses eauto .. | quotes_base | intros ?].
    apply preserves_bind; [typeclasses eauto .. | exact IH | intros [? ?]].
    destruct (search_products E _ _); quotes_base.
Qed.

Ltac quotes_step := first [quotes_base | apply match_products_quotes_kept].

Lemma conversando_quotes_kept (E : Env) (user : User) (message : string)
    (intent : option string) :
  preserves quotes_kept (Engine._handle_conversando_state E user message intent).
Proof.
  unfold Engine._handle_conversando_state, Engine.merge_and_show,
    Engine.openai_extract_products, Engine.openai_generate_response.
  walk quotes_step.
Qed.

Lemma recopilando_quotes_kept (E : Env) (message : string)
    (intent : option string) :
  preserves quotes_kept (Engine._handle_recopilando_state E message intent).
Proof.
  unfold Engine._handle_recopilando_state, Engine.merge_and_show,
    Engine.openai_extract_products.
  walk quotes_step.
Qed.

#[local] Instance offline_refl : Reflexive offline.
Proof. intros w. repeat split; try reflexivity. left. reflexivity. Qed.

#[local] Instance offline_trans : Transitive offline.
Proof.
  intros a b c (H1 & H2 & H3 & H4) (H5 & H6 & H7 & H8).
  split; [congruence|]. split; [congruence|]. split; [congruence|].
  destruct H8 as [H8|H8]; [rewrite H8; exact H4|right; exact H8].
Qed.

Ltac offline_base :=
  intros ?;
  split; [reflexivity|]; split; [reflexivity|]; split; [reflexivity|];
  first [left; reflexivity | right; reflexivity].

Lemma fallback_offline (E : Env) (user : User) (message : string) :
  preserves offline (Engine._handle_message_fallback E user message).
Proof. unfold Engine._handle_message_fallback. walk offline_base. Qed.

(** X12.  A turn that starts in a state other than [validando] and
    [cotizando] never writes a quote: whatever the message and the
    classifier's answer, and whether the state handling answers or the
    fallback does, the tables [quotes] and [quote_items] are afterwards
    what they were. *)
Theorem quotes_written_only_from_validando_or_cotizando (E : Env) (user : User)
    (message : string) (w : World) :
  current_state (conv w) <> "validando" ->
  current_state (conv w) <> "cotizando" ->
  quotes_kept w (snd (Engine.process_message E user message w)).
Proof.
  intros Hv Hc. rewrite process_message_run.
  set (w0 := with_event (EvDetectIntent message) w).
  set (intent := detect_intent E message (context (conv w))).
  assert (quotes_kept w
            (snd (Engine._handle_message_by_state E user message intent w0)))
    as Hstate.
  { transitivity w0; [split; reflexivity|].
    unfold Engine._handle_message_by_state. unfold bind at 1.
    unfold get_conv at 1. cbv zeta.
    change (current_state (conv w0)) with (current_state (conv w)).
    destruct (_ =? "SALUDO")%string; [split; reflexivity|].
    destruct (_ =? "AYUDA")%string; [split; reflexivity|].
    destruct (_ =? "CANCELAR")%string; [split; reflexivity|].
    destruct (_ =? "DESPEDIDA")%string; [split; reflexivity|].
    destruct (current_state (conv w) =? "conversando")%string;
      [apply conversando_quotes_kept|].
    destruct (current_state (conv w) =? "recopilando")%string;
      [apply recopilando_quotes_kept|].
    destruct (String.eqb_spec (current_state (conv w)) "validando");
      [contradiction|].
    destruct (current_state (conv w) =? "revisando")%string;
      [split; reflexivity|].
    destruct (String.eqb_spec (current_state (conv w)) "cotizando");
      [contradiction|].
    split; reflexivity. }
  destruct (Engine._handle_message_by_state E user message intent w0)
    as [[reply|e] w1]; cbn [snd] in *; [exact Hstate|].
  transitivity w1; [exact Hstate|].
  assert (offline w1
            (snd (on_session e (Engine._handle_message_fallback E user message) w1)))
    as (_ & Hq & Hi & _).
  { apply preserves_on_session; [typeclasses eauto .. | ].
    apply fallback_offline. }
  split; assumption.
Qed.

Lemma quotes_written_only_witness :
  quotes_kept (Fixture.world "recopilando" [Fixture.record_of "pluma" 2 Fixture.pluma])
    (snd (Engine.process_message
            (Fixture.env [("listo", "FINALIZAR_COTIZACION")] [] [Fixture.pluma]
               [Fixture.ana] (Ok "/tmp/q.pdf"))
            Fixture.ana "listo"
            (Fixture.world "recopilando"
               [Fixture.record_of "pluma" 2 Fixture.pluma]))).
Proof.
  apply (quotes_written_only_from_validando_or_cotizando
           (Fixture.env [("listo", "FINALIZAR_COTIZACION")] [] [Fixture.pluma]
              [Fixture.ana] (Ok "/tmp/q.pdf"))
           Fixture.ana "listo"
           (Fixture.world "recopilando"
              [Fixture.record_of "pluma" 2 Fixture.pluma])).
  - discriminate.
  - discriminate.
Defined.

(** X13.  The fallback works offline.  Whatever the message and the
    state, and whether it answers or raises, [_handle_message_fallback]
    calls no collaborator (no classifier, extractor, catalogue search,
    quote builder or PDF renderer) and writes no quote; the product list of
    the model is left as it is or emptied (by the reset command), never
    extended. *)
Theorem fallback_is_offline (E : Env) (user : User) (message : string)
    (w : World) :
  offline w (snd (Engine._handle_message_fallback E user message w)).
Proof. apply fallback_offline. Qed.

(** X14.  The confirmation of the fallback.  In [validando], a message
    with a confirmation word and none of the words tested before it is
    answered by the fallback with a success message that carries the fixed
    number [Q2025-001234]; the state becomes [finalizado] and nothing else
    changes: no quote row exists for that number, no PDF is rendered, and
    the product list is not cleared. *)
Theorem fallback_confirmation_creates_no_quote (E : Env) (user : User)
    (message : string) (w : World) :
  current_state (conv w) = "validando" ->
  Text.any_in Engine.greeting_words (lower E message) = false ->
  Text.any_in Engine.reset_phrases (lower E message) = false ->
  Text.any_in Engine.product_words (lower E message) = false ->
  Text.any_in Engine.quote_words (lower E message) = false ->
  Text.any_in Engine.finalize_words (lower E message) = false ->
  Text.any_in Engine.confirm_words (lower E message) = true ->
  exists reply,
    Engine._handle_message_fallback E user message w
    = (Ok reply, with_state "finalizado" w)
    /\ Text.contains "Q2025-001234" reply = true.
Proof.
  intros Hst H1 H2 H3 H4 H5 H6. eexists. split.
  - unfold Engine._handle_message_fallback. unfold bind at 1. unfold get_conv at 1.
    rewrite H1, H2, H3, H4, H5, H6, Hst. reflexivity.
  - vm_compute. reflexivity.
Qed.

Lemma fallback_confirmation_witness :
  exists reply,
    Engine._handle_message_fallback
      (Fixture.env [] [] [] [Fixture.ana] (Ok "/tmp/q.pdf"))
      Fixture.ana "Si, confirmar"
      (Fixture.world "validando" [Fixture.record_of "pluma" 2 Fixture.pluma])
    = (Ok reply,
       with_state "finalizado"
         (Fixture.world "validando" [Fixture.record_of "pluma" 2 Fixture.pluma]))
    /\ Text.contains "Q2025-001234" reply = true.
Proof.
  apply (fallback_confirmation_creates_no_quote
           (Fixture.env [] [] [] [Fixture.ana] (Ok "/tmp/q.pdf"))
           Fixture.ana "Si, confirmar"
           (Fixture.world "validando"
              [Fixture.record_of "pluma" 2 Fixture.pluma]));
    reflexivity.
Defined.

(** ** Further statements: the quote service *)

Lemma item_for_usable (E : Env) (r : AccRecord) :
  QuoteService.item_for E r
  = match usable_product E r with
    | Some product =>
        let requested_quantity := default 1 (rq_quantity (requested r)) in
        let quantity :=
          if p_stock_quantity product <? requested_quantity
          then Z.max 1 (p_stock_quantity product)
          else requested_quantity in
        Some {| QuoteRepo.it_product_name := p_name product;
                QuoteRepo.it_product_sku := p_sku product;
                QuoteRepo.it_product_description := p_description product;
                QuoteRepo.it_quantity := quantity;
                QuoteRepo.it_unit_price := p_price product;
                QuoteRepo.it_total_price :=
                  (inject_Z quantity * p_price product)%Q |}
    | None => None
    end.
Proof.
  unfold QuoteService.item_for, usable_product.
  destruct (options r) as [|o rest]; [reflexivity|].
  destruct (product_get E (cp_id o)) as [product|]; [|reflexivity].
  destruct (p_active product); reflexivity.
Qed.

(** X15.  [prepare_products_for_quote] keeps exactly the records that
    have an option, in their order; each keeps its name, has its quantity
    (1 when the record has none) and its unit ([piezas] when the record
    has none) filled in, and its first option alone.  Preparing twice is
    preparing once, and preparing does not change what the quote builder
    makes of a list: the builder gives the same items for the prepared
    list as for the list itself. *)
Theorem prepare_is_idempotent_and_transparent (E : Env)
    (products : list AccRecord) :
  QuoteService.prepare_products_for_quote
    (QuoteService.prepare_products_for_quote products)
  = QuoteService.prepare_products_for_quote products
  /\ omap (QuoteService.item_for E)
       (QuoteService.prepare_products_for_quote products)
     = omap (QuoteService.item_for E) products
  /\ map (fun r => (rq_name (requested r), rq_quantity (requested r),
                    rq_unit (requested r), options r))
       (QuoteService.prepare_products_for_quote products)
     = map (fun r => (rq_name (requested r),
                      Some (default 1 (rq_quantity (requested r))),
                      Some (default "piezas" (rq_unit (requested r))),
                      take 1 (options r)))
         (List.filter (fun r => negb (bool_decide (options r = []))) products).
Proof.
  unfold QuoteService.prepare_products_for_quote.
  induction products as [|r rest (IH1 & IH2 & IH3)].
  { split; [reflexivity|]. split; reflexivity. }
  cbn [flat_map List.filter].
  destruct (options r) as [|o more] eqn:Ho.
  - cbn [List.app bool_decide negb].
    rewrite bool_decide_eq_true_2 by reflexivity. cbn [negb].
    split; [exact IH1|]. split; [|exact IH3].
    cbn [omap list_omap]. unfold QuoteService.item_for at 2. rewrite Ho.
    exact IH2.
  - rewrite bool_decide_eq_false_2 by discriminate. cbn [negb List.app].
    split; [|split].
    + cbn [flat_map options requested rq_name rq_quantity rq_unit List.app].
      rewrite IH1. reflexivity.
    + cbn [omap list_omap].
      replace (QuoteService.item_for E
                 {| requested :=
                      {| rq_name := rq_name (requested r);
                         rq_quantity := Some (default 1 (rq_quantity (requested r)));
                         rq_unit := Some (default "piezas" (rq_unit (requested r))) |};
                    options := [o] |})
        with (QuoteService.item_for E r)
        by (unfold QuoteService.item_for; rewrite Ho; reflexivity).
      destruct (QuoteService.item_for E r); rewrite IH2; reflexivity.
    + cbn [map options requested rq_name rq_quantity rq_unit].
      rewrite Ho, IH3. reflexivity.
Qed.

(** A record without quantity or unit and with two options, between two
    records of which the first has no option. *)
Example prepared_defaults :
  QuoteService.prepare_products_for_quote
    [ {| requested := {| rq_name := "regla"; rq_quantity := Some 3;
                         rq_unit := None |};
         options := [] |};
      {| requested := {| rq_name := "pluma"; rq_quantity := None;
                         rq_unit := None |};
         options := [to_dict Fixture.pluma; to_dict Fixture.cuaderno] |};
      Fixture.record_of "cuaderno" 2 Fixture.cuaderno ]
  = [ {| requested := {| rq_name := "pluma"; rq_quantity := Some 1;
                         rq_unit := Some "piezas" |};
         options := [to_dict Fixture.pluma] |};
      Fixture.record_of "cuaderno" 2 Fixture.cuaderno ].
Proof. reflexivity. Qed.

(** X16.  The quantity of a quoted item.  An item is made exactly for
    the records whose first option is an active product of the catalogue,
    and it carries the catalogue's current name and price, not the
    snapshot.  When the requested quantity is at least 1, the quoted
    quantity lies between 1 and the requested quantity, and it does not
    exceed the stock, except that a product without stock is still quoted,
    with quantity 1. *)
Theorem quoted_quantity_is_clamped (E : Env) (r : AccRecord)
    (it : QuoteRepo.ItemData) :
  QuoteService.item_for E r = Some it ->
  1 <= default 1 (rq_quantity (requested r)) ->
  exists product,
    usable_product E r = Some product
    /\ QuoteRepo.it_product_name it = p_name product
    /\ QuoteRepo.it_unit_price it = p_price product
    /\ 1 <= QuoteRepo.it_quantity it <= default 1 (rq_quantity (requested r))
    /\ (QuoteRepo.it_quantity it <= p_stock_quantity product
        \/ (p_stock_quantity product < 1 /\ QuoteRepo.it_quantity it = 1)).
Proof.
  rewrite item_for_usable.
  destruct (usable_product E r) as [product|]; [|discriminate].
  cbv zeta. intros [= <-] Hq. exists product.
  cbn [QuoteRepo.it_product_name QuoteRepo.it_unit_price QuoteRepo.it_quantity].
  split; [reflexivity|]. split; [reflexivity|]. split; [reflexivity|].
  destruct (Z.ltb_spec (p_stock_quantity product)
              (default 1 (rq_quantity (requested r)))); lia.
Qed.

Lemma quoted_quantity_witness :
  exists product,
    usable_product (Fixture.env [] [] [Fixture.cuaderno] [] (Ok "/tmp/q.pdf"))
      (Fixture.record_of "cuaderno" 50 Fixture.cuaderno) = Some product
    /\ QuoteRepo.it_product_name
         {| QuoteRepo.it_product_name := "Cuaderno profesional";
            QuoteRepo.it_product_sku := Some "CUA-001";
            QuoteRepo.it_product_description := None;
            QuoteRepo.it_quantity := 40;
            QuoteRepo.it_unit_price := (55 # 1)%Q;
            QuoteRepo.it_total_price := (inject_Z 40 * (55 # 1))%Q |}
       = p_name product
    /\ QuoteRepo.it_unit_price
         {| QuoteRepo.it_product_name := "Cuaderno profesional";
            QuoteRepo.it_product_sku := Some "CUA-001";
            QuoteRepo.it_product_description := None;
            QuoteRepo.it_quantity := 40;
            QuoteRepo.it_unit_price := (55 # 1)%Q;
            QuoteRepo.it_total_price := (inject_Z 40 * (55 # 1))%Q |}
       = p_price product
    /\ 1 <= 40 <= 50
    /\ (40 <= p_stock_quantity product
        \/ (p_stock_quantity product < 1 /\ 40 = 1)).
Proof.
  apply (quoted_quantity_is_clamped
           (Fixture.env [] [] [Fixture.cuaderno] [] (Ok "/tmp/q.pdf"))
           (Fixture.record_of "cuaderno" 50 Fixture.cuaderno)
           {| QuoteRepo.it_product_name := "Cuaderno profesional";
              QuoteRepo.it_product_sku := Some "CUA-001";
              QuoteRepo.it_product_description := None;
              QuoteRepo.it_quantity := 40;
              QuoteRepo.it_unit_price := (55 # 1)%Q;
              QuoteRepo.it_total_price := (inject_Z 40 * (55 # 1))%Q |}).
  - reflexivity.
  - cbn. lia.
Defined.

(** *** Building a quote *)

Lemma create_quote_run (E : Env) (cid uid : string)
    (items : list QuoteRepo.ItemData) (w : World) :
  (exists e w',
     QuoteRepo.create_quote E cid uid items w = (Raise e, w')
     /\ only_calls w w' /\ trace w' = trace w)
  \/ (exists quote,
        QuoteRepo.create_quote E cid uid items w
        = (Ok quote,
           {| conv := conv w; quotes := List.app (quotes w) [quote];
              quote_items :=
                List.app (quote_items w)
                  (map (QuoteRepo.quote_item (q_id quote)) items);
              trace := trace w |})
        /\ QuoteRepo._generate_quote_number E w = (Ok (quote_number quote), w)
        /\ q_id quote = new_quote_id E (quotes w)
        /\ q_conversation_id quote = cid /\ q_user_id quote = uid
        /\ q_status quote = "draft" /\ q_pdf_path quote = None
        /\ ~ In (q_id quote) (map q_id (quotes w))
        /\ ~ In (quote_number quote) (map quote_number (quotes w))).
Proof.
  assert (exists r, QuoteRepo._generate_quote_number E w = (r, w)) as [r Hgen].
  { unfold QuoteRepo._generate_quote_number, bind, QuoteRepo.get_quotes, ret, raise.
    destruct (QuoteRepo.last_quote_with _ _) as [last|]; [|eexists; reflexivity].
    destruct (Text.py_int _); eexists; reflexivity. }
  destruct (QuoteRepo.create_quote E cid uid items w) as [[quote|e] w'] eqn:Hrun.
  - right. exists quote. revert Hrun.
    unfold QuoteRepo.create_quote. unfold bind at 1. rewrite Hgen.
    destruct r as [qn|e]; [|discriminate].
    unfold QuoteRepo.create, QuoteRepo.put_quotes, QuoteRepo.add_items,
      QuoteRepo.get_quotes.
    unfold bind, ret, raise. cbv beta iota zeta.
    cbn [q_id quote_number quotes conv quote_items trace].
    destruct (existsb (fun q' => String.eqb (q_id q') (new_quote_id E (quotes w)))
                (quotes w)) eqn:Hid; [discriminate|].
    destruct (existsb (fun q' => String.eqb (quote_number q') qn) (quotes w))
      eqn:Hnum; [discriminate|].
    intros [= <- <-].
    cbn [q_id quote_number q_conversation_id q_user_id q_status q_pdf_path].
    split; [reflexivity|]. split; [reflexivity|]. split; [reflexivity|].
    split; [reflexivity|]. split; [reflexivity|]. split; [reflexivity|].
    split; [reflexivity|]. split.
    + intros Hin. apply in_map_iff in Hin. destruct Hin as (q' & Heq & Hin).
      assert (existsb (fun q' => String.eqb (q_id q') (new_quote_id E (quotes w)))
                (quotes w) = true) as Habs; [|congruence].
      apply existsb_exists. exists q'. split; [exact Hin|].
      apply String.eqb_eq. exact Heq.
    + intros Hin. apply in_map_iff in Hin. destruct Hin as (q' & Heq & Hin).
      assert (existsb (fun q' => String.eqb (quote_number q') qn) (quotes w) = true)
        as Habs; [|congruence].
      apply existsb_exists. exists q'. split; [exact Hin|].
      apply String.eqb_eq. exact Heq.
  - left. exists e, w'. split; [reflexivity|]. revert Hrun.
    unfold QuoteRepo.create_quote. unfold bind at 1. rewrite Hgen.
    destruct r as [qn|e0]; [|intros [= _ <-]; repeat split; reflexivity].
    unfold QuoteRepo.create, QuoteRepo.put_quotes, QuoteRepo.add_items,
      QuoteRepo.get_quotes.
    unfold bind, ret, raise. cbv beta iota zeta.
    cbn [q_id quote_number quotes conv quote_items trace].
    destruct (existsb (fun q' => String.eqb (q_id q') (new_quote_id E (quotes w)))
                (quotes w)); [intros [= _ <-]; repeat split; reflexivity|].
    destruct (existsb (fun q' => String.eqb (quote_number q') qn) (quotes w));
      [intros [= _ <-]; repeat split; reflexivity|].
    discriminate.
Qed.

(** X17.  A quote builder that fails has written nothing.  Whenever
    [create_quote_from_conversation] raises (no usable product, a last
    number that cannot be read, a duplicate identifier or number), the
    tables [quotes] and [quote_items] and the conversation row are what
    they were: no quote is left behind without its items. *)
Theorem failed_builder_writes_nothing (E : Env) (cid uid : string)
    (products : list AccRecord) (w w' : World) (e : exn) :
  QuoteService.create_quote_from_conversation E cid uid products w
  = (Raise e, w') ->
  only_calls w w' /\ trace w' = EvQuoteBuilder cid :: trace w.
Proof.
  unfold QuoteService.create_quote_from_conversation. unfold bind at 1.
  unfold emit at 1.
  destruct (omap (QuoteService.item_for E) products) as [|it its].
  - unfold raise. intros [= _ <-]. repeat split; reflexivity.
  - set (w0 := {| conv := conv w; quotes := quotes w;
                  quote_items := quote_items w;
                  trace := EvQuoteBuilder cid :: trace w |}).
    destruct (create_quote_run E cid uid (it :: its) w0)
      as [(e' & w1 & Hrun & Hcalls & Htr)|(quote & Hrun & _)];
      rewrite Hrun; [|discriminate].
    intros [= _ <-]. split; [exact Hcalls|exact Htr].
Qed.

Lemma failed_builder_witness :
  only_calls (Fixture.world "cotizando" [])
    (with_event (EvQuoteBuilder "c1") (Fixture.world "cotizando" []))
  /\ trace (with_event (EvQuoteBuilder "c1") (Fixture.world "cotizando" []))
     = EvQuoteBuilder "c1" :: trace (Fixture.world "cotizando" []).
Proof.
  apply (failed_builder_writes_nothing
           (Fixture.env [] [] [] [Fixture.ana] (Ok "/tmp/q.pdf"))
           "c1" "u1" [Fixture.record_of "pluma" 2 Fixture.pluma]
           (Fixture.world "cotizando" [])
           (with_event (EvQuoteBuilder "c1") (Fixture.world "cotizando" []))
           (ValueError "No se pudieron procesar los productos para la cotización")).
  reflexivity.
Defined.

(** X18.  The quote builder raises [ValueError] exactly when the list
    has no usable product, that is, when every record has no option or
    its first option is no longer an active product of the catalogue.
    Otherwise it goes on to number and store the quote. *)
Theorem builder_needs_a_usable_product (E : Env) (cid uid : string)
    (products : list AccRecord) (w : World) :
  Forall (fun r => usable_product E r = None) products
  <-> QuoteService.create_quote_from_conversation E cid uid products w
      = (Raise (ValueError
                  "No se pudieron procesar los productos para la cotización"),
         with_event (EvQuoteBuilder cid) w).
Proof.
  unfold QuoteService.create_quote_from_conversation. unfold bind at 1.
  unfold emit at 1.
  assert (omap (QuoteService.item_for E) products = []
          <-> Forall (fun r => usable_product E r = None) products) as Hiff.
  { induction products as [|r rest IH]; [split; [constructor|reflexivity]|].
    cbn [omap list_omap]. rewrite item_for_usable.
    destruct (usable_product E r) as [product|] eqn:Hu.
    - cbv zeta. split; [discriminate|]. intros H. inversion H. congruence.
    - rewrite IH. split; [intros H; constructor; assumption|].
      intros H. inversion H. assumption. }
  destruct (omap (QuoteService.item_for E) products) as [|it its] eqn:Hitems.
  - split; [reflexivity|]. intros _. apply Hiff. reflexivity.
  - split; [intros H; apply Hiff in H; discriminate|].
    set (w0 := {| conv := conv w; quotes := quotes w;
                  quote_items := quote_items w;
                  trace := EvQuoteBuilder cid :: trace w |}).
    destruct (create_quote_run E cid uid (it :: its) w0)
      as [(e' & w1 & Hrun & Hcalls & Htr)|(quote & Hrun & _)];
      rewrite Hrun; [|discriminate].
    intros [= -> _]. exfalso.
    revert Hrun. unfold QuoteRepo.create_quote. unfold bind at 1.
    unfold QuoteRepo._generate_quote_number, bind, QuoteRepo.get_quotes, ret, raise.
    destruct (QuoteRepo.last_quote_with _ _) as [last|].
    + destruct (Text.py_int _); [|discriminate].
      unfold QuoteRepo.create, QuoteRepo.put_quotes, QuoteRepo.add_items,
        QuoteRepo.get_quotes, bind, ret, raise. cbv beta iota zeta.
      repeat match goal with
             | |- context [existsb ?f ?l] => destruct (existsb f l); [discriminate|]
             end.
      discriminate.
    + unfold QuoteRepo.create, QuoteRepo.put_quotes, QuoteRepo.add_items,
        QuoteRepo.get_quotes, bind, ret, raise. cbv beta iota zeta.
      repeat match goal with
             | |- context [existsb ?f ?l] => destruct (existsb f l); [discriminate|]
             end.
      discriminate.
Qed.

(** X19.  A quote that is built is appended whole.  When
    [create_quote_from_conversation] returns a quote, the table [quotes]
    has gained exactly that row, at its end, and [quote_items] exactly one
    item per usable product of the list, in order, each pointing to the
    new quote; the row is a [draft] without PDF for the given conversation
    and user, and its identifier and its number occur in no earlier row. *)
Theorem built_quote_is_appended_whole (E : Env) (cid uid : string)
    (products : list AccRecord) (w w' : World) (quote : Quote) :
  QuoteService.create_quote_from_conversation E cid uid products w
  = (Ok quote, w') ->
  quotes w' = List.app (quotes w) [quote]
  /\ quote_items w'
     = List.app (quote_items w)
         (map (QuoteRepo.quote_item (q_id quote))
            (omap (QuoteService.item_for E) products))
  /\ omap (QuoteService.item_for E) products <> []
  /\ conv w' = conv w
  /\ q_conversation_id quote = cid /\ q_user_id quote = uid
  /\ q_status quote = "draft" /\ q_pdf_path quote = None
  /\ ~ In (q_id quote) (map q_id (quotes w))
  /\ ~ In (quote_number quote) (map quote_number (quotes w)).
Proof.
  unfold QuoteService.create_quote_from_conversation. unfold bind at 1.
  unfold emit at 1.
  destruct (omap (QuoteService.item_for E) products) as [|it its] eqn:Hitems;
    [discriminate|].
  set (w0 := {| conv := conv w; quotes := quotes w;
                quote_items := quote_items w;
                trace := EvQuoteBuilder cid :: trace w |}).
  destruct (create_quote_run E cid uid (it :: its) w0)
    as [(e' & w1 & Hrun & _)|(q & Hrun & _ & _ & Hc & Hu & Hs & Hp & Hid & Hnum)];
    rewrite Hrun; [discriminate|].
  intros [= <- <-]. cbn [quotes quote_items conv w0].
  split; [reflexivity|]. split; [reflexivity|]. split; [discriminate|].
  split; [reflexivity|]. split; [exact Hc|]. split; [exact Hu|].
  split; [exact Hs|]. split; [exact Hp|]. split; [exact Hid|exact Hnum].
Qed.

Lemma built_quote_witness :
  quotes
    (snd (QuoteService.create_quote_from_conversation
            (Fixture.env [] [] [Fixture.pluma] [Fixture.ana] (Ok "/tmp/q.pdf"))
            "c1" "u1" [Fixture.record_of "pluma" 2 Fixture.pluma]
            (Fixture.world "cotizando" [])))
  = List.app (quotes (Fixture.world "cotizando" []))
      [ {| q_id := "quote-0"; q_conversation_id := "c1"; q_user_id := "u1";
           quote_number := "COT-20251020-001";
           q_subtotal := Qsum [(inject_Z 2 * (45 # 10))%Q];
           q_tax_rate := (16 # 1)%Q;
           q_tax_amount :=
             (Qsum [(inject_Z 2 * (45 # 10))%Q] * ((16 # 1) / (100 # 1)))%Q;
           q_total :=
             (Qsum [(inject_Z 2 * (45 # 10))%Q]
              + Qsum [(inject_Z 2 * (45 # 10))%Q] * ((16 # 1) / (100 # 1)))%Q;
           q_status := "draft"; q_pdf_path := None;
           q_sent_at := None |} ].
Proof.
  apply (built_quote_is_appended_whole
           (Fixture.env [] [] [Fixture.pluma] [Fixture.ana] (Ok "/tmp/q.pdf"))
           "c1" "u1" [Fixture.record_of "pluma" 2 Fixture.pluma]
           (Fixture.world "cotizando" [])).
  reflexivity.
Defined.

(** ** Further statements: the numbers of the day *)

(** *** The order of the numbers *)

Lemma string_ltb_lt (a b : string) :
  String.ltb a b = true <-> OrderedTypeEx.String_as_OT.lt a b.
Proof.
  rewrite <- OrderedTypeEx.String_as_OT.cmp_lt.
  unfold String.ltb, OrderedTypeEx.String_as_OT.cmp.
  destruct (String.compare a b); split; congruence.
Qed.

Lemma string_ltb_irrefl (a : string) : String.ltb a a = false.
Proof.
  unfold String.ltb. pose proof (String.compare_antisym a a) as H.
  destruct (String.compare a a); try reflexivity; discriminate.
Qed.

(** When [y] is not above [x] and [z] is, [y] is not above [z]. *)
Lemma string_ltb_above (x y z : string) :
  String.ltb x y = false -> String.ltb x z = true -> String.ltb z y = false.
Proof.
  intros Hxy Hxz. destruct (String.ltb z y) eqn:Hzy; [|reflexivity].
  apply string_ltb_lt in Hxz. apply string_ltb_lt in Hzy.
  pose proof (OrderedTypeEx.String_as_OT.lt_trans _ _ _ Hxz Hzy) as Hlt.
  apply string_ltb_lt in Hlt. congruence.
Qed.

Lemma string_ltb_app (p x y : string) :
  String.ltb (p ++ x) (p ++ y) = String.ltb x y.
Proof.
  unfold String.ltb. induction p as [|c p IH]; [reflexivity|].
  simpl.
  assert (Ascii.compare c c = Eq) as Hc.
  { pose proof (Ascii.compare_antisym c c) as H.
    destruct (Ascii.compare c c); try reflexivity; discriminate. }
  rewrite Hc. exact IH.
Qed.

(** What [last_quote_with] finds: nothing when no number has the prefix,
    otherwise a row with the prefix that no row with the prefix is
    above. *)
Lemma last_quote_with_spec (prefix : string) (qs : list Quote) :
  match QuoteRepo.last_quote_with prefix qs with
  | None =>
      forall q, In q qs -> String.prefix prefix (quote_number q) = false
  | Some b =>
      In b qs /\ String.prefix prefix (quote_number b) = true
      /\ forall q, In q qs -> String.prefix prefix (quote_number q) = true ->
           String.ltb (quote_number b) (quote_number q) = false
  end.
Proof.
  unfold QuoteRepo.last_quote_with.
  set (f := fun (best : option Quote) (q : Quote) =>
              if String.prefix prefix (quote_number q)
              then match best with
                   | None => Some q
                   | Some b => if String.ltb (quote_number b) (quote_number q)
                               then Some q else Some b
                   end
              else best).
  set (P := fun (best : option Quote) (seen : list Quote) =>
              match best with
              | None =>
                  forall q, In q seen -> String.prefix prefix (quote_number q) = false
              | Some b =>
                  In b seen /\ String.prefix prefix (quote_number b) = true
                  /\ forall q, In q seen ->
                       String.prefix prefix (quote_number q) = true ->
                       String.ltb (quote_number b) (quote_number q) = false
              end).
  assert (forall rest seen best,
            P best seen -> P (fold_left f rest best) (List.app seen rest)) as Hfold.
  { induction rest as [|q rest IH]; intros seen best HP.
    - rewrite app_nil_r. exact HP.
    - cbn [fold_left].
      replace (List.app seen (q :: rest)) with (List.app (List.app seen [q]) rest)
        by (rewrite <- app_assoc; reflexivity).
      apply IH. unfold f.
      destruct (String.prefix prefix (quote_number q)) eqn:Hq.
      + destruct best as [b|].
        * destruct HP as (Hin & Hb & Hmax).
          destruct (String.ltb (quote_number b) (quote_number q)) eqn:Hlt.
          -- split; [apply in_or_app; right; left; reflexivity|].
             split; [exact Hq|]. intros q' Hin' Hq'.
             apply in_app_or in Hin'. destruct Hin' as [Hin'|[<-|[]]].
             ++ apply (string_ltb_above (quote_number b)); [|exact Hlt].
                apply Hmax; assumption.
             ++ apply string_ltb_irrefl.
          -- split; [apply in_or_app; left; exact Hin|].
             split; [exact Hb|]. intros q' Hin' Hq'.
             apply in_app_or in Hin'. destruct Hin' as [Hin'|[<-|[]]].
             ++ apply Hmax; assumption.
             ++ exact Hlt.
        * split; [apply in_or_app; right; left; reflexivity|].
          split; [exact Hq|]. intros q' Hin' Hq'.
          apply in_app_or in Hin'. destruct Hin' as [Hin'|[<-|[]]].
          -- rewrite (HP q' Hin') in Hq'. discriminate.
          -- apply string_ltb_irrefl.
      + destruct best as [b|].
        * destruct HP as (Hin & Hb & Hmax).
          split; [apply in_or_app; left; exact Hin|].
          split; [exact Hb|]. intros q' Hin' Hq'.
          apply in_app_or in Hin'. destruct Hin' as [Hin'|[<-|[]]].
          -- apply Hmax; assumption.
          -- congruence.
        * intros q' Hin'.
          apply in_app_or in Hin'. destruct Hin' as [Hin'|[<-|[]]].
          -- apply HP. exact Hin'.
          -- exact Hq. }
  apply (Hfold qs [] None). intros q [].
Qed.

(** *** Printing and reading a sequence number *)

Lemma last_segment_aux_digits (acc s : string) :
  Text.all_digits s = true -> Text.last_segment_aux acc s = acc.
Proof.
  unfold Text.all_digits. revert acc. induction s as [|c s IH]; intros acc H.
  - reflexivity.
  - cbn [list_ascii_of_string forallb] in H. apply andb_prop in H.
    destruct H as [Hc Hs]. cbn [Text.last_segment_aux].
    destruct (Ascii.eqb_spec c "-"%char) as [->|_]; [discriminate Hc|].
    apply IH. exact Hs.
Qed.

Lemma last_segment_after_hyphen (a s : string) :
  Text.all_digits s = true ->
  Text.last_segment (a ++ String "-"%char s) = s.
Proof.
  intros Hs. unfold Text.last_segment.
  generalize (a ++ String "-"%char s) at 1. induction a as [|c a IH]; intros acc.
  - change (Text.last_segment_aux s s = s).
    apply last_segment_aux_digits. exact Hs.
  - change (String c a ++ String "-"%char s) with (String c (a ++ String "-"%char s)).
    cbn [Text.last_segment_aux].
    destruct (Ascii.eqb c "-"%char); apply IH.
Qed.

Lemma below_1000 (P : nat -> bool) (k : Z) :
  forallb P (List.seq 0 1000) = true -> 0 <= k <= 999 -> P (Z.to_nat k) = true.
Proof.
  intros Hall Hk. rewrite forallb_forall in Hall. apply Hall.
  apply in_seq. lia.
Qed.

Lemma py_int_fmt03d (k : Z) :
  0 <= k <= 999 -> Text.py_int (Text.fmt03d k) = Some k.
Proof.
  intros Hk.
  assert (forallb
            (fun n => match Text.py_int (Text.fmt03d (Z.of_nat n)) with
                      | Some m => m =? Z.of_nat n
                      | None => false
                      end)
            (List.seq 0 1000) = true) as Hall by (vm_compute; reflexivity).
  pose proof (below_1000 _ k Hall Hk) as H. cbv beta in H.
  rewrite Z2Nat.id in H by lia.
  destruct (Text.py_int (Text.fmt03d k)) as [m|]; [|discriminate].
  apply Z.eqb_eq in H. congruence.
Qed.

Lemma number_shape (date seq : string) :
  "COT-" ++ date ++ "-" ++ seq = ("COT-" ++ date) ++ String "-"%char seq.
Proof. reflexivity. Qed.

Lemma read_day_number (E : Env) (k : Z) :
  0 <= k <= 999 ->
  Text.py_int (Text.last_segment (day_number E k)) = Some k.
Proof.
  intros Hk. unfold day_number. rewrite number_shape.
  rewrite last_segment_after_hyphen by (apply fmt03d_three_digits; exact Hk).
  apply py_int_fmt03d. exact Hk.
Qed.

Lemma day_number_prefix (E : Env) (k : Z) :
  String.prefix ("COT-" ++ today E) (day_number E k) = true.
Proof. unfold day_number. rewrite number_shape. apply prefix_app. Qed.

Lemma day_number_ltb (E : Env) (a b : Z) :
  String.ltb (day_number E a) (day_number E b)
  = String.ltb (Text.fmt03d a) (Text.fmt03d b).
Proof.
  unfold day_number. rewrite !number_shape. rewrite string_ltb_app.
  apply (string_ltb_app (String "-"%char EmptyString)).
Qed.

(** Up to 999 the numbers of a day are ordered as their sequence
    numbers. *)
Lemma fmt03d_increasing (a b : Z) :
  0 <= a -> a < b -> b <= 999 ->
  String.ltb (Text.fmt03d a) (Text.fmt03d b) = true.
Proof.
  intros Ha Hab Hb.
  assert (forallb
            (fun n => String.ltb (Text.fmt03d (Z.of_nat n))
                                 (Text.fmt03d (Z.of_nat (S n))))
            (List.seq 0 999) = true) as Hall by (vm_compute; reflexivity).
  rewrite forallb_forall in Hall.
  assert (forall d : nat,
            (Z.to_nat a + S d <= 999)%nat ->
            String.ltb (Text.fmt03d a)
                       (Text.fmt03d (Z.of_nat (Z.to_nat a + S d))) = true) as Hd.
  { induction d as [|d IH]; intros Hle.
    - replace (Z.to_nat a + 1)%nat with (S (Z.to_nat a)) by lia.
      rewrite <- (Z2Nat.id a) at 1 by lia.
      apply Hall. apply in_seq. lia.
    - apply string_ltb_lt.
      apply (OrderedTypeEx.String_as_OT.lt_trans _
               (Text.fmt03d (Z.of_nat (Z.to_nat a + S d)))).
      + apply string_ltb_lt. apply IH. lia.
      + apply string_ltb_lt.
        replace (Z.to_nat a + S (S d))%nat with (S (Z.to_nat a + S d)) by lia.
        apply Hall. apply in_seq. lia. }
  specialize (Hd (Z.to_nat (b - a - 1))).
  replace (Z.of_nat (Z.to_nat a + S (Z.to_nat (b - a - 1)))) with b in Hd by lia.
  apply Hd. lia.
Qed.

Lemma day_number_inj_lt (E : Env) (a b : Z) :
  0 <= a -> a < b -> b <= 999 -> day_number E a <> day_number E b.
Proof.
  intros Ha Hab Hb Heq.
  pose proof (fmt03d_increasing a b Ha Hab Hb) as Hlt.
  rewrite <- day_number_ltb with (E := E) in Hlt.
  rewrite Heq, string_ltb_irrefl in Hlt. discriminate.
Qed.

(** X20.  The numbers of a day are sequential and fresh while fewer
    than 999 quotes were made that day.  If every quote of today in the
    table carries one of the numbers 1 to [n] of the day, with [n] at most
    998, then [_generate_quote_number] answers with the number [k] of the
    day for some [k] between 1 and [n + 1]: [k] is 1 when the day has no
    quote yet, and otherwise the number just before [k] is in the table;
    every number of the day in the table is below [k]; and the new number
    is not in the table, so the unique constraint on [quote_number] cannot
    reject it.  The table itself is only read. *)
Theorem day_numbers_are_sequential_and_fresh (E : Env) (n : Z) (w : World) :
  0 <= n <= 998 ->
  day_numbered E n (quotes w) ->
  exists k : Z,
    1 <= k <= n + 1
    /\ QuoteRepo._generate_quote_number E w = (Ok (day_number E k), w)
    /\ (k = 1 \/ In (day_number E (k - 1)) (map quote_number (quotes w)))
    /\ (forall j, 1 <= j <= n ->
          In (day_number E j) (map quote_number (quotes w)) -> j < k)
    /\ ~ In (day_number E k) (map quote_number (quotes w)).
Proof.
  intros Hn Hday.
  pose proof (last_quote_with_spec ("COT-" ++ today E) (quotes w)) as Hspec.
  unfold QuoteRepo._generate_quote_number, bind, QuoteRepo.get_quotes, ret, raise.
  destruct (QuoteRepo.last_quote_with ("COT-" ++ today E) (quotes w)) as [b|].
  - destruct Hspec as (Hin & Hb & Hmax).
    destruct (Hday b Hin Hb) as (kb & Hkb & Hnum).
    assert (forall j, 1 <= j <= n ->
              In (day_number E j) (map quote_number (quotes w)) -> j <= kb)
      as Hbelow.
    { intros j Hj Hinj. apply in_map_iff in Hinj.
      destruct Hinj as (q & Hq & Hinq).
      assert (String.ltb (quote_number b) (quote_number q) = false) as Hle.
      { apply Hmax; [exact Hinq|]. rewrite Hq. apply day_number_prefix. }
      rewrite Hnum, Hq, day_number_ltb in Hle.
      destruct (Z_le_gt_dec j kb) as [Hok|Hgt]; [exact Hok|].
      rewrite fmt03d_increasing in Hle by lia. discriminate. }
    exists (kb + 1). split; [lia|].
    rewrite Hnum, read_day_number by lia.
    split; [reflexivity|]. split.
    + right. replace (kb + 1 - 1) with kb by lia.
      apply in_map_iff. exists b. split; [exact Hnum|exact Hin].
    + split; [intros j Hj Hinj; specialize (Hbelow j Hj Hinj); lia|].
      intros Hinj. apply in_map_iff in Hinj.
      destruct Hinj as (q & Hq & Hinq).
      assert (String.prefix ("COT-" ++ today E) (quote_number q) = true) as Hpq
        by (rewrite Hq; apply day_number_prefix).
      destruct (Hday q Hinq Hpq) as (j & Hj & Hqj).
      assert (j <= kb) as Hjk.
      { apply Hbelow; [exact Hj|]. apply in_map_iff.
        exists q. split; [exact Hqj|exact Hinq]. }
      apply (day_number_inj_lt E j (kb + 1)); [lia|lia|lia|]. congruence.
  - exists 1. split; [lia|]. split; [reflexivity|]. split; [left; reflexivity|].
    assert (forall j, ~ In (day_number E j) (map quote_number (quotes w)))
      as Hnone.
    { intros j Hinj. apply in_map_iff in Hinj.
      destruct Hinj as (q & Hq & Hinq).
      specialize (Hspec q Hinq). rewrite Hq, day_number_prefix in Hspec.
      discriminate. }
    split; [intros j _ Hinj; exfalso; exact (Hnone j Hinj)|apply Hnone].
Qed.

Lemma day_numbers_witness :
  exists k : Z,
    1 <= k <= 1 + 1
    /\ QuoteRepo._generate_quote_number
         (Fixture.env [] [] [] [] (Ok "/tmp/q.pdf"))
         {| conv := Fixture.conversation "cotizando" [];
            quotes := [sample_quote "quote-0" "COT-20251020-001"];
            quote_items := []; trace := [] |}
       = (Ok (day_number (Fixture.env [] [] [] [] (Ok "/tmp/q.pdf")) k),
          {| conv := Fixture.conversation "cotizando" [];
             quotes := [sample_quote "quote-0" "COT-20251020-001"];
             quote_items := []; trace := [] |})
    /\ (k = 1 \/ In (day_number (Fixture.env [] [] [] [] (Ok "/tmp/q.pdf")) (k - 1))
                    ["COT-20251020-001"])
    /\ (forall j, 1 <= j <= 1 ->
          In (day_number (Fixture.env [] [] [] [] (Ok "/tmp/q.pdf")) j)
             ["COT-20251020-001"] -> j < k)
    /\ ~ In (day_number (Fixture.env [] [] [] [] (Ok "/tmp/q.pdf")) k)
            ["COT-20251020-001"].
Proof.
  apply (day_numbers_are_sequential_and_fresh
           (Fixture.env [] [] [] [] (Ok "/tmp/q.pdf")) 1
           {| conv := Fixture.conversation "cotizando" [];
              quotes := [sample_quote "quote-0" "COT-20251020-001"];
              quote_items := []; trace := [] |}).
  - lia.
  - intros q [<-|[]] _. exists 1. split; [lia|reflexivity].
Defined.

(** X21.  The thousandth quote of a day is the last one.  Once the
    table holds the numbers 999 and 1000 of the day (and the day's other
    numbers are among 1 to 1000), the last number is looked up by string
    order, where 999 is above 1000: the next number is computed as 1000
    again, the unique constraint rejects it, and [create_quote] raises
    [IntegrityError] for every later quote of that day, leaving the tables
    as they are. *)
Theorem quotes_beyond_the_thousandth_fail (E : Env) (cid uid : string)
    (items : list QuoteRepo.ItemData) (w : World) :
  day_numbered E 1000 (quotes w) ->
  In (day_number E 999) (map quote_number (quotes w)) ->
  In (day_number E 1000) (map quote_number (quotes w)) ->
  QuoteRepo._generate_quote_number E w = (Ok (day_number E 1000), w)
  /\ exists column,
       QuoteRepo.create_quote E cid uid items w
       = (Raise (IntegrityError column), w).
Proof.
  intros Hday H999 H1000.
  assert (QuoteRepo._generate_quote_number E w = (Ok (day_number E 1000), w))
    as Hgen.
  { pose proof (last_quote_with_spec ("COT-" ++ today E) (quotes w)) as Hspec.
    unfold QuoteRepo._generate_quote_number, bind, QuoteRepo.get_quotes, ret, raise.
    apply in_map_iff in H999. destruct H999 as (q9 & Hq9 & Hin9).
    assert (String.prefix ("COT-" ++ today E) (quote_number q9) = true) as Hp9
      by (rewrite Hq9; apply day_number_prefix).
    destruct (QuoteRepo.last_quote_with ("COT-" ++ today E) (quotes w)) as [b|].
    2:{ rewrite (Hspec q9 Hin9) in Hp9. discriminate. }
    destruct Hspec as (Hin & Hb & Hmax).
    destruct (Hday b Hin Hb) as (kb & Hkb & Hnum).
    pose proof (Hmax q9 Hin9 Hp9) as Hle.
    rewrite Hnum, Hq9, day_number_ltb in Hle.
    assert (kb = 999) as ->.
    { assert (forallb
                (fun n => String.ltb (Text.fmt03d (Z.of_nat n)) (Text.fmt03d 999)
                          || (Z.of_nat n =? 999))
                (List.seq 1 1000) = true) as Hall by (vm_compute; reflexivity).
      rewrite forallb_forall in Hall.
      specialize (Hall (Z.to_nat kb)). rewrite Z2Nat.id in Hall by lia.
      rewrite Hle in Hall. apply Z.eqb_eq. apply Hall. apply in_seq. lia. }
    rewrite Hnum, read_day_number by lia. reflexivity. }
  split; [exact Hgen|].
  unfold QuoteRepo.create_quote. unfold bind at 1. rewrite Hgen.
  unfold QuoteRepo.create, QuoteRepo.put_quotes, QuoteRepo.add_items,
    QuoteRepo.get_quotes.
  unfold bind, ret, raise. cbv beta iota zeta.
  cbn [q_id quote_number quotes conv quote_items trace].
  destruct (existsb (fun q' => String.eqb (q_id q') (new_quote_id E (quotes w)))
              (quotes w)); [eexists; reflexivity|].
  assert (existsb (fun q' => String.eqb (quote_number q') (day_number E 1000))
            (quotes w) = true) as ->; [|eexists; reflexivity].
  apply in_map_iff in H1000. destruct H1000 as (q & Hq & Hinq).
  apply existsb_exists. exists q. split; [exact Hinq|].
  apply String.eqb_eq. exact Hq.
Qed.

Lemma quotes_beyond_the_thousandth_witness :
  QuoteRepo._generate_quote_number
    (Fixture.env [] [] [] [] (Ok "/tmp/q.pdf"))
    {| conv := Fixture.conversation "cotizando" [];
       quotes := [sample_quote "quote-998" "COT-20251020-999";
                  sample_quote "quote-999" "COT-20251020-1000"];
       quote_items := []; trace := [] |}
  = (Ok (day_number (Fixture.env [] [] [] [] (Ok "/tmp/q.pdf")) 1000),
     {| conv := Fixture.conversation "cotizando" [];
        quotes := [sample_quote "quote-998" "COT-20251020-999";
                   sample_quote "quote-999" "COT-20251020-1000"];
        quote_items := []; trace := [] |})
  /\ exists column,
       QuoteRepo.create_quote
         (Fixture.env [] [] [] [] (Ok "/tmp/q.pdf")) "c1" "u1" []
         {| conv := Fixture.conversation "cotizando" [];
            quotes := [sample_quote "quote-998" "COT-20251020-999";
                       sample_quote "quote-999" "COT-20251020-1000"];
            quote_items := []; trace := [] |}
       = (Raise (IntegrityError column),
          {| conv := Fixture.conversation "cotizando" [];
             quotes := [sample_quote "quote-998" "COT-20251020-999";
                        sample_quote "quote-999" "COT-20251020-1000"];
             quote_items := []; trace := [] |}).
Proof.
  apply (quotes_beyond_the_thousandth_fail
           (Fixture.env [] [] [] [] (Ok "/tmp/q.pdf")) "c1" "u1" []
           {| conv := Fixture.conversation "cotizando" [];
              quotes := [sample_quote "quote-998" "COT-20251020-999";
                         sample_quote "quote-999" "COT-20251020-1000"];
              quote_items := []; trace := [] |}).
  - intros q [<-|[<-|[]]] _.
    + exists 999. split; [lia|reflexivity].
    + exists 1000. split; [lia|reflexivity].
  - left. reflexivity.
  - right. left. reflexivity.
Defined.

(** ** Further statements: the PDF step *)

Lemma generate_quote_pdf_run (E : Env) (quote_id client_name : string)
    (w : World) :
  QuoteService.generate_quote_pdf E quote_id client_name w
  = match List.find (fun q => String.eqb (q_id q) quote_id) (quotes w) with
    | None => (Raise (ValueError ("Cotización no encontrada: " ++ quote_id)), w)
    | Some quote =>
        match render_pdf E quote
                (List.filter (fun it => String.eqb (qi_quote_id it) quote_id)
                   (quote_items w))
                client_name with
        | Raise e => (Raise (Outside e), with_event (EvRenderPdf quote_id) w)
        | Ok pdf_path =>
            (Ok pdf_path,
             {| conv := conv w;
                quotes :=
                  map (fun q => if String.eqb (q_id q) quote_id
                                then marked_sent (now E) pdf_path q else q)
                      (quotes w);
                quote_items := quote_items w;
                trace := EvRenderPdf quote_id :: trace w |})
        end
    end.
Proof.
  unfold QuoteService.generate_quote_pdf, QuoteRepo.get, QuoteRepo.get_quotes,
    QuoteRepo.get_by_quote, QuoteRepo.add_pdf_path, QuoteRepo.update_status,
    QuoteRepo.update_row, QuoteRepo.put_quotes, QuoteRepo.get_quotes,
    bind, ret, raise, emit, lift_result, outside.
  cbn [quotes quote_items conv trace].
  destruct (List.find _ (quotes w)) as [quote|]; [|reflexivity].
  cbn [quotes quote_items conv trace].
  destruct (render_pdf E quote _ client_name) as [path|e]; [|reflexivity].
  cbn [quotes quote_items conv trace]. rewrite map_map.
  f_equal. f_equal. apply map_ext. intros q.
  destruct (String.eqb (q_id q) quote_id) eqn:Hq; cbn [q_id]; rewrite Hq;
    reflexivity.
Qed.

Lemma build_quote_run (E : Env) (cid uid : string) (products : list AccRecord)
    (w w' : World) (quote : Quote) :
  QuoteService.create_quote_from_conversation E cid uid products w
  = (Ok quote, w') ->
  w' = {| conv := conv w; quotes := List.app (quotes w) [quote];
          quote_items :=
            List.app (quote_items w)
              (map (QuoteRepo.quote_item (q_id quote))
                 (omap (QuoteService.item_for E) products));
          trace := EvQuoteBuilder cid :: trace w |}
  /\ q_status quote = "draft" /\ q_pdf_path quote = None
  /\ ~ In (q_id quote) (map q_id (quotes w)).
Proof.
  unfold QuoteService.create_quote_from_conversation. unfold bind at 1.
  unfold emit at 1.
  destruct (omap (QuoteService.item_for E) products) as [|it its] eqn:Hitems;
    [discriminate|].
  set (w0 := {| conv := conv w; quotes := quotes w;
                quote_items := quote_items w;
                trace := EvQuoteBuilder cid :: trace w |}).
  destruct (create_quote_run E cid uid (it :: its) w0)
    as [(e' & w1 & Hrun & _)|(q & Hrun & _ & _ & _ & _ & Hs & Hp & Hid & _)];
    rewrite Hrun; [discriminate|].
  intros [= <- <-]. split; [reflexivity|]. split; [exact Hs|].
  split; [exact Hp|exact Hid].
Qed.

Lemma find_appended (qs : list Quote) (quote : Quote) :
  ~ In (q_id quote) (map q_id qs) ->
  List.find (fun q => String.eqb (q_id q) (q_id quote)) (List.app qs [quote])
  = Some quote.
Proof.
  induction qs as [|q qs IH]; intros Hfresh.
  - cbn. rewrite String.eqb_refl. reflexivity.
  - cbn [List.app List.find].
    destruct (String.eqb_spec (q_id q) (q_id quote)) as [Heq|_].
    + exfalso. apply Hfresh. left. exact Heq.
    + apply IH. intros Hin. apply Hfresh. right. exact Hin.
Qed.

(** X22.  A quote whose PDF cannot be rendered stays in the table.
    When the quote builder has stored the quote and the renderer then
    raises, the quote generation answers with the failure message and goes
    back to [conversando] with the product list kept, but the quote and its
    items are not removed: the table holds one more row, a [draft] without
    PDF.  Confirming the kept list again therefore creates a second quote
    for the same products. *)
Theorem failed_pdf_leaves_a_draft (E : Env) (user : User) (message : string)
    (intent : option string) (w w1 : World) (quote : Quote) (e : exn) :
  products_in_progress (conv w) <> [] ->
  QuoteService.create_quote_from_conversation E (conv_id (conv w)) (u_id user)
    (QuoteService.prepare_products_for_quote (products_in_progress (conv w))) w
  = (Ok quote, w1) ->
  render_pdf E quote
    (List.filter (fun it => String.eqb (qi_quote_id it) (q_id quote))
       (quote_items w1))
    (u_name user) = Raise e ->
  exists w2,
    Engine._handle_cotizando_state E (Some user) message intent w
    = (Ok Engine.quote_error_message, w2)
    /\ conv w2 = setattr (conv w) (SetCurrentState "conversando")
    /\ quotes w2 = List.app (quotes w) [quote]
    /\ q_status quote = "draft" /\ q_pdf_path quote = None
    /\ quote_items w2 = quote_items w1
    /\ trace w2
       = EvRenderPdf (q_id quote) :: EvQuoteBuilder (conv_id (conv w)) :: trace w.
Proof.
  intros Hne Hbuild Hrender.
  destruct (build_quote_run E _ _ _ _ _ _ Hbuild) as (Hw1 & Hs & Hp & Hfresh).
  assert (QuoteService.generate_quote_pdf E (q_id quote) (u_name user) w1
          = (Raise (Outside e), with_event (EvRenderPdf (q_id quote)) w1))
    as Hpdf.
  { rewrite generate_quote_pdf_run.
    replace (quotes w1) with (List.app (quotes w) [quote])
      by (rewrite Hw1; reflexivity).
    rewrite (find_appended _ _ Hfresh), Hrender. reflexivity. }
  eexists. split.
  - unfold Engine._handle_cotizando_state, Engine.cotizando_body, try_except.
    unfold bind at 1. unfold get_conv at 1.
    destruct (products_in_progress (conv w)) as [|r rest] eqn:Hprod; [congruence|].
    unfold bind at 1. rewrite Hbuild. unfold bind at 1. rewrite Hpdf.
    reflexivity.
  - rewrite Hw1. cbn. repeat split; try reflexivity; assumption.
Qed.

Lemma failed_pdf_witness :
  exists w2,
    Engine._handle_cotizando_state
      (Fixture.env [] [] [Fixture.pluma] [Fixture.ana]
         (Raise (ExternalError "reportlab")))
      (Some Fixture.ana) "si" (Some "OTRO")
      (Fixture.world "cotizando" [Fixture.record_of "pluma" 2 Fixture.pluma])
    = (Ok Engine.quote_error_message, w2)
    /\ conv w2
       = setattr
           (conv (Fixture.world "cotizando"
                    [Fixture.record_of "pluma" 2 Fixture.pluma]))
           (SetCurrentState "conversando")
    /\ quotes w2
       = List.app
           (quotes (Fixture.world "cotizando"
                      [Fixture.record_of "pluma" 2 Fixture.pluma]))
           [fst_quote]
    /\ q_status fst_quote = "draft" /\ q_pdf_path fst_quote = None
    /\ quote_items w2
       = quote_items
           (snd (QuoteService.create_quote_from_conversation
                   (Fixture.env [] [] [Fixture.pluma] [Fixture.ana]
                      (Raise (ExternalError "reportlab")))
                   "c1" "u1" [Fixture.record_of "pluma" 2 Fixture.pluma]
                   (Fixture.world "cotizando"
                      [Fixture.record_of "pluma" 2 Fixture.pluma])))
    /\ trace w2 = [EvRenderPdf "quote-0"; EvQuoteBuilder "c1"].
Proof.
  apply (failed_pdf_leaves_a_draft
           (Fixture.env [] [] [Fixture.pluma] [Fixture.ana]
              (Raise (ExternalError "reportlab")))
           Fixture.ana "si" (Some "OTRO")
           (Fixture.world "cotizando" [Fixture.record_of "pluma" 2 Fixture.pluma])
           (snd (QuoteService.create_quote_from_conversation
                   (Fixture.env [] [] [Fixture.pluma] [Fixture.ana]
                      (Raise (ExternalError "reportlab")))
                   "c1" "u1" [Fixture.record_of "pluma" 2 Fixture.pluma]
                   (Fixture.world "cotizando"
                      [Fixture.record_of "pluma" 2 Fixture.pluma])))
           fst_quote (ExternalError "reportlab")).
  - discriminate.
  - reflexivity.
  - reflexivity.
Defined.

Lemma find_marked (quote_id sent_at path : string) (qs : list Quote) :
  List.find (fun q => String.eqb (q_id q) quote_id)
    (map (fun q => if String.eqb (q_id q) quote_id
                   then marked_sent sent_at path q else q)
       qs)
  = option_map (marked_sent sent_at path)
      (List.find (fun q => String.eqb (q_id q) quote_id) qs).
Proof.
  induction qs as [|q qs IH]; [reflexivity|].
  cbn [map List.find].
  destruct (String.eqb (q_id q) quote_id) eqn:Hq.
  - cbn [marked_sent q_id]. rewrite Hq. reflexivity.
  - rewrite Hq. exact IH.
Qed.

(** X23.  What [generate_quote_pdf] does, by the quote it is asked for
    and the renderer's answer.
    - No row has the identifier: it raises [ValueError] and changes
      nothing; the renderer is not called.
    - The renderer raises: the exception leaves the call, and the tables
      and the conversation are as they were.
    - The renderer returns a path for the quote and its items: the call
      returns that path, and the row with that identifier is afterwards
      [marked_sent]: its status is [sent], its [pdf_path] is the path and
      its [sent_at] is the time of the call; its identifier, conversation,
      user, number and amounts are kept.  All other rows, the items and
      the conversation are untouched. *)
Theorem rendered_quote_is_marked_sent (E : Env) (quote_id client_name : string)
    (w : World) :
  (List.find (fun q => String.eqb (q_id q) quote_id) (quotes w) = None ->
   QuoteService.generate_quote_pdf E quote_id client_name w
   = (Raise (ValueError ("Cotización no encontrada: " ++ quote_id)), w))
  /\
  (forall (quote : Quote) (e : exn),
      List.find (fun q => String.eqb (q_id q) quote_id) (quotes w) = Some quote ->
      render_pdf E quote
        (List.filter (fun it => String.eqb (qi_quote_id it) quote_id)
           (quote_items w))
        client_name = Raise e ->
      exists w',
        QuoteService.generate_quote_pdf E quote_id client_name w
        = (Raise (Outside e), w')
        /\ quotes w' = quotes w /\ quote_items w' = quote_items w
        /\ conv w' = conv w /\ trace w' = EvRenderPdf quote_id :: trace w)
  /\
  (forall (quote : Quote) (pdf_path : string),
      List.find (fun q => String.eqb (q_id q) quote_id) (quotes w) = Some quote ->
      render_pdf E quote
        (List.filter (fun it => String.eqb (qi_quote_id it) quote_id)
           (quote_items w))
        client_name = Ok pdf_path ->
      exists w',
        QuoteService.generate_quote_pdf E quote_id client_name w
        = (Ok pdf_path, w')
        /\ List.find (fun q => String.eqb (q_id q) quote_id) (quotes w')
           = Some (marked_sent (now E) pdf_path quote)
        /\ quotes w'
           = map (fun q => if String.eqb (q_id q) quote_id
                           then marked_sent (now E) pdf_path q else q)
               (quotes w)
        /\ quote_items w' = quote_items w /\ conv w' = conv w
        /\ trace w' = EvRenderPdf quote_id :: trace w)
  /\
  (forall (sent_at pdf_path : string) (q : Quote),
      q_status (marked_sent sent_at pdf_path q) = "sent"
      /\ q_pdf_path (marked_sent sent_at pdf_path q) = Some pdf_path
      /\ q_sent_at (marked_sent sent_at pdf_path q) = Some sent_at
      /\ q_id (marked_sent sent_at pdf_path q) = q_id q
      /\ q_conversation_id (marked_sent sent_at pdf_path q) = q_conversation_id q
      /\ q_user_id (marked_sent sent_at pdf_path q) = q_user_id q
      /\ quote_number (marked_sent sent_at pdf_path q) = quote_number q
      /\ q_subtotal (marked_sent sent_at pdf_path q) = q_subtotal q
      /\ q_tax_rate (marked_sent sent_at pdf_path q) = q_tax_rate q
      /\ q_tax_amount (marked_sent sent_at pdf_path q) = q_tax_amount q
      /\ q_total (marked_sent sent_at pdf_path q) = q_total q).
Proof.
  split; [|split; [|split]].
  - intros Hfind. rewrite generate_quote_pdf_run, Hfind. reflexivity.
  - intros quote e Hfind Hrender. eexists.
    rewrite generate_quote_pdf_run, Hfind, Hrender.
    split; [reflexivity|]. repeat split.
  - intros quote pdf_path Hfind Hrender. eexists.
    rewrite generate_quote_pdf_run, Hfind, Hrender.
    split; [reflexivity|]. cbn [quotes quote_items conv trace].
    split; [rewrite find_marked, Hfind; reflexivity|].
    repeat split.
  - intros sent_at pdf_path q. repeat split.
Qed.

Lemma rendered_quote_witness :
  exists w',
    QuoteService.generate_quote_pdf
      (Fixture.env [] [] [Fixture.pluma] [Fixture.ana] (Ok "/tmp/q.pdf"))
      "quote-0" "Ana"
      {| conv := Fixture.conversation "cotizando" [];
         quotes := [fst_quote]; quote_items := []; trace := [] |}
    = (Ok "/tmp/q.pdf", w')
    /\ List.find (fun q => String.eqb (q_id q) "quote-0") (quotes w')
       = Some (marked_sent "2025-10-20 12:00:00" "/tmp/q.pdf" fst_quote)
    /\ quotes w'
       = map (fun q => if String.eqb (q_id q) "quote-0"
                       then marked_sent "2025-10-20 12:00:00" "/tmp/q.pdf" q
                       else q)
           [fst_quote]
    /\ quote_items w' = [] /\ conv w' = Fixture.conversation "cotizando" []
    /\ trace w' = [EvRenderPdf "quote-0"].
Proof.
  apply (proj1 (proj2 (proj2
           (rendered_quote_is_marked_sent
              (Fixture.env [] [] [Fixture.pluma] [Fixture.ana] (Ok "/tmp/q.pdf"))
              "quote-0" "Ana"
              {| conv := Fixture.conversation "cotizando" [];
                 quotes := [fst_quote]; quote_items := []; trace := [] |})))
           fst_quote "/tmp/q.pdf").
  - reflexivity.
  - reflexivity.
Defined.

(** ** Further statements: availability *)

Lemma check_product_cases (E : Env) (acc : Availability.ValidationResult)
    (r : AccRecord) :
  let v := Availability.check_product E acc r in
  Availability.valid v = Availability.valid acc && acceptable E r
  /\ Availability.available_products v
     = List.app (Availability.available_products acc)
         (match available_entry E r with Some a => [a] | None => [] end)
  /\ ((Availability.valid acc = false -> Availability.issues acc <> []) ->
      Availability.valid v = false -> Availability.issues v <> []).
Proof.
  cbv zeta.
  unfold Availability.check_product, acceptable, available_entry, usable_product.
  destruct (options r) as [|o rest].
  { rewrite andb_true_r, app_nil_r. repeat split; auto. }
  destruct (product_get E (cp_id o)) as [product|].
  2:{ cbn [Availability.valid Availability.available_products Availability.issues].
      rewrite bool_decide_eq_false_2 by (intros [? ?]; discriminate).
      rewrite andb_false_r, app_nil_r. split; [reflexivity|].
      split; [reflexivity|]. intros _ _.
      destruct (Availability.issues acc); discriminate. }
  destruct (p_active product).
  2:{ cbn [negb Availability.valid Availability.available_products
           Availability.issues].
      rewrite bool_decide_eq_false_2 by (intros [? ?]; discriminate).
      rewrite andb_false_r, app_nil_r. split; [reflexivity|].
      split; [reflexivity|]. intros _ _.
      destruct (Availability.issues acc); discriminate. }
  cbn [negb Availability.valid Availability.available_products
       Availability.issues].
  rewrite bool_decide_eq_true_2 by (eexists; reflexivity).
  rewrite andb_true_r. split; [reflexivity|]. split; [reflexivity|].
  intros Hacc Hv. specialize (Hacc Hv).
  destruct (p_stock_quantity product <? _); [|exact Hacc].
  destruct (Availability.issues acc); discriminate.
Qed.

Lemma validate_fold (E : Env) (products : list AccRecord)
    (acc : Availability.ValidationResult) :
  let v := fold_left (Availability.check_product E) products acc in
  Availability.valid v = Availability.valid acc && forallb (acceptable E) products
  /\ Availability.available_products v
     = List.app (Availability.available_products acc)
         (omap (available_entry E) products)
  /\ ((Availability.valid acc = false -> Availability.issues acc <> []) ->
      Availability.valid v = false -> Availability.issues v <> []).
Proof.
  cbv zeta. revert acc. induction products as [|r rest IH]; intros acc.
  - cbn [fold_left forallb omap list_omap]. rewrite andb_true_r, app_nil_r.
    repeat split; auto.
  - cbn [fold_left forallb].
    destruct (check_product_cases E acc r) as (H1 & H2 & H3).
    destruct (IH (Availability.check_product E acc r)) as (I1 & I2 & I3).
    split; [rewrite I1, H1, andb_assoc; reflexivity|].
    split; [|auto].
    rewrite I2, H2, <- app_assoc. f_equal.
    cbn [omap list_omap]. destruct (available_entry E r); reflexivity.
Qed.

Lemma available_products_of (E : Env) (products : list AccRecord) :
  map Availability.av_product (omap (available_entry E) products)
  = omap (usable_product E) products.
Proof.
  induction products as [|r rest IH]; [reflexivity|].
  cbn [omap list_omap]. unfold available_entry at 1.
  destruct (usable_product E r) as [product|]; [|exact IH].
  cbn [map Availability.av_product]. rewrite IH. reflexivity.
Qed.

Lemma quoted_names (E : Env) (products : list AccRecord) :
  map QuoteRepo.it_product_name (omap (QuoteService.item_for E) products)
  = map p_name (omap (usable_product E) products).
Proof.
  induction products as [|r rest IH]; [reflexivity|].
  cbn [omap list_omap]. rewrite item_for_usable.
  destruct (usable_product E r) as [product|]; [|exact IH].
  cbv zeta. cbn [map QuoteRepo.it_product_name]. rewrite IH. reflexivity.
Qed.

(** X24.  The availability check agrees with the quote builder.  The
    check is valid exactly when every record that has an option refers,
    by its first option, to an active product of the catalogue.  Its
    available products are, in the order of the list, one entry for each
    record whose product is usable: the catalogue product, the quantity
    the record requests (1 when it has none), the stock as available
    quantity, and the smaller of the requested quantity and the stock as
    adjusted quantity (insufficient stock is reported as an issue but
    does not make the check invalid).  These products are exactly the
    products the builder makes items for.  An invalid check always names
    an issue. *)
Theorem availability_agrees_with_builder (E : Env) (products : list AccRecord) :
  Availability.valid (Availability.validate_products_availability E products)
  = forallb (acceptable E) products
  /\ Availability.available_products
       (Availability.validate_products_availability E products)
     = omap (fun r =>
               match usable_product E r with
               | Some product =>
                   Some {| Availability.av_product := product;
                           Availability.av_requested_quantity :=
                             default 1 (rq_quantity (requested r));
                           Availability.av_available_quantity :=
                             p_stock_quantity product;
                           Availability.av_adjusted_quantity :=
                             Z.min (default 1 (rq_quantity (requested r)))
                                   (p_stock_quantity product) |}
               | None => None
               end)
          products
  /\ map (fun a => p_name (Availability.av_product a))
       (Availability.available_products
          (Availability.validate_products_availability E products))
     = map QuoteRepo.it_product_name (omap (QuoteService.item_for E) products)
  /\ (Availability.valid (Availability.validate_products_availability E products)
      = false ->
      Availability.issues (Availability.validate_products_availability E products)
      <> []).
Proof.
  unfold Availability.validate_products_availability.
  destruct (validate_fold E products
              {| Availability.valid := true;
                 Availability.available_products := [];
                 Availability.issues := [] |}) as (H1 & H2 & H3).
  cbn [Availability.valid Availability.available_products Availability.issues
       map List.app andb] in *.
  split; [exact H1|]. split; [exact H2|].
  split.
  - rewrite quoted_names, <- available_products_of, H2, map_map. reflexivity.
  - apply H3. discriminate.
Qed.

(** A request for five of a product with three in stock, and one for a
    product that left the catalogue. *)
Example availability_of_a_short_stock :
  let E := Fixture.env [] []
             [ {| p_id := "p1"; p_name := "Pluma BIC Cristal";
                  p_description := None; p_price := (45 # 10)%Q;
                  p_sku := Some "BIC-001"; p_stock_quantity := 3;
                  p_active := true |} ]
             [Fixture.ana] (Ok "/tmp/q.pdf") in
  let v := Availability.validate_products_availability E
             [Fixture.record_of "pluma" 5 Fixture.pluma;
              Fixture.record_of "cuaderno" 1 Fixture.cuaderno] in
  Availability.valid v = false
  /\ map (fun a => (p_id (Availability.av_product a),
                    Availability.av_requested_quantity a,
                    Availability.av_available_quantity a,
                    Availability.av_adjusted_quantity a))
       (Availability.available_products v)
     = [("p1", 5, 3, 3)]
  /\ length (Availability.issues v) = 2%nat.
Proof. cbv zeta. repeat split. Qed.

(** ** Further statements: telephone numbers *)

Section PhoneNumbers.
Context {C : Type} `{EqDecision C} (isdigit : C -> bool) (c5 c2 c1 : C).
Hypothesis digit5 : isdigit c5 = true.
Hypothesis digit2 : isdigit c2 = true.
Hypothesis digit1 : isdigit c1 = true.

Lemma filter_digits (s : list C) :
  List.filter isdigit (List.filter isdigit s) = List.filter isdigit s.
Proof.
  induction s as [|c s IH]; [reflexivity|]. cbn [List.filter].
  destruct (isdigit c) eqn:Hc; [|exact IH].
  cbn [List.filter]. rewrite Hc, IH. reflexivity.
Qed.

Lemma filter_fixed_tail (a : C) (s : list C) :
  List.filter isdigit (a :: s) = a :: s -> List.filter isdigit s = s.
Proof.
  cbn [List.filter]. destruct (isdigit a); [congruence|].
  intros H. exfalso.
  assert (length (List.filter isdigit s) = S (length s)) as Hl
    by (rewrite H; reflexivity).
  pose proof (List.filter_length_le isdigit s). lia.
Qed.

Lemma clean_filter (s : list C) :
  Phone._clean_phone_number isdigit c5 c2 c1 (List.filter isdigit s)
  = Phone._clean_phone_number isdigit c5 c2 c1 s.
Proof.
  unfold Phone._clean_phone_number. cbv zeta. rewrite filter_digits.
  reflexivity.
Qed.

Lemma clean_national (s : list C) :
  length (List.filter isdigit s) = 10%nat ->
  Phone._clean_phone_number isdigit c5 c2 c1 s
  = c5 :: c2 :: c1 :: List.filter isdigit s.
Proof.
  intros Hlen. unfold Phone._clean_phone_number. cbv zeta. rewrite Hlen.
  cbn [Nat.eqb]. rewrite !andb_false_r. reflexivity.
Qed.

Lemma clean_with_country (s : list C) :
  length (List.filter isdigit s) = 10%nat ->
  Phone._clean_phone_number isdigit c5 c2 c1 (c5 :: c2 :: s)
  = c5 :: c2 :: c1 :: List.filter isdigit s.
Proof.
  intros Hlen. unfold Phone._clean_phone_number. cbv zeta.
  cbn [List.filter]. rewrite digit5, digit2. cbn [length].
  rewrite Hlen. cbn [Nat.eqb]. rewrite andb_false_r.
  unfold Phone.startswith. cbn [length take].
  rewrite bool_decide_eq_true_2 by reflexivity. reflexivity.
Qed.

Lemma clean_with_mobile (s : list C) :
  length (List.filter isdigit s) = 10%nat ->
  Phone._clean_phone_number isdigit c5 c2 c1 (c5 :: c2 :: c1 :: s)
  = c5 :: c2 :: c1 :: List.filter isdigit s.
Proof.
  intros Hlen. unfold Phone._clean_phone_number. cbv zeta.
  cbn [List.filter]. rewrite digit5, digit2, digit1. cbn [length].
  rewrite Hlen. cbn [Nat.eqb].
  unfold Phone.startswith. cbn [length take].
  rewrite bool_decide_eq_true_2 by reflexivity. reflexivity.
Qed.

Lemma clean_cases (s : list C) :
  Phone._clean_phone_number isdigit c5 c2 c1 s = List.filter isdigit s
  \/ (exists rest, length rest = 10%nat
                   /\ List.filter isdigit rest = rest
                   /\ Phone._clean_phone_number isdigit c5 c2 c1 s
                      = c5 :: c2 :: c1 :: rest).
Proof.
  unfold Phone._clean_phone_number. cbv zeta.
  pose proof (filter_digits s) as Hdigits.
  destruct (Phone.startswith [c5; c2; c1] (List.filter isdigit s)
            && (length (List.filter isdigit s) =? 13)%nat);
    [left; reflexivity|].
  destruct (Phone.startswith [c5; c2] (List.filter isdigit s)
            && (length (List.filter isdigit s) =? 12)%nat) eqn:H12.
  - right. apply andb_prop in H12. destruct H12 as [_ Hlen].
    apply Nat.eqb_eq in Hlen.
    destruct (List.filter isdigit s) as [|a [|b rest]];
      [discriminate Hlen|discriminate Hlen|].
    exists rest. cbn [drop List.app]. cbn [length] in Hlen.
    split; [lia|]. split; [|reflexivity].
    apply (filter_fixed_tail b). apply (filter_fixed_tail a). exact Hdigits.
  - destruct (length (List.filter isdigit s) =? 10)%nat eqn:H10;
      [|left; reflexivity].
    right. exists (List.filter isdigit s). apply Nat.eqb_eq in H10.
    split; [exact H10|]. split; [exact Hdigits|reflexivity].
Qed.

(** X25.  Cleaning a telephone number gives a normal form.  The result
    consists of digits only, and cleaning it again changes nothing: a
    number that has been cleaned once is looked up unchanged by
    [authenticate_user]. *)
Theorem cleaning_is_idempotent (s : list C) :
  List.filter isdigit (Phone._clean_phone_number isdigit c5 c2 c1 s)
  = Phone._clean_phone_number isdigit c5 c2 c1 s
  /\ Phone._clean_phone_number isdigit c5 c2 c1
       (Phone._clean_phone_number isdigit c5 c2 c1 s)
     = Phone._clean_phone_number isdigit c5 c2 c1 s.
Proof.
  destruct (clean_cases s) as [Hs|(rest & Hlen & Hrest & Hs)].
  - rewrite Hs. split; [apply filter_digits|].
    rewrite clean_filter. exact Hs.
  - rewrite Hs. split.
    + cbn [List.filter]. rewrite digit5, digit2, digit1, Hrest. reflexivity.
    + rewrite clean_with_mobile by (rewrite Hrest; exact Hlen).
      rewrite Hrest. reflexivity.
Qed.

(** X26.  A mobile number is recognised however it is written.  For a
    number with ten digits (and any punctuation between them), the number
    alone, the number after [52] and the number after [521] all clean to
    [521] followed by the ten digits, so [authenticate_user] looks up the
    same row for the three of them; and the webhook's authentication only
    ever returns a row of the table that is active and stored under the
    cleaned number. *)
Theorem number_is_recognised_in_every_format (users : list (Phone.UserRow (C := C)))
    (s : list C) :
  length (List.filter isdigit s) = 10%nat ->
  Phone.authenticate_user isdigit c5 c2 c1 users s
  = Phone.get_by_phone users (c5 :: c2 :: c1 :: List.filter isdigit s)
  /\ Phone.authenticate_user isdigit c5 c2 c1 users (c5 :: c2 :: s)
     = Phone.authenticate_user isdigit c5 c2 c1 users s
  /\ Phone.authenticate_user isdigit c5 c2 c1 users (c5 :: c2 :: c1 :: s)
     = Phone.authenticate_user isdigit c5 c2 c1 users s
  /\ forall user,
       Phone.webhook_authenticate_user isdigit c5 c2 c1 users s = Some user ->
       In user users /\ Phone.ur_active user = true
       /\ Phone.ur_phone_number user = c5 :: c2 :: c1 :: List.filter isdigit s.
Proof.
  intros Hlen. unfold Phone.webhook_authenticate_user, Phone.authenticate_user.
  cbv zeta.
  rewrite clean_national, clean_with_country, clean_with_mobile by exact Hlen.
  split; [reflexivity|]. split; [reflexivity|]. split; [reflexivity|].
  intros user. unfold Phone.get_by_phone.
  destruct (List.find _ users) as [found|] eqn:Hfind; [|discriminate].
  destruct (Phone.ur_active found) eqn:Hactive; [|discriminate].
  intros [= <-]. apply List.find_some in Hfind. destruct Hfind as [Hin Hphone].
  apply bool_decide_eq_true in Hphone.
  split; [exact Hin|]. split; [exact Hactive|exact Hphone].
Qed.

End PhoneNumbers.

Lemma cleaning_is_idempotent_witness :
  List.filter Text.is_digit
    (Phone._clean_phone_number Text.is_digit "5"%char "2"%char "1"%char
       (list_ascii_of_string "+52 (55) 1234-5678"))
  = Phone._clean_phone_number Text.is_digit "5"%char "2"%char "1"%char
      (list_ascii_of_string "+52 (55) 1234-5678")
  /\ Phone._clean_phone_number Text.is_digit "5"%char "2"%char "1"%char
       (Phone._clean_phone_number Text.is_digit "5"%char "2"%char "1"%char
          (list_ascii_of_string "+52 (55) 1234-5678"))
     = Phone._clean_phone_number Text.is_digit "5"%char "2"%char "1"%char
         (list_ascii_of_string "+52 (55) 1234-5678").
Proof.
  apply (cleaning_is_idempotent Text.is_digit "5"%char "2"%char "1"%char);
    reflexivity.
Defined.

Lemma number_is_recognised_witness :
  Phone.authenticate_user Text.is_digit "5"%char "2"%char "1"%char
    [ {| Phone.ur_user := Fixture.ana;
         Phone.ur_phone_number := list_ascii_of_string "5215512345678";
         Phone.ur_active := true |} ]
    ("5"%char :: "2"%char :: list_ascii_of_string " 55 1234 5678")
  = Phone.authenticate_user Text.is_digit "5"%char "2"%char "1"%char
      [ {| Phone.ur_user := Fixture.ana;
           Phone.ur_phone_number := list_ascii_of_string "5215512345678";
           Phone.ur_active := true |} ]
      (list_ascii_of_string " 55 1234 5678").
Proof.
  refine (proj1 (proj2
            (number_is_recognised_in_every_format
               Text.is_digit "5"%char "2"%char "1"%char
               (eq_refl true) (eq_refl true) (eq_refl true)
               [ {| Phone.ur_user := Fixture.ana;
                    Phone.ur_phone_number := list_ascii_of_string "5215512345678";
                    Phone.ur_active := true |} ]
               (list_ascii_of_string " 55 1234 5678") _))).
  reflexivity.
Defined.

(** ** Further statements: the conversation store *)

Lemma filter_find_none {A} (p : A -> bool) (l : list A) :
  List.find p l = None -> List.filter p l = [].
Proof.
  induction l as [|x l IH]; [reflexivity|]. cbn [List.find List.filter].
  destruct (p x); [discriminate|exact IH].
Qed.

Lemma filter_find_some {A} (p : A -> bool) (l : list A) (x : A) :
  List.find p l = Some x -> (length (List.filter p l) <= 1)%nat ->
  List.filter p l = [x].
Proof.
  induction l as [|y l IH]; [discriminate|]. cbn [List.find List.filter].
  destruct (p y) eqn:Hy.
  - intros [= ->] Hlen. cbn [length] in Hlen.
    destruct (List.filter p l); [reflexivity|cbn [length] in Hlen; lia].
  - exact IH.
Qed.

Lemma find_app_none {A} (p : A -> bool) (l : list A) (x : A) :
  List.find p l = None -> p x = true -> List.find p (List.app l [x]) = Some x.
Proof.
  intros Hnone Hx. induction l as [|y l IH].
  - cbn. rewrite Hx. reflexivity.
  - cbn [List.find List.app] in *. destruct (p y); [discriminate|].
    apply IH. exact Hnone.
Qed.

Lemma find_of_filter_nil {A} (p : A -> bool) (l : list A) :
  List.filter p l = [] -> List.find p l = None.
Proof.
  induction l as [|y l IH]; [reflexivity|]. cbn [List.find List.filter].
  destruct (p y); [discriminate|exact IH].
Qed.

(** The active rows of a user after the rows with identifier [id] were
    completed: the active rows of before, without those. *)
Lemma active_after_completing (user_id id : string)
    (rows : list ConversationRepo.Row) :
  List.filter (ConversationRepo.is_active_of user_id)
    (map (fun r => if (conv_id (ConversationRepo.r_conv r) =? id)%string
                   then ConversationRepo.set_status "completed" r else r)
       rows)
  = List.filter
      (fun r => negb (conv_id (ConversationRepo.r_conv r) =? id)%string)
      (List.filter (ConversationRepo.is_active_of user_id) rows).
Proof.
  induction rows as [|r rows IH]; [reflexivity|].
  cbn [map List.filter].
  destruct (conv_id (ConversationRepo.r_conv r) =? id)%string eqn:Hid.
  - unfold ConversationRepo.is_active_of at 1.
    cbn [ConversationRepo.set_status ConversationRepo.r_status
         ConversationRepo.r_conv].
    rewrite andb_false_r.
    destruct (ConversationRepo.is_active_of user_id r).
    + cbn [List.filter]. rewrite Hid. exact IH.
    + exact IH.
  - destruct (ConversationRepo.is_active_of user_id r).
    + cbn [List.filter]. rewrite Hid. cbn [negb]. rewrite IH. reflexivity.
    + exact IH.
Qed.

Lemma find_id_map (id : string) (f : ConversationRepo.Row -> ConversationRepo.Row)
    (i : string) (rows : list ConversationRepo.Row) :
  (forall r, conv_id (ConversationRepo.r_conv (f r))
             = conv_id (ConversationRepo.r_conv r)) ->
  List.find (fun r => (conv_id (ConversationRepo.r_conv r) =? id)%string) rows
  = None ->
  List.find (fun r => (conv_id (ConversationRepo.r_conv r) =? id)%string)
    (map (fun r => if (conv_id (ConversationRepo.r_conv r) =? i)%string
                   then f r else r) rows)
  = None.
Proof.
  intros Hf. induction rows as [|r rows IH]; [reflexivity|].
  cbn [map List.find].
  destruct (conv_id (ConversationRepo.r_conv r) =? id)%string eqn:Hr;
    [discriminate|].
  intros Hnone.
  assert ((conv_id (ConversationRepo.r_conv
                      (if (conv_id (ConversationRepo.r_conv r) =? i)%string
                       then f r else r)) =? id)%string = false) as ->.
  { destruct (conv_id (ConversationRepo.r_conv r) =? i)%string;
      [rewrite Hf|]; exact Hr. }
  apply IH. exact Hnone.
Qed.

Lemma previous_completed_active (s : ConversationRepo.Store)
    (user_id other : string) :
  one_active_per_user s ->
  (length (List.filter (ConversationRepo.is_active_of other)
             (ConversationRepo.rows (previous_completed s user_id))) <= 1)%nat
  /\ List.filter (ConversationRepo.is_active_of user_id)
       (ConversationRepo.rows (previous_completed s user_id)) = [].
Proof.
  intros Hone. unfold previous_completed, ConversationRepo.get_active_by_user.
  destruct (List.find (ConversationRepo.is_active_of user_id)
              (ConversationRepo.rows s)) as [existing|] eqn:Hfind.
  - cbn [ConversationRepo.update_row ConversationRepo.rows].
    rewrite !active_after_completing. split.
    + etransitivity; [apply List.filter_length_le|apply Hone].
    + rewrite (filter_find_some _ _ _ Hfind (Hone user_id)).
      cbn [List.filter]. rewrite String.eqb_refl. reflexivity.
  - split; [apply Hone|]. apply filter_find_none. exact Hfind.
Qed.

(** X27.  Creating a conversation keeps at most one active
    conversation per user.  On a table where every user has at most one
    active conversation, [create_conversation] with an unused identifier
    completes the user's active conversation, if there is one, and adds
    the new row: afterwards every user still has at most one active
    conversation, the user's active conversation is the new one, and the
    new one starts in [conversando] with an empty context, an empty
    product list and no message counted.  The message log is untouched. *)
Theorem create_conversation_keeps_one_active (new_id : string)
    (s : ConversationRepo.Store) (user_id whatsapp_chat_id : string) :
  one_active_per_user s ->
  ConversationRepo.get s new_id = None ->
  exists row s',
    ConversationRepo.create_conversation new_id s user_id whatsapp_chat_id
    = (Ok row, s')
    /\ one_active_per_user s'
    /\ ConversationRepo.get_active_by_user s' user_id = Some row
    /\ ConversationRepo.r_conv row
       = {| conv_id := new_id; conv_user_id := user_id;
            current_state := "conversando"; context := ∅;
            products_in_progress := [] |}
    /\ ConversationRepo.r_total_messages row = 0
    /\ ConversationRepo.rows s'
       = List.app (ConversationRepo.rows (previous_completed s user_id)) [row]
    /\ ConversationRepo.messages s' = ConversationRepo.messages s.
Proof.
  intros Hone Hfresh.
  unfold ConversationRepo.create_conversation. cbv zeta.
  fold (previous_completed s user_id).
  assert (ConversationRepo.get (previous_completed s user_id) new_id = None)
    as Hfresh1.
  { unfold previous_completed.
    destruct (ConversationRepo.get_active_by_user s user_id); [|exact Hfresh].
    unfold ConversationRepo.get, ConversationRepo.update_row.
    cbn [ConversationRepo.rows]. apply find_id_map; [reflexivity|exact Hfresh]. }
  rewrite Hfresh1. eexists _, _. split; [reflexivity|].
  cbn [ConversationRepo.rows ConversationRepo.messages ConversationRepo.r_conv
       ConversationRepo.r_total_messages].
  assert (forall active,
            ConversationRepo.is_active_of active
              {| ConversationRepo.r_conv :=
                   {| conv_id := new_id; conv_user_id := user_id;
                      current_state := "conversando"; context := ∅;
                      products_in_progress := [] |};
                 ConversationRepo.r_status := "active";
                 ConversationRepo.r_whatsapp_chat_id := whatsapp_chat_id;
                 ConversationRepo.r_total_messages := 0 |}
            = (user_id =? active)%string) as Hrow.
  { intros active. unfold ConversationRepo.is_active_of.
    cbn [ConversationRepo.r_conv ConversationRepo.r_status conv_user_id].
    rewrite andb_true_r. reflexivity. }
  split; [|split; [|split; [reflexivity|split; [reflexivity|split]]]].
  - intros other. cbn [ConversationRepo.rows].
    rewrite List.filter_app, length_app. cbn [List.filter]. rewrite Hrow.
    destruct (previous_completed_active s user_id other Hone) as [Hle Hnil].
    destruct (String.eqb_spec user_id other) as [<-|_].
    + rewrite Hnil. cbn. lia.
    + cbn [length]. lia.
  - unfold ConversationRepo.get_active_by_user. cbn [ConversationRepo.rows].
    apply find_app_none; [|rewrite Hrow; apply String.eqb_refl].
    apply find_of_filter_nil.
    apply (previous_completed_active s user_id user_id Hone).
  - reflexivity.
  - unfold previous_completed.
    destruct (ConversationRepo.get_active_by_user s user_id); reflexivity.
Qed.

Lemma create_conversation_witness :
  exists row s',
    ConversationRepo.create_conversation "c2"
      {| ConversationRepo.rows :=
           [ {| ConversationRepo.r_conv := Fixture.conversation "finalizado" [];
                ConversationRepo.r_status := "active";
                ConversationRepo.r_whatsapp_chat_id := "5215512345678";
                ConversationRepo.r_total_messages := 0 |} ];
         ConversationRepo.messages := [] |}
      "u1" "5215512345678"
    = (Ok row, s')
    /\ one_active_per_user s'
    /\ ConversationRepo.get_active_by_user s' "u1" = Some row
    /\ ConversationRepo.r_conv row
       = {| conv_id := "c2"; conv_user_id := "u1";
            current_state := "conversando"; context := ∅;
            products_in_progress := [] |}
    /\ ConversationRepo.r_total_messages row = 0
    /\ ConversationRepo.rows s'
       = List.app
           (ConversationRepo.rows
              (previous_completed
                 {| ConversationRepo.rows :=
                      [ {| ConversationRepo.r_conv :=
                             Fixture.conversation "finalizado" [];
                           ConversationRepo.r_status := "active";
                           ConversationRepo.r_whatsapp_chat_id := "5215512345678";
                           ConversationRepo.r_total_messages := 0 |} ];
                    ConversationRepo.messages := [] |}
                 "u1"))
           [row]
    /\ ConversationRepo.messages s' = [].
Proof.
  apply (create_conversation_keeps_one_active "c2"
           {| ConversationRepo.rows :=
                [ {| ConversationRepo.r_conv := Fixture.conversation "finalizado" [];
                     ConversationRepo.r_status := "active";
                     ConversationRepo.r_whatsapp_chat_id := "5215512345678";
                     ConversationRepo.r_total_messages := 0 |} ];
              ConversationRepo.messages := [] |}
           "u1" "5215512345678").
  - intros user_id. cbn [ConversationRepo.rows List.filter].
    destruct (ConversationRepo.is_active_of user_id _); cbn; lia.
  - reflexivity.
Defined.

(** X28.  Getting the conversation of a user is repeatable.  Whenever
    [_get_or_create_conversation] returns a conversation, that conversation
    is an active one of the user, and asking again, with whatever fresh
    identifier at hand, returns the same row and leaves the store as it
    is: a second conversation is not created. *)
Theorem get_or_create_is_repeatable (new_id again : string)
    (s s' : ConversationRepo.Store) (user_id whatsapp_chat_id : string)
    (row : ConversationRepo.Row) :
  ConversationRepo._get_or_create_conversation new_id s user_id whatsapp_chat_id
  = (Ok row, s') ->
  ConversationRepo.is_active_of user_id row = true
  /\ In row (ConversationRepo.rows s')
  /\ ConversationRepo._get_or_create_conversation again s' user_id
       whatsapp_chat_id
     = (Ok row, s').
Proof.
  unfold ConversationRepo._get_or_create_conversation.
  destruct (ConversationRepo.get_active_by_user s user_id) as [found|] eqn:Hfind.
  - intros [= <- <-]. rewrite Hfind.
    unfold ConversationRepo.get_active_by_user in Hfind.
    apply List.find_some in Hfind. destruct Hfind as [Hin Hactive].
    split; [exact Hactive|]. split; [exact Hin|reflexivity].
  - unfold ConversationRepo.create_conversation. cbv zeta. rewrite Hfind.
    destruct (ConversationRepo.get s new_id); [discriminate|].
    intros [= <- <-].
    assert (ConversationRepo.is_active_of user_id
              {| ConversationRepo.r_conv :=
                   {| conv_id := new_id; conv_user_id := user_id;
                      current_state := "conversando"; context := ∅;
                      products_in_progress := [] |};
                 ConversationRepo.r_status := "active";
                 ConversationRepo.r_whatsapp_chat_id := whatsapp_chat_id;
                 ConversationRepo.r_total_messages := 0 |} = true) as Hrow.
    { unfold ConversationRepo.is_active_of.
      cbn [ConversationRepo.r_conv ConversationRepo.r_status conv_user_id].
      rewrite String.eqb_refl. reflexivity. }
    split; [exact Hrow|]. split.
    + cbn [ConversationRepo.rows]. apply in_or_app. right. left. reflexivity.
    + unfold ConversationRepo.get_active_by_user at 1.
      cbn [ConversationRepo.rows].
      rewrite (find_app_none _ _ _ Hfind Hrow). reflexivity.
Qed.

Lemma get_or_create_witness :
  ConversationRepo.is_active_of "u1"
    {| ConversationRepo.r_conv :=
         {| conv_id := "c1"; conv_user_id := "u1";
            current_state := "conversando"; context := ∅;
            products_in_progress := [] |};
       ConversationRepo.r_status := "active";
       ConversationRepo.r_whatsapp_chat_id := "5215512345678";
       ConversationRepo.r_total_messages := 0 |}
  = true.
Proof.
  refine (proj1
            (get_or_create_is_repeatable "c1" "c2"
               {| ConversationRepo.rows := []; ConversationRepo.messages := [] |}
               _ "u1" "5215512345678" _ _)).
  reflexivity.
Defined.

Lemma logged_after (s : ConversationRepo.Store)
    (message : ConversationRepo.MessageRow) (id : string) :
  logged {| ConversationRepo.rows := ConversationRepo.rows s;
            ConversationRepo.messages :=
              List.app (ConversationRepo.messages s) [message] |} id
  = logged s id
    + (if (ConversationRepo.m_conversation_id message =? id)%string
       then 1 else 0).
Proof.
  unfold logged. cbn [ConversationRepo.messages].
  rewrite List.filter_app, length_app. cbn [List.filter].
  destruct (ConversationRepo.m_conversation_id message =? id)%string;
    cbn [length]; lia.
Qed.

(** X29.  Logging a message keeps the counters right.  On a store
    where the [total_messages] of every conversation is the number of
    messages logged for it, [add_message] appends the message to the log
    and leaves the store in the same condition: the conversation the
    message belongs to counts one more, every other conversation counts
    what it did; a message for an unknown conversation is logged and
    counted nowhere. *)
Theorem add_message_keeps_the_counters (s : ConversationRepo.Store)
    (conversation_id message_type content : string)
    (intent_detected : option string) :
  counters_ok s ->
  counters_ok
    (snd (ConversationRepo.add_message s conversation_id message_type content
            intent_detected))
  /\ ConversationRepo.messages
       (snd (ConversationRepo.add_message s conversation_id message_type content
               intent_detected))
     = List.app (ConversationRepo.messages s)
         [fst (ConversationRepo.add_message s conversation_id message_type
                 content intent_detected)]
  /\ logged
       (snd (ConversationRepo.add_message s conversation_id message_type content
               intent_detected))
       conversation_id
     = logged s conversation_id + 1.
Proof.
  intros Hok. unfold ConversationRepo.add_message. cbv zeta.
  set (message := {| ConversationRepo.m_conversation_id := conversation_id;
                     ConversationRepo.m_message_type := message_type;
                     ConversationRepo.m_content := content;
                     ConversationRepo.m_intent_detected := intent_detected |}).
  set (s1 := {| ConversationRepo.rows := ConversationRepo.rows s;
                ConversationRepo.messages :=
                  List.app (ConversationRepo.messages s) [message] |}).
  assert (forall id, logged s1 id
                     = logged s id
                       + (if (conversation_id =? id)%string then 1 else 0))
    as Hlog by (intros id; apply (logged_after s message id)).
  unfold ConversationRepo.get. cbn [ConversationRepo.rows s1].
  destruct (List.find
              (fun r => (conv_id (ConversationRepo.r_conv r) =? conversation_id)%string)
              (ConversationRepo.rows s)) as [conversation|] eqn:Hfind.
  - cbn [fst snd]. apply List.find_some in Hfind. destruct Hfind as [Hin Hid].
    apply String.eqb_eq in Hid.
    split; [|split; [reflexivity|]].
    + intros r Hr. cbn [ConversationRepo.update_row ConversationRepo.rows] in Hr.
      apply in_map_iff in Hr. destruct Hr as (r0 & <- & Hr0).
      change (logged (ConversationRepo.update_row conversation_id
                        (ConversationRepo.set_total_messages
                           (ConversationRepo.r_total_messages conversation + 1))
                        s1))
        with (logged s1).
      destruct (String.eqb_spec (conv_id (ConversationRepo.r_conv r0))
                  conversation_id) as [Heq|Hne].
      * cbn [ConversationRepo.set_total_messages ConversationRepo.r_conv
             ConversationRepo.r_total_messages].
        rewrite Hlog, Heq, String.eqb_refl, (Hok conversation Hin), Hid.
        reflexivity.
      * rewrite Hlog, (Hok r0 Hr0).
        destruct (String.eqb_spec conversation_id
                    (conv_id (ConversationRepo.r_conv r0))); [congruence|lia].
    + change (logged (ConversationRepo.update_row conversation_id
                        (ConversationRepo.set_total_messages
                           (ConversationRepo.r_total_messages conversation + 1))
                        s1))
        with (logged s1).
      rewrite Hlog, String.eqb_refl. reflexivity.
  - cbn [fst snd]. split; [|split; [reflexivity|]].
    + intros r Hr. cbn [ConversationRepo.rows s1] in Hr.
      rewrite Hlog, (Hok r Hr).
      destruct (String.eqb_spec conversation_id
                  (conv_id (ConversationRepo.r_conv r))) as [Heq|_]; [|lia].
      exfalso. pose proof (List.find_none _ _ Hfind r Hr) as Hnone.
      cbv beta in Hnone. rewrite <- Heq, String.eqb_refl in Hnone.
      discriminate.
    + rewrite Hlog, String.eqb_refl. reflexivity.
Qed.

Lemma add_message_witness :
  logged
    (snd (ConversationRepo.add_message
            {| ConversationRepo.rows :=
                 [ {| ConversationRepo.r_conv := Fixture.conversation "conversando" [];
                      ConversationRepo.r_status := "active";
                      ConversationRepo.r_whatsapp_chat_id := "5215512345678";
                      ConversationRepo.r_total_messages := 0 |} ];
               ConversationRepo.messages := [] |}
            "c1" "user" "hola" None))
    "c1"
  = logged
      {| ConversationRepo.rows :=
           [ {| ConversationRepo.r_conv := Fixture.conversation "conversando" [];
                ConversationRepo.r_status := "active";
                ConversationRepo.r_whatsapp_chat_id := "5215512345678";
                ConversationRepo.r_total_messages := 0 |} ];
         ConversationRepo.messages := [] |}
      "c1"
    + 1.
Proof.
  refine (proj2 (proj2
            (add_message_keeps_the_counters
               {| ConversationRepo.rows :=
                    [ {| ConversationRepo.r_conv :=
                           Fixture.conversation "conversando" [];
                         ConversationRepo.r_status := "active";
                         ConversationRepo.r_whatsapp_chat_id := "5215512345678";
                         ConversationRepo.r_total_messages := 0 |} ];
                  ConversationRepo.messages := [] |}
               "c1" "user" "hola" None _))).
  intros r [<-|[]]. reflexivity.
Defined.

Lemma find_completed (id : string) (rows : list ConversationRepo.Row) :
  List.find (fun r => (conv_id (ConversationRepo.r_conv r) =? id)%string)
    (map (fun r => if (conv_id (ConversationRepo.r_conv r) =? id)%string
                   then ConversationRepo.set_status "completed" r else r)
       rows)
  = option_map (ConversationRepo.set_status "completed")
      (List.find (fun r => (conv_id (ConversationRepo.r_conv r) =? id)%string)
         rows).
Proof.
  induction rows as [|r rows IH]; [reflexivity|].
  cbn [map List.find].
  destruct (conv_id (ConversationRepo.r_conv r) =? id)%string eqn:Hr.
  - cbn [ConversationRepo.set_status ConversationRepo.r_conv]. rewrite Hr.
    reflexivity.
  - rewrite Hr. exact IH.
Qed.

(** X30.  Completing a conversation deactivates it and nothing else.
    For an identifier that no row has, [complete_conversation] answers
    [None] and changes nothing.  For the identifier of a row it answers
    with that row, now [completed], which is what the table holds for the
    identifier afterwards; every other row is as it was; the active
    conversations of every user are those of before without that one, so
    a table with at most one active conversation per user stays so; and
    the message log is untouched. *)
Theorem completing_deactivates_one_conversation (s : ConversationRepo.Store)
    (conversation_id : string) :
  (ConversationRepo.get s conversation_id = None ->
   ConversationRepo.complete_conversation s conversation_id = (None, s))
  /\
  (forall row : ConversationRepo.Row,
      ConversationRepo.get s conversation_id = Some row ->
      exists s',
        ConversationRepo.complete_conversation s conversation_id
        = (Some (ConversationRepo.set_status "completed" row), s')
        /\ ConversationRepo.get s' conversation_id
           = Some (ConversationRepo.set_status "completed" row)
        /\ ConversationRepo.rows s'
           = map (fun r => if (conv_id (ConversationRepo.r_conv r)
                               =? conversation_id)%string
                           then ConversationRepo.set_status "completed" r
                           else r)
               (ConversationRepo.rows s)
        /\ (forall user_id,
              List.filter (ConversationRepo.is_active_of user_id)
                (ConversationRepo.rows s')
              = List.filter
                  (fun r => negb (conv_id (ConversationRepo.r_conv r)
                                  =? conversation_id)%string)
                  (List.filter (ConversationRepo.is_active_of user_id)
                     (ConversationRepo.rows s)))
        /\ (one_active_per_user s -> one_active_per_user s')
        /\ ConversationRepo.messages s' = ConversationRepo.messages s).
Proof.
  unfold ConversationRepo.complete_conversation. split.
  - intros Hget. rewrite Hget. reflexivity.
  - intros row Hget. rewrite Hget. cbv zeta. eexists.
    split; [reflexivity|].
    unfold ConversationRepo.get in *.
    cbn [ConversationRepo.update_row ConversationRepo.rows
         ConversationRepo.messages].
    split; [rewrite find_completed, Hget; reflexivity|].
    split; [reflexivity|].
    split; [intros user_id; apply active_after_completing|].
    split; [|reflexivity].
    unfold one_active_per_user. intros Hone user_id.
    cbn [ConversationRepo.update_row ConversationRepo.rows].
    rewrite active_after_completing.
    etransitivity; [apply List.filter_length_le|apply Hone].
Qed.

Lemma completing_witness :
  ConversationRepo.complete_conversation
    {| ConversationRepo.rows :=
         [ {| ConversationRepo.r_conv := Fixture.conversation "finalizado" [];
              ConversationRepo.r_status := "active";
              ConversationRepo.r_whatsapp_chat_id := "5215512345678";
              ConversationRepo.r_total_messages := 4 |} ];
       ConversationRepo.messages := [] |}
    "c9"
  = (None,
     {| ConversationRepo.rows :=
          [ {| ConversationRepo.r_conv := Fixture.conversation "finalizado" [];
               ConversationRepo.r_status := "active";
               ConversationRepo.r_whatsapp_chat_id := "5215512345678";
               ConversationRepo.r_total_messages := 4 |} ];
        ConversationRepo.messages := [] |})
  /\
  exists s',
    ConversationRepo.complete_conversation
      {| ConversationRepo.rows :=
           [ {| ConversationRepo.r_conv := Fixture.conversation "finalizado" [];
                ConversationRepo.r_status := "active";
                ConversationRepo.r_whatsapp_chat_id := "5215512345678";
                ConversationRepo.r_total_messages := 4 |} ];
         ConversationRepo.messages := [] |}
      "c1"
    = (Some {| ConversationRepo.r_conv := Fixture.conversation "finalizado" [];
               ConversationRepo.r_status := "completed";
               ConversationRepo.r_whatsapp_chat_id := "5215512345678";
               ConversationRepo.r_total_messages := 4 |}, s')
    /\ ConversationRepo.get_active_by_user s' "u1" = None.
Proof.
  split.
  - apply (proj1 (completing_deactivates_one_conversation
                    {| ConversationRepo.rows :=
                         [ {| ConversationRepo.r_conv :=
                                Fixture.conversation "finalizado" [];
                              ConversationRepo.r_status := "active";
                              ConversationRepo.r_whatsapp_chat_id := "5215512345678";
                              ConversationRepo.r_total_messages := 4 |} ];
                       ConversationRepo.messages := [] |}
                    "c9")).
    reflexivity.
  - destruct (proj2 (completing_deactivates_one_conversation
                       {| ConversationRepo.rows :=
                            [ {| ConversationRepo.r_conv :=
                                   Fixture.conversation "finalizado" [];
                                 ConversationRepo.r_status := "active";
                                 ConversationRepo.r_whatsapp_chat_id :=
                                   "5215512345678";
                                 ConversationRepo.r_total_messages := 4 |} ];
                          ConversationRepo.messages := [] |}
                       "c1")
                    {| ConversationRepo.r_conv := Fixture.conversation "finalizado" [];
                       ConversationRepo.r_status := "active";
                       ConversationRepo.r_whatsapp_chat_id := "5215512345678";
                       ConversationRepo.r_total_messages := 4 |}
                    eq_refl) as (s' & Hrun & _ & Hrows & _).
    exists s'. split; [exact Hrun|].
    unfold ConversationRepo.get_active_by_user. rewrite Hrows. reflexivity.
Defined.
